(** * ascot5: Monte Carlo Coulomb collisions (mccc) and the plasma reader

    A shallow embedding of [simulate/mccc/mccc.c], of the older
    [mccc/mccc.c] and of the two readers of [hdf5io/hdf5_plasma.c].

    Numbers.  The C type [real] is modelled by the mathematical reals:
    rounding, infinities and NaN are outside the model, and the decimal
    constants of the source (0.8, 0.9, 0.1) stand for the exact fractions.
    Statements whose truth would depend on a division by zero or on the
    square root or power of a negative number carry a hypothesis that
    excludes it.

    Arrays.  A C array is a total map from the index to the element; a
    store replaces one element.  The SIMD structures [particle_simd_fo] and
    [particle_simd_gc] are structures of NSIMD-long arrays in the source;
    the model keeps them lane by lane, [p i] holding element [i] of every
    array of the structure. *)

From Stdlib Require Import Reals ZArith Lia Lra Bool.

Open Scope R_scope.

Abbreviation real := R (only parsing).

(** ** Arrays and loops *)

Definition array (A : Type) := nat -> A.
Definition zarray (A : Type) := Z -> A.

Definition upd {A : Type} (a : array A) (i : nat) (v : A) : array A :=
  fun j => if Nat.eqb j i then v else a j.

(** [view a off] is the C pointer [&a[off]] read as an array. *)
Definition view {A : Type} (a : array A) (off : nat) : array A :=
  fun j => a (off + j)%nat.

(** [for (i = 0; i < n; i++) body], the iterations taken in order. *)
Fixpoint for_loop {S : Type} (n : nat) (body : nat -> S -> S) (s : S) : S :=
  match n with
  | O => s
  | S k => body k (for_loop k body s)
  end.

(** [for (j = lo; j < hi; j++) body] with C [int] bounds. *)
Definition for_int {S : Type} (lo : nat) (hi : Z) (body : nat -> S -> S)
  (s : S) : S :=
  for_loop (Z.to_nat hi - lo) (fun k => body (lo + k)%nat) s.

(** [acc = 0; for (j = 0; j < n; j++) acc = acc + b[j]]. *)
Definition sum_species (n : Z) (b : array real) : real :=
  for_int 0 n (fun j acc => acc + b j) 0.

(** A callee that is handed [&a[off]] and a count [n] fills the entries
    [0 .. n-1] of that buffer. *)
Definition write_block (a : array real) (off : nat) (n : Z)
  (vals : array real) : array real :=
  for_int 0 n (fun j acc => upd acc (off + j) (vals j)) a.

(** The elements of [l] stored from [&a[off]] on. *)
Definition write_list {A : Type} (a : array A) (off : nat) (l : list A)
  : array A :=
  fun j =>
    if Nat.leb off j && Nat.ltb j (off + length l)
    then List.nth (j - off) l (a j) else a j.

(** A C [int] result, wrapped to 32 bits. *)
Definition wrap_int (z : Z) : Z := ((z + 2 ^ 31) mod 2 ^ 32 - 2 ^ 31)%Z.

(** ** Comparisons and libm *)

Definition Rgtb (x y : real) : bool := if Rgt_dec x y then true else false.
Definition Rgeb (x y : real) : bool := if Rge_dec x y then true else false.
Definition Rltb (x y : real) : bool := if Rlt_dec x y then true else false.

Definition fabs (x : real) : real := Rabs x.

(** C [pow] on the part of its domain that has a real value here: a
    positive base, and base zero with a positive exponent.  A non-positive
    base with another exponent (an infinity, a NaN, or a negative base) is
    outside the model and reads 0. *)
Definition pow (x y : real) : real :=
  if Rlt_dec 0 x then Rpower x y else 0.

Definition vec3 : Type := real * real * real.
Definition v0 (v : vec3) : real := fst (fst v).
Definition v1 (v : vec3) : real := snd (fst v).
Definition v2 (v : vec3) : real := snd v.

(** ** The lanes of the SIMD structures *)

Record fo_marker := {
  fo_r : real; fo_phi : real; fo_z : real;
  fo_rdot : real; fo_phidot : real; fo_zdot : real;
  fo_mass : real; fo_charge : real;
  fo_rho : real;
  fo_running : bool
}.

Record gc_marker := {
  gc_r : real; gc_phi : real; gc_z : real;
  gc_vpar : real; gc_mu : real; gc_pol : real;
  gc_mass : real; gc_charge : real;
  gc_rho : real;
  gc_B_r : real; gc_B_r_dr : real; gc_B_r_dphi : real; gc_B_r_dz : real;
  gc_B_phi : real; gc_B_phi_dr : real; gc_B_phi_dphi : real;
  gc_B_phi_dz : real;
  gc_B_z : real; gc_B_z_dr : real; gc_B_z_dphi : real; gc_B_z_dz : real;
  gc_running : bool
}.

(** What [mccc_push_gcEM] stores through its output pointers. *)
Record push_gcEM_out := {
  em_vout : real; em_xiout : real; em_Xout : vec3; em_err : Z
}.

(** What [mccc_push_gcMI] stores through its output pointers. *)
Record push_gcMI_out := {
  mi_vout : real; mi_xiout : real; mi_Xout : vec3;
  mi_kappa_k : real; mi_kappa_d0 : real; mi_kappa_d1 : real;
  mi_err : Z
}.

(** What [mccc_coefs_fo] stores through its five output pointers. *)
Record coefs_fo_out := {
  cf_F : array real; cf_Dpara : array real; cf_Dperp : array real;
  cf_K : array real; cf_nu : array real
}.

(** What [mccc_coefs_gcfixed] stores through its four output pointers. *)
Record coefs_gcfixed_out := {
  cg_Dpara : array real; cg_DX : array real;
  cg_K : array real; cg_nu : array real
}.

(** What [mccc_coefs_gcadaptive] stores through its six output pointers. *)
Record coefs_gcadaptive_out := {
  ca_Dpara : array real; ca_DX : array real;
  ca_K : array real; ca_nu : array real;
  ca_dQ : array real; ca_dDpara : array real
}.

(** ** The collaborators

    The headers [ascot5.h], [consts.h], [math.h], [B_field.h],
    [plasma_1d.h], [mccc_coefs.h], [mccc_push.h] and [mccc_wiener.h] are
    not among the sources: their constants, types and functions are the
    fields of this interface, and every statement below holds for all of
    them.  A function that writes through a pointer returns what it
    writes; one that is handed [&err[i]] receives the lane's flag and
    returns its new value. *)
Class Collaborators := {
  (* ascot5.h *)
  NSIMD : nat;
  MAX_SPECIES : nat;
  A5_CCOL_NOENERGY : bool;
  A5_CCOL_NOPITCH : bool;
  A5_CCOL_NOGCDIFF : bool;
  (* consts.h *)
  CONST_KB : real;
  CONST_2PI : real;
  CONST_E : real;
  CONST_M_E : real;
  CONST_U : real;
  (* libm functions without a counterpart in the library of reals *)
  atan2 : real -> real -> real;
  fmod : real -> real -> real;
  (* math.h of the repository *)
  math_norm : vec3 -> real;
  math_normc : real -> real -> real -> real;
  (* B_field.h *)
  B_field_data : Type;
  B_field_eval_B : real -> real -> real -> B_field_data -> vec3;
  B_field_eval_B_dB : real -> real -> real -> B_field_data -> array real;
  B_field_eval_psi : real -> real -> real -> B_field_data -> real;
  B_field_eval_rho : real -> B_field_data -> real;
  B_field_get_axis_r : B_field_data -> real;
  B_field_get_axis_z : B_field_data -> real;
  (* plasma_1d.h *)
  plasma_1d_data : Type;
  n_species : plasma_1d_data -> Z;
  pl_mass : plasma_1d_data -> array real;
  pl_charge : plasma_1d_data -> array real;
  plasma_1d_eval_temp : real -> nat -> plasma_1d_data -> real;
  plasma_1d_eval_dens : real -> nat -> plasma_1d_data -> real;
  plasma_1d_eval_densandtemp :
    real -> plasma_1d_data -> array real * array real;
  (* mccc_coefs.h *)
  mccc_coefs_clog :
    real -> real -> real -> array real -> array real ->
    array real -> array real -> Z -> array real;
  mccc_coefs_fo :
    real -> real -> real -> array real -> array real ->
    array real -> array real -> array real -> Z -> coefs_fo_out;
  mccc_coefs_gcfixed :
    real -> real -> real -> real -> array real -> array real ->
    array real -> array real -> real -> array real -> Z ->
    coefs_gcfixed_out;
  mccc_coefs_gcadaptive :
    real -> real -> real -> real -> array real -> array real ->
    array real -> array real -> real -> array real -> Z ->
    coefs_gcadaptive_out;
  (* mccc_push.h *)
  mccc_push_foEM :
    real -> real -> real -> real -> array real -> vec3 -> Z -> vec3 * Z;
  mccc_push_gcEM :
    real -> real -> real -> real -> vec3 -> real -> array real ->
    real -> real -> vec3 -> real -> Z -> push_gcEM_out;
  mccc_push_gcMI :
    real -> real -> real -> real -> vec3 -> real -> array real ->
    real -> real -> real -> real -> vec3 -> real -> real -> Z ->
    push_gcMI_out;
  (* mccc_wiener.h *)
  mccc_wienarr : Type;
  wn_time : mccc_wienarr -> zarray real;
  wn_wiener : mccc_wienarr -> zarray real;
  mccc_wiener_generate :
    mccc_wienarr -> real -> array real -> Z -> mccc_wienarr * Z * Z;
  (* mccc_wiener.h as mccc/mccc.c uses it: no array of variates *)
  legacy_wiener_generate :
    mccc_wienarr -> real -> Z -> mccc_wienarr * Z * Z
}.

(** Modelled from the spec: MCCC_NDIM of [mccc_wiener.h], the dimension
    of a Wiener increment (3 translational and 2 for energy and pitch). *)
Definition MCCC_NDIM : nat := 5.

(** The content of a local array before its first store.  The source
    reads no such element as long as the callees keep to the species
    count they are given. *)
Definition uninit : array real := fun _ => 0.

(** ** The accept/reject decision of the adaptive step

    Lines 632 to 652 of [simulate/mccc/mccc.c], as functions of the three
    error ratios, the step taken and the Wiener increment. *)

(** [rejected]: set when one of the ratios exceeds 1. *)
Definition step_rejected (kappa_k kappa_d0 kappa_d1 : real) : bool :=
  Rgtb kappa_k 1 || Rgtb kappa_d0 1 || Rgtb kappa_d1 1.

(** The value stored in [hout[i]] before the sign is set. *)
Definition step_proposal (hin : real) (dW : array real)
  (kappa_k kappa_d0 kappa_d1 : real) : real :=
  if Rgeb kappa_k kappa_d0 && Rgeb kappa_k kappa_d1 then
    (8 / 10) * hin / sqrt kappa_k
  else if Rgeb kappa_d0 kappa_k && Rgeb kappa_d0 kappa_d1 then
    pow ((9 / 10) * fabs (dW 3%nat) * pow kappa_d0 (- 1 / 3)) 2
  else
    pow ((9 / 10) * fabs (dW 4%nat) * pow kappa_d1 (- 1 / 3)) 2.

(** The value of [hout[i]] when the lane is done. *)
Definition step_hout (hin : real) (dW : array real)
  (kappa_k kappa_d0 kappa_d1 : real) : real :=
  let hout := step_proposal hin dW kappa_k kappa_d0 kappa_d1 in
  if step_rejected kappa_k kappa_d0 kappa_d1 then - hout else hout.

(** ** Speeds and the cutoff *)

(** The speed of a full-orbit lane. *)
Definition fo_speed (m : fo_marker) : real :=
  sqrt (fo_rdot m * fo_rdot m
        + (fo_r m * fo_phidot m) * (fo_r m * fo_phidot m)
        + fo_zdot m * fo_zdot m).

(** The speed of a guiding centre in [mccc_update_gc] and
    [mccc_collfreq_gc]:
    [t = 2*mu*Bnorm*mass; va = sqrt(vpar*vpar + t*t)]. *)
Definition gc_speed_update (vpar mu mass Bnorm : real) : real :=
  let t := 2 * mu * Bnorm * mass in
  sqrt (vpar * vpar + t * t).

(** The speed of a guiding centre in [mccc_step_gc_fixed] and
    [mccc_step_gc_adaptive]:
    [tmp = 2*mu*Bnorm/mass; vin = sqrt(vpar*vpar + tmp)]. *)
Definition gc_speed_step (vpar mu mass Bnorm : real) : real :=
  let tmp := 2 * mu * Bnorm / mass in
  sqrt (vpar * vpar + tmp).

(** [cutoff = 0.1*sqrt(temp[0]/mass)]. *)
Definition gc_cutoff (temp0 mass : real) : real :=
  (1 / 10) * sqrt (temp0 / mass).

(** [real cutoff = 0; //TODO give me a real value!] of [mccc/mccc.c]. *)
Definition legacy_cutoff : real := 0.

(** ** simulate/mccc/mccc.c *)

Section Mccc.
Context `{Collaborators}.

(** The background of a lane as [mccc_update_fo], [mccc_update_gc] and
    [mccc_collfreq_gc] fetch it: every ion has the temperature of
    species 1.  The result is the pair (dens, temp). *)
Definition background_update (rho : real) (pdata : plasma_1d_data)
  : array real * array real :=
  let temp := upd uninit 0 (plasma_1d_eval_temp rho 0 pdata * CONST_KB) in
  let temp := upd temp 1 (plasma_1d_eval_temp rho 1 pdata * CONST_KB) in
  let dens := upd uninit 0 (plasma_1d_eval_dens rho 0 pdata) in
  for_int 1 (n_species pdata)
    (fun j dt =>
       let dens := upd (fst dt) j (plasma_1d_eval_dens rho j pdata) in
       let temp := upd (snd dt) j (snd dt 1%nat) in
       (dens, temp))
    (dens, temp).

(** The background of a lane as the three step functions fetch it. *)
Definition background_step (rho : real) (pdata : plasma_1d_data)
  : array real * array real :=
  let dt := plasma_1d_eval_densandtemp rho pdata in
  let temp :=
    for_int 0 (n_species pdata)
      (fun j temp => upd temp j (temp j * CONST_KB)) (snd dt) in
  (fst dt, temp).

(** *** mccc_update_fo *)

Record fo_coefs := {
  fc_clogab : array real; fc_F : array real; fc_Dpara : array real;
  fc_Dperp : array real; fc_K : array real; fc_nu : array real
}.

Definition mccc_update_fo_lane (p : array fo_marker)
  (pdata : plasma_1d_data) (i : nat) (c : fo_coefs) : fo_coefs :=
  let m := p i in
  if fo_running m then
    let dt := background_update (fo_rho m) pdata in
    let dens := fst dt in
    let temp := snd dt in
    let va := fo_speed m in
    let n := n_species pdata in
    let off := (i * MAX_SPECIES)%nat in
    let clogab :=
      write_block (fc_clogab c) off n
        (mccc_coefs_clog (fo_mass m) (fo_charge m) va
           (pl_mass pdata) (pl_charge pdata) dens temp n) in
    let o :=
      mccc_coefs_fo (fo_mass m) (fo_charge m) va
        (pl_mass pdata) (pl_charge pdata) dens temp (view clogab off) n in
    {| fc_clogab := clogab;
       fc_F := write_block (fc_F c) off n (cf_F o);
       fc_Dpara := write_block (fc_Dpara c) off n (cf_Dpara o);
       fc_Dperp := write_block (fc_Dperp c) off n (cf_Dperp o);
       fc_K := write_block (fc_K c) off n (cf_K o);
       fc_nu := write_block (fc_nu c) off n (cf_nu o) |}
  else c.

Definition mccc_update_fo (p : array fo_marker) (pdata : plasma_1d_data)
  (c : fo_coefs) : fo_coefs :=
  for_loop NSIMD (mccc_update_fo_lane p pdata) c.

(** *** mccc_collfreq_gc *)

Definition mccc_collfreq_gc (p : array gc_marker) (pdata : plasma_1d_data)
  (i : nat) : real :=
  let m := p i in
  let B := (gc_B_r m, gc_B_phi m, gc_B_z m) in
  let dt := background_update (gc_rho m) pdata in
  let dens := fst dt in
  let temp := snd dt in
  let Bnorm := math_norm B in
  let va := gc_speed_update (gc_vpar m) (gc_mu m) (gc_mass m) Bnorm in
  let xi := gc_vpar m / va in
  let n := n_species pdata in
  let clogab :=
    mccc_coefs_clog (gc_mass m) (gc_charge m) va
      (pl_mass pdata) (pl_charge pdata) dens temp n in
  let o :=
    mccc_coefs_gcfixed (gc_mass m) (gc_charge m) va xi
      (pl_mass pdata) (pl_charge pdata) dens temp Bnorm clogab n in
  sum_species n (cg_nu o).

(** *** mccc_update_gc *)

Record gc_coefs := {
  gk_clogab : array real; gk_Dpara : array real; gk_DX : array real;
  gk_K : array real; gk_nu : array real; gk_dQ : array real;
  gk_dDpara : array real
}.

Definition mccc_update_gc_lane (p : array gc_marker)
  (pdata : plasma_1d_data) (i : nat) (c : gc_coefs) : gc_coefs :=
  let m := p i in
  if gc_running m then
    let B := (gc_B_r m, gc_B_phi m, gc_B_z m) in
    let dt := background_update (gc_rho m) pdata in
    let dens := fst dt in
    let temp := snd dt in
    let Bnorm := math_norm B in
    let va := gc_speed_update (gc_vpar m) (gc_mu m) (gc_mass m) Bnorm in
    let xi := gc_vpar m / va in
    let n := n_species pdata in
    let off := (i * MAX_SPECIES)%nat in
    let clogab :=
      write_block (gk_clogab c) off n
        (mccc_coefs_clog (gc_mass m) (gc_charge m) va
           (pl_mass pdata) (pl_charge pdata) dens temp n) in
    let o :=
      mccc_coefs_gcadaptive (gc_mass m) (gc_charge m) va xi
        (pl_mass pdata) (pl_charge pdata) dens temp Bnorm
        (view clogab off) n in
    {| gk_clogab := clogab;
       gk_Dpara := write_block (gk_Dpara c) off n (ca_Dpara o);
       gk_DX := write_block (gk_DX c) off n (ca_DX o);
       gk_K := write_block (gk_K c) off n (ca_K o);
       gk_nu := write_block (gk_nu c) off n (ca_nu o);
       gk_dQ := write_block (gk_dQ c) off n (ca_dQ o);
       gk_dDpara := write_block (gk_dDpara c) off n (ca_dDpara o) |}
  else c.

Definition mccc_update_gc (p : array gc_marker) (pdata : plasma_1d_data)
  (c : gc_coefs) : gc_coefs :=
  for_loop NSIMD (mccc_update_gc_lane p pdata) c.

(** *** mccc_step_fo_fixed

    [rnd] is the array that [mccc_wiener_boxmuller] fills with
    [3*NSIMD] normal variates before the loop. *)

Record fo_state := {
  fs_p : array fo_marker;
  fs_err : array Z
}.

Definition mccc_step_fo_fixed_lane (pdata : plasma_1d_data)
  (h : array real) (rnd : array real) (i : nat) (st : fo_state)
  : fo_state :=
  let m := fs_p st i in
  if fo_running m then
    let dt := background_step (fo_rho m) pdata in
    let dens := fst dt in
    let temp := snd dt in
    let va := fo_speed m in
    let n := n_species pdata in
    let clogab :=
      mccc_coefs_clog (fo_mass m) (fo_charge m) va
        (pl_mass pdata) (pl_charge pdata) dens temp n in
    let o :=
      mccc_coefs_fo (fo_mass m) (fo_charge m) va
        (pl_mass pdata) (pl_charge pdata) dens temp clogab n in
    let F := sum_species n (cf_F o) in
    let Dpara := sum_species n (cf_Dpara o) in
    let Dperp := sum_species n (cf_Dperp o) in
    let vin : vec3 :=
      (fo_rdot m * cos (fo_phi m)
         - (fo_phidot m * fo_r m) * sin (fo_phi m),
       fo_rdot m * sin (fo_phi m)
         + (fo_phidot m * fo_r m) * cos (fo_phi m),
       fo_zdot m) in
    let pe :=
      mccc_push_foEM F Dpara Dperp (h i) (view rnd (i * 3)) vin
        (fs_err st i) in
    let vout := fst pe in
    let vout :=
      if A5_CCOL_NOENERGY then
        let vnorm :=
          va / sqrt (v0 vout * v0 vout + v1 vout * v1 vout
                     + v2 vout * v2 vout) in
        (v0 vout * vnorm, v1 vout * vnorm, v2 vout * vnorm)
      else vout in
    let vout :=
      if A5_CCOL_NOPITCH then
        let vnorm :=
          sqrt (v0 vout * v0 vout + v1 vout * v1 vout
                + v2 vout * v2 vout) / va in
        (v0 vin * vnorm, v1 vin * vnorm, v2 vin * vnorm)
      else vout in
    let m' :=
      {| fo_r := fo_r m; fo_phi := fo_phi m; fo_z := fo_z m;
         fo_rdot := v0 vout * cos (fo_phi m) + v1 vout * sin (fo_phi m);
         fo_phidot :=
           (- v0 vout * sin (fo_phi m) + v1 vout * cos (fo_phi m))
           / fo_r m;
         fo_zdot := v2 vout;
         fo_mass := fo_mass m; fo_charge := fo_charge m;
         fo_rho := fo_rho m;
         fo_running := fo_running m |} in
    {| fs_p := upd (fs_p st) i m'; fs_err := upd (fs_err st) i (snd pe) |}
  else st.

Definition mccc_step_fo_fixed (pdata : plasma_1d_data) (h : array real)
  (rnd : array real) (st : fo_state) : fo_state :=
  for_loop NSIMD (mccc_step_fo_fixed_lane pdata h rnd) st.

(** *** The position of a guiding centre after a push

    Both guiding-centre steps store the new position the same way:
    [r] and [z] from [Xout], the poloidal angle accumulated around the
    magnetic axis, the toroidal angle accumulated from [phi0]. *)

Definition gc_new_r (Xout : vec3) : real :=
  sqrt (v0 Xout * v0 Xout + v1 Xout * v1 Xout).

Definition gc_new_z (Xout : vec3) : real := v2 Xout.

Definition gc_new_pol (Bdata : B_field_data) (pol0 R0 z0 r1 z1 : real)
  : real :=
  let axis_r := B_field_get_axis_r Bdata in
  let axis_z := B_field_get_axis_z Bdata in
  pol0 + atan2 ((R0 - axis_r) * (z1 - axis_z) - (z0 - axis_z) * (r1 - axis_r))
               ((R0 - axis_r) * (r1 - axis_r) + (z0 - axis_z) * (z1 - axis_z)).

Definition gc_new_phi (phi0 : real) (Xout : vec3) : real :=
  let tphi := fmod phi0 CONST_2PI in
  let tphi := if Rltb tphi 0 then CONST_2PI + tphi else tphi in
  let tphi :=
    fmod (atan2 (v1 Xout) (v0 Xout) + CONST_2PI) CONST_2PI - tphi in
  phi0 + tphi.

(** [rho] at a position: [B_field_eval_psi] then [B_field_eval_rho]. *)
Definition rho_at (Bdata : B_field_data) (r phi z : real) : real :=
  B_field_eval_rho (B_field_eval_psi r phi z Bdata) Bdata.

(** The marker of a lane once position, field cache, [rho], [mu] and
    [vpar] are stored; mass, charge and the running flag are kept. *)
Definition gc_store (m : gc_marker) (r1 phi1 z1 pol1 mu1 vpar1 : real)
  (B_dB : array real) (rho1 : real) : gc_marker :=
  {| gc_r := r1; gc_phi := phi1; gc_z := z1;
     gc_vpar := vpar1; gc_mu := mu1; gc_pol := pol1;
     gc_mass := gc_mass m; gc_charge := gc_charge m;
     gc_rho := rho1;
     gc_B_r := B_dB 0%nat; gc_B_r_dr := B_dB 1%nat;
     gc_B_r_dphi := B_dB 2%nat; gc_B_r_dz := B_dB 3%nat;
     gc_B_phi := B_dB 4%nat; gc_B_phi_dr := B_dB 5%nat;
     gc_B_phi_dphi := B_dB 6%nat; gc_B_phi_dz := B_dB 7%nat;
     gc_B_z := B_dB 8%nat; gc_B_z_dr := B_dB 9%nat;
     gc_B_z_dphi := B_dB 10%nat; gc_B_z_dz := B_dB 11%nat;
     gc_running := gc_running m |}.

(** *** mccc_step_gc_fixed

    [rnd] is the array that [mccc_wiener_boxmuller] fills with
    [5*NSIMD] normal variates before the loop. *)

Record gc_fixed_state := {
  gf_p : array gc_marker;
  gf_err : array Z
}.

(** The call of [mccc_push_gcEM] for a running lane. *)
Definition gc_fixed_push (pdata : plasma_1d_data) (h : array real)
  (rnd : array real) (i : nat) (m : gc_marker) (err_i : Z)
  : push_gcEM_out :=
  let B := (gc_B_r m, gc_B_phi m, gc_B_z m) in
  let dt := background_step (gc_rho m) pdata in
  let dens := fst dt in
  let temp := snd dt in
  let Bnorm := math_norm B in
  let vin := gc_speed_step (gc_vpar m) (gc_mu m) (gc_mass m) Bnorm in
  let xiin := gc_vpar m / vin in
  let n := n_species pdata in
  let clogab :=
    mccc_coefs_clog (gc_mass m) (gc_charge m) vin
      (pl_mass pdata) (pl_charge pdata) dens temp n in
  let o :=
    mccc_coefs_gcfixed (gc_mass m) (gc_charge m) vin xiin
      (pl_mass pdata) (pl_charge pdata) dens temp Bnorm clogab n in
  let cutoff := gc_cutoff (temp 0%nat) (gc_mass m) in
  let Dpara := sum_species n (cg_Dpara o) in
  let K := sum_species n (cg_K o) in
  let nu := sum_species n (cg_nu o) in
  let DX := sum_species n (cg_DX o) in
  let xiin := gc_vpar m / vin in
  let Xin : vec3 :=
    (gc_r m * cos (gc_phi m), gc_r m * sin (gc_phi m), gc_z m) in
  let pe :=
    mccc_push_gcEM K nu Dpara DX B (h i) (view rnd (i * 5))
      vin xiin Xin cutoff err_i in
  {| em_vout := if A5_CCOL_NOENERGY then vin else em_vout pe;
     em_xiout := if A5_CCOL_NOPITCH then xiin else em_xiout pe;
     em_Xout := if A5_CCOL_NOGCDIFF then Xin else em_Xout pe;
     em_err := em_err pe |}.

(** The stores of [mccc_step_gc_fixed] after the push: position, then
    field and [rho] at the new position, then [mu] with the norm of the
    new field, and [vpar]. *)
Definition gc_fixed_commit (Bdata : B_field_data) (m : gc_marker)
  (vout xiout : real) (Xout : vec3) : gc_marker :=
  let phi0 := gc_phi m in
  let R0 := gc_r m in
  let z0 := gc_z m in
  let r1 := gc_new_r Xout in
  let z1 := gc_new_z Xout in
  let pol1 := gc_new_pol Bdata (gc_pol m) R0 z0 r1 z1 in
  let phi1 := gc_new_phi phi0 Xout in
  let B_dB := B_field_eval_B_dB r1 phi1 z1 Bdata in
  let rho1 := rho_at Bdata r1 phi1 z1 in
  let Bnorm := math_normc (B_dB 0%nat) (B_dB 4%nat) (B_dB 8%nat) in
  let mu1 := (1 - xiout * xiout) * gc_mass m * vout * vout / (2 * Bnorm) in
  let vpar1 := vout * xiout in
  gc_store m r1 phi1 z1 pol1 mu1 vpar1 B_dB rho1.

Definition mccc_step_gc_fixed_lane (Bdata : B_field_data)
  (pdata : plasma_1d_data) (h : array real) (rnd : array real) (i : nat)
  (st : gc_fixed_state) : gc_fixed_state :=
  let m := gf_p st i in
  if gc_running m then
    let pe := gc_fixed_push pdata h rnd i m (gf_err st i) in
    let m' := gc_fixed_commit Bdata m (em_vout pe) (em_xiout pe) (em_Xout pe) in
    {| gf_p := upd (gf_p st) i m'; gf_err := upd (gf_err st) i (em_err pe) |}
  else st.

Definition mccc_step_gc_fixed (Bdata : B_field_data)
  (pdata : plasma_1d_data) (h : array real) (rnd : array real)
  (st : gc_fixed_state) : gc_fixed_state :=
  for_loop NSIMD (mccc_step_gc_fixed_lane Bdata pdata h rnd) st.

(** *** mccc_step_gc_adaptive

    [rand5] is the array that [mccc_wiener_boxmuller] fills with
    [5*NSIMD] normal variates before the loop; [w] holds the Wiener
    structure of each lane. *)

Record gc_adaptive_state := {
  ga_p : array gc_marker;
  ga_hout : array real;
  ga_w : array mccc_wienarr;
  ga_err : array Z
}.

(** What a running lane computes up to the three [#if] blocks that
    follow the push. *)
Record gc_adaptive_push := {
  ap_w : mccc_wienarr;
  ap_tindex : Z;
  ap_dW : array real;
  ap_Bnorm : real;
  ap_out : push_gcMI_out
}.

Definition gc_adaptive_wiener_push (pdata : plasma_1d_data)
  (hin : array real) (tol : real) (rand5 : array real) (i : nat)
  (m : gc_marker) (w_i : mccc_wienarr) (err_i : Z) : gc_adaptive_push :=
  let B := (gc_B_r m, gc_B_phi m, gc_B_z m) in
  let dt := background_step (gc_rho m) pdata in
  let dens := fst dt in
  let temp := snd dt in
  let Bnorm := math_norm B in
  let vin := gc_speed_step (gc_vpar m) (gc_mu m) (gc_mass m) Bnorm in
  let xiin := gc_vpar m / vin in
  let n := n_species pdata in
  let clogab :=
    mccc_coefs_clog (gc_mass m) (gc_charge m) vin
      (pl_mass pdata) (pl_charge pdata) dens temp n in
  let o :=
    mccc_coefs_gcadaptive (gc_mass m) (gc_charge m) vin xiin
      (pl_mass pdata) (pl_charge pdata) dens temp Bnorm clogab n in
  let cutoff := gc_cutoff (temp 0%nat) (gc_mass m) in
  let Dpara := sum_species n (ca_Dpara o) in
  let K := sum_species n (ca_K o) in
  let nu := sum_species n (ca_nu o) in
  let DX := sum_species n (ca_DX o) in
  let dQ := sum_species n (ca_dQ o) in
  let dDpara := sum_species n (ca_dDpara o) in
  let t := wn_time w_i 0%Z in
  let g :=
    mccc_wiener_generate w_i (t + hin i) (view rand5 (i * MCCC_NDIM))
      err_i in
  let w1 := fst (fst g) in
  let tindex := snd (fst g) in
  let err1 := snd g in
  let wd (k : Z) :=
    wn_wiener w1 (tindex * Z.of_nat MCCC_NDIM + k)%Z - wn_wiener w1 k in
  let dW :=
    upd (upd (upd (upd (upd uninit 0 (wd 0%Z)) 1 (wd 1%Z)) 2 (wd 2%Z))
           3 (wd 3%Z)) 4 (wd 4%Z) in
  let xiin := gc_vpar m / vin in
  let Xin : vec3 :=
    (gc_r m * cos (gc_phi m), gc_r m * sin (gc_phi m), gc_z m) in
  let pe :=
    mccc_push_gcMI K nu Dpara DX B (hin i) dW dQ dDpara
      vin xiin Xin cutoff tol err1 in
  {| ap_w := w1; ap_tindex := tindex; ap_dW := dW; ap_Bnorm := Bnorm;
     ap_out :=
       {| mi_vout := if A5_CCOL_NOENERGY then vin else mi_vout pe;
          mi_xiout := if A5_CCOL_NOPITCH then xiin else mi_xiout pe;
          mi_Xout := if A5_CCOL_NOGCDIFF then Xin else mi_Xout pe;
          mi_kappa_k := mi_kappa_k pe;
          mi_kappa_d0 := mi_kappa_d0 pe;
          mi_kappa_d1 := mi_kappa_d1 pe;
          mi_err := mi_err pe |} |}.

(** The stores of [mccc_step_gc_adaptive] after the push: [mu] with the
    norm of the field before the step, [vpar], the position, then field
    and [rho] at the new position. *)
Definition gc_adaptive_commit (Bdata : B_field_data) (m : gc_marker)
  (Bnorm vout xiout : real) (Xout : vec3) : gc_marker :=
  let phi0 := gc_phi m in
  let R0 := gc_r m in
  let z0 := gc_z m in
  let mu1 := (1 - xiout * xiout) * gc_mass m * vout * vout / (2 * Bnorm) in
  let vpar1 := vout * xiout in
  let r1 := gc_new_r Xout in
  let z1 := gc_new_z Xout in
  let pol1 := gc_new_pol Bdata (gc_pol m) R0 z0 r1 z1 in
  let phi1 := gc_new_phi phi0 Xout in
  let B_dB := B_field_eval_B_dB r1 phi1 z1 Bdata in
  let rho1 := rho_at Bdata r1 phi1 z1 in
  gc_store m r1 phi1 z1 pol1 mu1 vpar1 B_dB rho1.

Definition mccc_step_gc_adaptive_lane (Bdata : B_field_data)
  (pdata : plasma_1d_data) (hin : array real) (tol : real)
  (rand5 : array real) (i : nat) (st : gc_adaptive_state)
  : gc_adaptive_state :=
  let m := ga_p st i in
  if gc_running m then
    let a :=
      gc_adaptive_wiener_push pdata hin tol rand5 i m (ga_w st i)
        (ga_err st i) in
    let o := ap_out a in
    let m' :=
      gc_adaptive_commit Bdata m (ap_Bnorm a) (mi_vout o) (mi_xiout o)
        (mi_Xout o) in
    let rejected :=
      step_rejected (mi_kappa_k o) (mi_kappa_d0 o) (mi_kappa_d1 o) in
    let tindex := if rejected then 0%Z else ap_tindex a in
    let hout :=
      step_proposal (hin i) (ap_dW a) (mi_kappa_k o) (mi_kappa_d0 o)
        (mi_kappa_d1 o) in
    let hout := if rejected then - hout else hout in
    {| ga_p := upd (ga_p st) i m';
       ga_hout := upd (ga_hout st) i hout;
       ga_w := upd (ga_w st) i (ap_w a);
       ga_err := upd (ga_err st) i (mi_err o) |}
  else st.

(** The function returns after its first loop; the loop that follows the
    [return] in the source is never run. *)
Definition mccc_step_gc_adaptive (Bdata : B_field_data)
  (pdata : plasma_1d_data) (hin : array real) (tol : real)
  (rand5 : array real) (st : gc_adaptive_state) : gc_adaptive_state :=
  for_loop NSIMD (mccc_step_gc_adaptive_lane Bdata pdata hin tol rand5) st.

(** *** What a lane holds

    The slots of lane [i]: its marker, its entries of [hout] and [err],
    its Wiener structure, and its [MAX_SPECIES] entries of each
    coefficient array. *)

Definition fo_lane (st : fo_state) (i : nat) : fo_marker * Z :=
  (fs_p st i, fs_err st i).

Definition gc_fixed_lane (st : gc_fixed_state) (i : nat) : gc_marker * Z :=
  (gf_p st i, gf_err st i).

Definition gc_adaptive_lane (st : gc_adaptive_state) (i : nat)
  : gc_marker * real * mccc_wienarr * Z :=
  (ga_p st i, ga_hout st i, ga_w st i, ga_err st i).

Definition fo_coefs_slot (c : fo_coefs) (i s : nat)
  : real * real * real * real * real * real :=
  let q := (i * MAX_SPECIES + s)%nat in
  (fc_clogab c q, fc_F c q, fc_Dpara c q, fc_Dperp c q, fc_K c q,
   fc_nu c q).

Definition gc_coefs_slot (c : gc_coefs) (i s : nat)
  : real * real * real * real * real * real * real :=
  let q := (i * MAX_SPECIES + s)%nat in
  (gk_clogab c q, gk_Dpara c q, gk_DX c q, gk_K c q, gk_nu c q,
   gk_dQ c q, gk_dDpara c q).

(** One iteration of each step loop, run on the slots of its lane
    alone. *)

Definition fo_fixed_on_lane (pdata : plasma_1d_data) (h : array real)
  (rnd : array real) (i : nat) (l : fo_marker * Z) : fo_marker * Z :=
  fo_lane
    (mccc_step_fo_fixed_lane pdata h rnd i
       {| fs_p := fun _ => fst l; fs_err := fun _ => snd l |}) i.

Definition gc_fixed_on_lane (Bdata : B_field_data)
  (pdata : plasma_1d_data) (h : array real) (rnd : array real) (i : nat)
  (l : gc_marker * Z) : gc_marker * Z :=
  gc_fixed_lane
    (mccc_step_gc_fixed_lane Bdata pdata h rnd i
       {| gf_p := fun _ => fst l; gf_err := fun _ => snd l |}) i.

Definition gc_adaptive_on_lane (Bdata : B_field_data)
  (pdata : plasma_1d_data) (hin : array real) (tol : real)
  (rand5 : array real) (i : nat) (l : gc_marker * real * mccc_wienarr * Z)
  : gc_marker * real * mccc_wienarr * Z :=
  gc_adaptive_lane
    (mccc_step_gc_adaptive_lane Bdata pdata hin tol rand5 i
       {| ga_p := fun _ => fst (fst (fst l));
          ga_hout := fun _ => snd (fst (fst l));
          ga_w := fun _ => snd (fst l);
          ga_err := fun _ => snd l |}) i.


End Mccc.

(** ** mccc/mccc.c, the older file: mccc_step_gc_fixed

    The field and [rho] are evaluated at the position of the lane, the
    background is fetched species by species, and the variates are
    [1-2*drand48()]; [u] holds the values that [drand48] returns, five
    for each lane. *)

Module Legacy.
Section LegacyMccc.
Context `{Collaborators}.

Definition background (rho : real) (pdata : plasma_1d_data)
  : array real * array real :=
  for_int 0 (n_species pdata)
    (fun j dt =>
       let temp := upd (snd dt) j (plasma_1d_eval_temp rho j pdata * CONST_KB) in
       let dens := upd (fst dt) j (plasma_1d_eval_dens rho j pdata) in
       (dens, temp))
    (uninit, uninit).

(** The call of [mccc_push_gcEM] for a running lane. *)
Definition gc_fixed_push (Bdata : B_field_data) (pdata : plasma_1d_data)
  (h : array real) (u : array real) (i : nat) (m : gc_marker) (err_i : Z)
  : real * push_gcEM_out :=
  let B := B_field_eval_B (gc_r m) (gc_phi m) (gc_z m) Bdata in
  let rho := rho_at Bdata (gc_r m) (gc_phi m) (gc_z m) in
  let dt := background rho pdata in
  let dens := fst dt in
  let temp := snd dt in
  let Bnorm := math_norm B in
  let vin := gc_speed_step (gc_vpar m) (gc_mu m) (gc_mass m) Bnorm in
  let xiin := gc_vpar m / vin in
  let n := n_species pdata in
  let clogab :=
    mccc_coefs_clog (gc_mass m) (gc_charge m) vin
      (pl_mass pdata) (pl_charge pdata) dens temp n in
  let o :=
    mccc_coefs_gcfixed (gc_mass m) (gc_charge m) vin xiin
      (pl_mass pdata) (pl_charge pdata) dens temp Bnorm clogab n in
  let cutoff := legacy_cutoff in
  let Dpara := sum_species n (cg_Dpara o) in
  let K := sum_species n (cg_K o) in
  let nu := sum_species n (cg_nu o) in
  let DX := sum_species n (cg_DX o) in
  let xiin := gc_vpar m / vin in
  let Xin : vec3 :=
    (gc_r m * cos (gc_phi m), gc_r m * sin (gc_phi m), gc_z m) in
  let rnd :=
    for_loop 5 (fun k a => upd a k (1 - 2 * u (i * 5 + k)%nat)) uninit in
  (Bnorm,
   mccc_push_gcEM K nu Dpara DX B (h i) rnd vin xiin Xin cutoff err_i).

Definition mccc_step_gc_fixed_lane (Bdata : B_field_data)
  (pdata : plasma_1d_data) (h : array real) (u : array real) (i : nat)
  (st : gc_fixed_state) : gc_fixed_state :=
  let m := gf_p st i in
  if gc_running m then
    let bp := gc_fixed_push Bdata pdata h u i m (gf_err st i) in
    let Bnorm := fst bp in
    let pe := snd bp in
    let vout := em_vout pe in
    let xiout := em_xiout pe in
    let Xout := em_Xout pe in
    let m' :=
      {| gc_r := sqrt (v0 Xout * v0 Xout + v1 Xout * v1 Xout);
         gc_phi := atan2 (v1 Xout) (v0 Xout);
         gc_z := v2 Xout;
         gc_vpar := vout * xiout;
         gc_mu :=
           (1 - xiout * xiout) * gc_mass m * vout * vout / (2 * Bnorm);
         gc_pol := gc_pol m;
         gc_mass := gc_mass m; gc_charge := gc_charge m;
         gc_rho := gc_rho m;
         gc_B_r := gc_B_r m; gc_B_r_dr := gc_B_r_dr m;
         gc_B_r_dphi := gc_B_r_dphi m; gc_B_r_dz := gc_B_r_dz m;
         gc_B_phi := gc_B_phi m; gc_B_phi_dr := gc_B_phi_dr m;
         gc_B_phi_dphi := gc_B_phi_dphi m; gc_B_phi_dz := gc_B_phi_dz m;
         gc_B_z := gc_B_z m; gc_B_z_dr := gc_B_z_dr m;
         gc_B_z_dphi := gc_B_z_dphi m; gc_B_z_dz := gc_B_z_dz m;
         gc_running := gc_running m |} in
    {| gf_p := upd (gf_p st) i m'; gf_err := upd (gf_err st) i (em_err pe) |}
  else st.

Definition mccc_step_gc_fixed (Bdata : B_field_data)
  (pdata : plasma_1d_data) (h : array real) (u : array real)
  (st : gc_fixed_state) : gc_fixed_state :=
  for_loop NSIMD (mccc_step_gc_fixed_lane Bdata pdata h u) st.

(** *** mccc_step_fo_fixed of the older file

    The push is handed [err], the address of element 0 of the error
    array, for every lane.  [u] holds the values of [drand48], three for
    each lane. *)
Definition mccc_step_fo_fixed_lane (Bdata : B_field_data)
  (pdata : plasma_1d_data) (h : array real) (u : array real) (i : nat)
  (st : fo_state) : fo_state :=
  let m := fs_p st i in
  if fo_running m then
    let rho := rho_at Bdata (fo_r m) (fo_phi m) (fo_z m) in
    let dt := background rho pdata in
    let dens := fst dt in
    let temp := snd dt in
    let va := fo_speed m in
    let n := n_species pdata in
    let clogab :=
      mccc_coefs_clog (fo_mass m) (fo_charge m) va
        (pl_mass pdata) (pl_charge pdata) dens temp n in
    let o :=
      mccc_coefs_fo (fo_mass m) (fo_charge m) va
        (pl_mass pdata) (pl_charge pdata) dens temp clogab n in
    let F := sum_species n (cf_F o) in
    let Dpara := sum_species n (cf_Dpara o) in
    let Dperp := sum_species n (cf_Dperp o) in
    let rnd :=
      for_loop 3 (fun k a => upd a k (1 - 2 * u (i * 3 + k)%nat)) uninit in
    let vin : vec3 :=
      (fo_rdot m * cos (fo_phi m)
         - (fo_phidot m * fo_r m) * sin (fo_phi m),
       fo_rdot m * sin (fo_phi m)
         + (fo_phidot m * fo_r m) * cos (fo_phi m),
       fo_zdot m) in
    let pe :=
      mccc_push_foEM F Dpara Dperp (h i) rnd vin (fs_err st 0%nat) in
    let vout := fst pe in
    let m' :=
      {| fo_r := fo_r m; fo_phi := fo_phi m; fo_z := fo_z m;
         fo_rdot := v0 vout * cos (fo_phi m) + v1 vout * sin (fo_phi m);
         fo_phidot :=
           (- v0 vout * sin (fo_phi m) + v1 vout * cos (fo_phi m))
           / fo_r m;
         fo_zdot := v2 vout;
         fo_mass := fo_mass m; fo_charge := fo_charge m;
         fo_rho := fo_rho m;
         fo_running := fo_running m |} in
    {| fs_p := upd (fs_p st) i m';
       fs_err := upd (fs_err st) 0 (snd pe) |}
  else st.

Definition mccc_step_fo_fixed (Bdata : B_field_data)
  (pdata : plasma_1d_data) (h : array real) (u : array real)
  (st : fo_state) : fo_state :=
  for_loop NSIMD (mccc_step_fo_fixed_lane Bdata pdata h u) st.

(** *** mccc_step_gc_adaptive of the older file *)

(** The Wiener structure and the error flag of a lane while the step
    size is searched, with the loop counter [ki]. *)
Record probe_state := {
  pr_w : mccc_wienarr;
  pr_err : Z;
  pr_ki : Z;
  pr_break : bool
}.

(** One pass of
    [for (ki = 1; ki < 4; ki = ki+1) { ... if (...) {break;} ... }]
    of the first branch: the Wiener process is generated at
    [t + ki*dti/3] and the loop is left when the increment of channel 3
    or 4 since record [tindex] exceeds its bound. *)
Definition probe_pass (t dti : real) (tindex : Z) (dWopt0 dWopt1 : real)
  (s : probe_state) : probe_state :=
  if pr_break s then s
  else if Z.ltb (pr_ki s) 4 then
    let g :=
      legacy_wiener_generate (pr_w s) (t + IZR (pr_ki s) * dti / 3)
        (pr_err s) in
    let w1 := fst (fst g) in
    let windex := snd (fst g) in
    let err1 := snd g in
    let dW3 :=
      fabs (wn_wiener w1 (3 + windex * 5)%Z
            - wn_wiener w1 (3 + tindex * 5)%Z) in
    let dW4 :=
      fabs (wn_wiener w1 (4 + windex * 5)%Z
            - wn_wiener w1 (4 + tindex * 5)%Z) in
    if Rgtb dW3 dWopt0 || Rgtb dW4 dWopt1 then
      {| pr_w := w1; pr_err := err1; pr_ki := pr_ki s; pr_break := true |}
    else
      {| pr_w := w1; pr_err := err1; pr_ki := (pr_ki s + 1)%Z;
         pr_break := false |}
  else s.

(** One pass of the loop of the second branch.  Its two tests end in
    [{exit;}], an expression without effect, so the loop is never left
    early and the increments it computes are not used. *)
Definition sweep_pass (t hin : real) (s : probe_state) : probe_state :=
  if Z.ltb (pr_ki s) 4 then
    let g :=
      legacy_wiener_generate (pr_w s) (t + IZR (pr_ki s) * hin / 3)
        (pr_err s) in
    {| pr_w := fst (fst g); pr_err := snd g; pr_ki := (pr_ki s + 1)%Z;
       pr_break := false |}
  else s.

(** Lines 325 to 382: the decision and the next step size. *)
Definition legacy_decision (hin t : real) (dW : array real) (tindex0 : Z)
  (kappa_k kappa_d0 kappa_d1 : real) (w : mccc_wienarr) (err : Z)
  : real * mccc_wienarr * Z :=
  let rejected := step_rejected kappa_k kappa_d0 kappa_d1 in
  let tindex := if rejected then 0%Z else tindex0 in
  let dWopt0 := (9 / 10) * fabs (dW 3%nat) * pow kappa_d0 (- 1 / 3) in
  let dWopt1 := (9 / 10) * fabs (dW 4%nat) * pow kappa_d1 (- 1 / 3) in
  let start :=
    {| pr_w := w; pr_err := err; pr_ki := 1%Z; pr_break := false |} in
  if Rgtb kappa_k kappa_d0 || Rgtb kappa_k kappa_d1 then
    let dti := (8 / 10) * hin / sqrt kappa_k in
    let dti := if Rltb ((15 / 10) * hin) dti then (15 / 10) * hin else dti in
    let s :=
      for_loop 3 (fun _ => probe_pass t dti tindex dWopt0 dWopt1) start in
    let hout :=
      if Z.eqb (pr_ki s) 1 then dti / 3
      else IZR (pr_ki s - 1) * (dti / 3) in
    (if rejected then - hout else hout, pr_w s, pr_err s)
  else
    let s := for_loop 3 (fun _ => sweep_pass t hin) start in
    let hout :=
      if Z.eqb (pr_ki s) 1 then hin / 3
      else IZR (pr_ki s - 1) * (hin / 3) in
    (if rejected then - hout else hout, pr_w s, pr_err s).

(** The call of [mccc_push_gcMI] for a running lane, with the norm of
    the field, the Wiener structure, the record index and the increment
    it is called with. *)
Definition gc_adaptive_wiener_push (Bdata : B_field_data)
  (pdata : plasma_1d_data) (hin : array real) (tol : real) (i : nat)
  (m : gc_marker) (w_i : mccc_wienarr) (err_i : Z) : gc_adaptive_push :=
  let B := B_field_eval_B (gc_r m) (gc_phi m) (gc_z m) Bdata in
  let rho := rho_at Bdata (gc_r m) (gc_phi m) (gc_z m) in
  let dt := background rho pdata in
  let dens := fst dt in
  let temp := snd dt in
  let Bnorm := math_norm B in
  let vin := gc_speed_step (gc_vpar m) (gc_mu m) (gc_mass m) Bnorm in
  let xiin := gc_vpar m / vin in
  let n := n_species pdata in
  let clogab :=
    mccc_coefs_clog (gc_mass m) (gc_charge m) vin
      (pl_mass pdata) (pl_charge pdata) dens temp n in
  let o :=
    mccc_coefs_gcadaptive (gc_mass m) (gc_charge m) vin xiin
      (pl_mass pdata) (pl_charge pdata) dens temp Bnorm clogab n in
  let cutoff := legacy_cutoff in
  let Dpara := sum_species n (ca_Dpara o) in
  let K := sum_species n (ca_K o) in
  let nu := sum_species n (ca_nu o) in
  let DX := sum_species n (ca_DX o) in
  let dQ := sum_species n (ca_dQ o) in
  let dDpara := sum_species n (ca_dDpara o) in
  let t := wn_time w_i 0%Z in
  let g := legacy_wiener_generate w_i (t + hin i) err_i in
  let w1 := fst (fst g) in
  let tindex := snd (fst g) in
  let err1 := snd g in
  let wd (k : Z) := wn_wiener w1 (tindex * 5 + k)%Z - wn_wiener w1 k in
  let dW :=
    upd (upd (upd (upd (upd uninit 0 (wd 0%Z)) 1 (wd 1%Z)) 2 (wd 2%Z))
           3 (wd 3%Z)) 4 (wd 4%Z) in
  let xiin := gc_vpar m / vin in
  let Xin : vec3 :=
    (gc_r m * cos (gc_phi m), gc_r m * sin (gc_phi m), gc_z m) in
  {| ap_w := w1; ap_tindex := tindex; ap_dW := dW; ap_Bnorm := Bnorm;
     ap_out :=
       mccc_push_gcMI K nu Dpara DX B (hin i) dW dQ dDpara
         vin xiin Xin cutoff tol err1 |}.

Definition mccc_step_gc_adaptive_lane (Bdata : B_field_data)
  (pdata : plasma_1d_data) (hin : array real) (tol : real) (i : nat)
  (st : gc_adaptive_state) : gc_adaptive_state :=
  let m := ga_p st i in
  if gc_running m then
    let w_i := ga_w st i in
    let t := wn_time w_i 0%Z in
    let a :=
      gc_adaptive_wiener_push Bdata pdata hin tol i m w_i (ga_err st i) in
    let o := ap_out a in
    let vout := mi_vout o in
    let xiout := mi_xiout o in
    let Xout := mi_Xout o in
    let m' :=
      {| gc_r := sqrt (v0 Xout * v0 Xout + v1 Xout * v1 Xout);
         gc_phi := atan2 (v1 Xout) (v0 Xout);
         gc_z := v2 Xout;
         gc_vpar := vout * xiout;
         gc_mu :=
           (1 - xiout * xiout) * gc_mass m * vout * vout
           / (2 * ap_Bnorm a);
         gc_pol := gc_pol m;
         gc_mass := gc_mass m; gc_charge := gc_charge m;
         gc_rho := gc_rho m;
         gc_B_r := gc_B_r m; gc_B_r_dr := gc_B_r_dr m;
         gc_B_r_dphi := gc_B_r_dphi m; gc_B_r_dz := gc_B_r_dz m;
         gc_B_phi := gc_B_phi m; gc_B_phi_dr := gc_B_phi_dr m;
         gc_B_phi_dphi := gc_B_phi_dphi m; gc_B_phi_dz := gc_B_phi_dz m;
         gc_B_z := gc_B_z m; gc_B_z_dr := gc_B_z_dr m;
         gc_B_z_dphi := gc_B_z_dphi m; gc_B_z_dz := gc_B_z_dz m;
         gc_running := gc_running m |} in
    let d :=
      legacy_decision (hin i) t (ap_dW a) (ap_tindex a) (mi_kappa_k o)
        (mi_kappa_d0 o) (mi_kappa_d1 o) (ap_w a) (mi_err o) in
    {| ga_p := upd (ga_p st) i m';
       ga_hout := upd (ga_hout st) i (fst (fst d));
       ga_w := upd (ga_w st) i (snd (fst d));
       ga_err := upd (ga_err st) i (snd d) |}
  else st.

Definition mccc_step_gc_adaptive (Bdata : B_field_data)
  (pdata : plasma_1d_data) (hin : array real) (tol : real)
  (st : gc_adaptive_state) : gc_adaptive_state :=
  for_loop NSIMD (mccc_step_gc_adaptive_lane Bdata pdata hin tol) st.

End LegacyMccc.
End Legacy.

(** ** hdf5io/hdf5_plasma.c

    A plasma group of the HDF5 file is the record of its datasets, a
    dataset that is absent or unreadable being [None]: [hdf5_read_int]
    and [hdf5_read_double] then return a nonzero value and the reader
    returns 1.  The readers return their result code, the offload
    structure as they leave it, and the offload array.  The declared
    length of an array is not part of the model: a store past the end of
    [charge[MAX_SPECIES]] or [mass[MAX_SPECIES]], undefined in C, is a
    store like any other here. *)

Module Hdf5Plasma.

Record plasma_group := {
  g_nion : option Z;
  g_nrho : option Z;
  g_rhomin : option real;
  g_rhomax : option real;
  g_znum : option (list Z);
  g_anum : option (list Z);
  g_charge : option (list Z);
  g_mass : option (list Z);
  g_rho : option (list real);
  g_etemperature : option (list real);
  g_edensity : option (list real);
  g_iontemperature : option (list real);
  g_iondensity : option (list real)
}.

Record plasma_1D_offload_data := {
  d1_n_rho : Z;
  d1_n_species : Z;
  d1_mass : array real;
  d1_charge : array real;
  d1_znum : array Z;
  d1_anum : array Z;
  d1_offload_array_length : Z
}.

Record plasma_1DS_offload_data := {
  s_n_rho : Z;
  s_rho_min : real;
  s_rho_max : real;
  s_n_species : Z;
  s_mass : array real;
  s_charge : array real;
  s_znum : array Z;
  s_anum : array Z;
  s_offload_array_length : Z
}.

(** [if (hdf5_read_...(...)) { return 1; }]: the reader goes on with the
    dataset or returns what [fail] is. *)
Notation "'read' x '<-' d 'else_return' fail ; k" :=
  (match d with Some x => k | None => fail end)
  (at level 10, x name, d at level 10, fail at level 9, k at level 200).

Section Readers.
Context `{Collaborators}.

(** [for (i = 0; i < n_ions; i++) a[i+1] = temparr[i] * c]. *)
Definition store_ions (n_ions : Z) (temparr : array Z) (c : real)
  (a : array real) : array real :=
  for_int 0 n_ions (fun i a => upd a (i + 1) (IZR (temparr i) * c)) a.

(** [for (i = 0; i < n_rho; i++)] the two temperatures of grid point [i]
    are multiplied by [CONST_E]. *)
Definition scale_temperatures (n_rho : Z) (off_e off_i : nat)
  (oa : array real) : array real :=
  for_int 0 n_rho
    (fun i oa =>
       let oa := upd oa (off_e + i) (oa (off_e + i)%nat * CONST_E) in
       upd oa (off_i + i) (oa (off_i + i)%nat * CONST_E))
    oa.

Definition hdf5_plasma_read_1D (f : plasma_group)
  (od : plasma_1D_offload_data) (oa : array real)
  : Z * plasma_1D_offload_data * array real :=
  read n_ions <- g_nion f else_return (1%Z, od, oa);
  read n_rho <- g_nrho f else_return (1%Z, od, oa);
  let n_species := wrap_int (n_ions + 1) in
  let charge := upd (d1_charge od) 0 (-1 * CONST_E) in
  let mass := upd (d1_mass od) 0 CONST_M_E in
  let od :=
    {| d1_n_rho := n_rho; d1_n_species := n_species;
       d1_mass := mass; d1_charge := charge;
       d1_znum := d1_znum od; d1_anum := d1_anum od;
       d1_offload_array_length := d1_offload_array_length od |} in
  read znum <- g_znum f else_return (1%Z, od, oa);
  let od :=
    {| d1_n_rho := n_rho; d1_n_species := n_species;
       d1_mass := mass; d1_charge := charge;
       d1_znum := write_list (d1_znum od) 0 znum; d1_anum := d1_anum od;
       d1_offload_array_length := d1_offload_array_length od |} in
  read anum <- g_anum f else_return (1%Z, od, oa);
  let od :=
    {| d1_n_rho := n_rho; d1_n_species := n_species;
       d1_mass := mass; d1_charge := charge;
       d1_znum := d1_znum od; d1_anum := write_list (d1_anum od) 0 anum;
       d1_offload_array_length := d1_offload_array_length od |} in
  read qs <- g_charge f else_return (1%Z, od, oa);
  let temparr := write_list (fun _ => 0%Z) 0 qs in
  let charge := store_ions n_ions temparr CONST_E charge in
  let od :=
    {| d1_n_rho := n_rho; d1_n_species := n_species;
       d1_mass := mass; d1_charge := charge;
       d1_znum := d1_znum od; d1_anum := d1_anum od;
       d1_offload_array_length := d1_offload_array_length od |} in
  read ms <- g_mass f else_return (1%Z, od, oa);
  let temparr := write_list temparr 0 ms in
  let mass := store_ions n_ions temparr CONST_U mass in
  let len := wrap_int (wrap_int (3 * n_rho) + wrap_int (n_species * n_rho)) in
  let od :=
    {| d1_n_rho := n_rho; d1_n_species := n_species;
       d1_mass := mass; d1_charge := charge;
       d1_znum := d1_znum od; d1_anum := d1_anum od;
       d1_offload_array_length := len |} in
  let oa := uninit in
  let off_rho := 0%nat in
  let off_temp_e := Z.to_nat n_rho in
  let off_temp_i := Z.to_nat (wrap_int (n_rho * 2)) in
  let off_dens_e := Z.to_nat (wrap_int (n_rho * 3)) in
  let off_dens_i := Z.to_nat (wrap_int (n_rho * 4)) in
  read rho <- g_rho f else_return (1%Z, od, oa);
  let oa := write_list oa off_rho rho in
  read te <- g_etemperature f else_return (1%Z, od, oa);
  let oa := write_list oa off_temp_e te in
  read ne <- g_edensity f else_return (1%Z, od, oa);
  let oa := write_list oa off_dens_e ne in
  read ti <- g_iontemperature f else_return (1%Z, od, oa);
  let oa := write_list oa off_temp_i ti in
  read ni <- g_iondensity f else_return (1%Z, od, oa);
  let oa := write_list oa off_dens_i ni in
  (0%Z, od, scale_temperatures n_rho off_temp_e off_temp_i oa).

Definition hdf5_plasma_read_1DS (f : plasma_group)
  (od : plasma_1DS_offload_data) (oa : array real)
  : Z * plasma_1DS_offload_data * array real :=
  let mk n_rho rho_min rho_max n_species mass charge znum anum len :=
    {| s_n_rho := n_rho; s_rho_min := rho_min; s_rho_max := rho_max;
       s_n_species := n_species; s_mass := mass;
       s_charge := charge; s_znum := znum; s_anum := anum;
       s_offload_array_length := len |} in
  read n_ions <- g_nion f else_return (1%Z, od, oa);
  read n_rho_f <- g_nrho f else_return (1%Z, od, oa);
  let od :=
    mk n_rho_f (s_rho_min od) (s_rho_max od) (s_n_species od)
      (s_mass od) (s_charge od) (s_znum od)
      (s_anum od) (s_offload_array_length od) in
  read rho_min <- g_rhomin f else_return (1%Z, od, oa);
  let od :=
    mk n_rho_f rho_min (s_rho_max od) (s_n_species od)
      (s_mass od) (s_charge od) (s_znum od)
      (s_anum od) (s_offload_array_length od) in
  read rho_max <- g_rhomax f else_return (1%Z, od, oa);
  let n_species := wrap_int (n_ions + 1) in
  let n_rho := n_rho_f in
  let charge := upd (s_charge od) 0 (-1 * CONST_E) in
  let mass := upd (s_mass od) 0 CONST_M_E in
  let od :=
    mk n_rho rho_min rho_max n_species mass charge (s_znum od)
      (s_anum od) (s_offload_array_length od) in
  read znum <- g_znum f else_return (1%Z, od, oa);
  let od :=
    mk n_rho rho_min rho_max n_species mass charge
      (write_list (s_znum od) 0 znum) (s_anum od)
      (s_offload_array_length od) in
  read anum <- g_anum f else_return (1%Z, od, oa);
  let od :=
    mk n_rho rho_min rho_max n_species mass charge (s_znum od)
      (write_list (s_anum od) 0 anum) (s_offload_array_length od) in
  read qs <- g_charge f else_return (1%Z, od, oa);
  let temparr := write_list (fun _ => 0%Z) 0 qs in
  let charge := store_ions n_ions temparr CONST_E charge in
  let od :=
    mk n_rho rho_min rho_max n_species mass charge (s_znum od)
      (s_anum od) (s_offload_array_length od) in
  read ms <- g_mass f else_return (1%Z, od, oa);
  let temparr := write_list temparr 0 ms in
  let mass := store_ions n_ions temparr CONST_U mass in
  let len := wrap_int (wrap_int (2 * n_rho) + wrap_int (n_species * n_rho)) in
  let od :=
    mk n_rho rho_min rho_max n_species mass charge (s_znum od)
      (s_anum od) len in
  let oa := uninit in
  let off_temp_e := 0%nat in
  let off_temp_i := Z.to_nat (wrap_int (n_rho * 1)) in
  let off_dens_e := Z.to_nat (wrap_int (n_rho * 2)) in
  let off_dens_i := Z.to_nat (wrap_int (n_rho * 3)) in
  read te <- g_etemperature f else_return (1%Z, od, oa);
  let oa := write_list oa off_temp_e te in
  read ne <- g_edensity f else_return (1%Z, od, oa);
  let oa := write_list oa off_dens_e ne in
  read ti <- g_iontemperature f else_return (1%Z, od, oa);
  let oa := write_list oa off_temp_i ti in
  read ni <- g_iondensity f else_return (1%Z, od, oa);
  let oa := write_list oa off_dens_i ni in
  (0%Z, od, scale_temperatures n_rho off_temp_e off_temp_i oa).


End Readers.
End Hdf5Plasma.

(** ** A small instance of the collaborators

    Two lanes, two species, no compile-time switch set.  The push
    reports the three error ratios it is built with, doubles the speed
    and leaves pitch and position as they are; the Wiener generator answers with
    record 1 of a structure whose increments are the given function. *)

Definition demo (kappa_k kappa_d0 kappa_d1 : real) (wiener : zarray real)
  : Collaborators :=
  {| NSIMD := 2; MAX_SPECIES := 2;
     A5_CCOL_NOENERGY := false; A5_CCOL_NOPITCH := false;
     A5_CCOL_NOGCDIFF := false;
     CONST_KB := 1; CONST_2PI := 2 * PI;
     CONST_E := 1; CONST_M_E := 1; CONST_U := 1;
     atan2 := fun _ _ => 0;
     fmod := fun x _ => x;
     math_norm := fun B => sqrt (v0 B * v0 B + v1 B * v1 B + v2 B * v2 B);
     math_normc := fun x y z => sqrt (x * x + y * y + z * z);
     B_field_data := unit;
     B_field_eval_B := fun _ _ _ _ => (0, 0, 1);
     B_field_eval_B_dB := fun _ _ _ _ k => if Nat.eqb k 8 then 1 else 0;
     B_field_eval_psi := fun _ _ _ _ => 0;
     B_field_eval_rho := fun psi _ => psi;
     B_field_get_axis_r := fun _ => 0;
     B_field_get_axis_z := fun _ => 0;
     plasma_1d_data := unit;
     n_species := fun _ => 2%Z;
     pl_mass := fun _ _ => 1;
     pl_charge := fun _ _ => 1;
     plasma_1d_eval_temp := fun _ _ _ => 1;
     plasma_1d_eval_dens := fun _ _ _ => 1;
     plasma_1d_eval_densandtemp := fun _ _ => (fun _ => 1, fun _ => 1);
     mccc_coefs_clog := fun _ _ _ _ _ _ _ _ _ => 1;
     mccc_coefs_fo := fun _ _ _ _ _ _ _ _ _ =>
       {| cf_F := fun _ => 0; cf_Dpara := fun _ => 0;
          cf_Dperp := fun _ => 0; cf_K := fun _ => 0;
          cf_nu := fun _ => 0 |};
     mccc_coefs_gcfixed := fun _ _ _ _ _ _ _ _ _ _ _ =>
       {| cg_Dpara := fun _ => 0; cg_DX := fun _ => 0;
          cg_K := fun _ => 0; cg_nu := fun _ => 0 |};
     mccc_coefs_gcadaptive := fun _ _ _ _ _ _ _ _ _ _ _ =>
       {| ca_Dpara := fun _ => 0; ca_DX := fun _ => 0;
          ca_K := fun _ => 0; ca_nu := fun _ => 0;
          ca_dQ := fun _ => 0; ca_dDpara := fun _ => 0 |};
     mccc_push_foEM := fun _ _ _ _ _ vin e => (vin, e);
     mccc_push_gcEM := fun _ _ _ _ _ _ _ vin xiin Xin _ e =>
       {| em_vout := 2 * vin; em_xiout := xiin; em_Xout := Xin;
          em_err := e |};
     mccc_push_gcMI := fun _ _ _ _ _ _ _ _ _ vin xiin Xin _ _ e =>
       {| mi_vout := 2 * vin; mi_xiout := xiin; mi_Xout := Xin;
          mi_kappa_k := kappa_k; mi_kappa_d0 := kappa_d0;
          mi_kappa_d1 := kappa_d1; mi_err := e |};
     mccc_wienarr := unit;
     wn_time := fun _ _ => 0;
     wn_wiener := fun _ => wiener;
     mccc_wiener_generate := fun w _ _ e => (w, 1%Z, e);
     legacy_wiener_generate := fun w _ e => (w, 1%Z, e) |}.

(** Wiener values that make the increments of channels 3 and 4 of
    record 1 equal to [d3] and [d4], the others 0. *)
Definition demo_wiener (d3 d4 : real) : zarray real :=
  fun k => if Z.eqb k 8 then d3 else if Z.eqb k 9 then d4 else 0.

(** A guiding centre at [r = 1] with unit field along [z]. *)
Definition demo_gc (running : bool) : gc_marker :=
  {| gc_r := 1; gc_phi := 0; gc_z := 0;
     gc_vpar := 1; gc_mu := 0; gc_pol := 0;
     gc_mass := 1; gc_charge := 1;
     gc_rho := 0;
     gc_B_r := 0; gc_B_r_dr := 0; gc_B_r_dphi := 0; gc_B_r_dz := 0;
     gc_B_phi := 0; gc_B_phi_dr := 0; gc_B_phi_dphi := 0;
     gc_B_phi_dz := 0;
     gc_B_z := 1; gc_B_z_dr := 0; gc_B_z_dphi := 0; gc_B_z_dz := 0;
     gc_running := running |}.

Definition demo_fo (running : bool) : fo_marker :=
  {| fo_r := 1; fo_phi := 0; fo_z := 0;
     fo_rdot := 1; fo_phidot := 0; fo_zdot := 0;
     fo_mass := 1; fo_charge := 1;
     fo_rho := 0;
     fo_running := running |}.

(** Lane 0 runs, lane 1 does not. *)
Definition demo_lanes {A : Type} (mk : bool -> A) : array A :=
  fun i => mk (Nat.eqb i 0).

Definition demo_fo_state : fo_state :=
  {| fs_p := demo_lanes demo_fo; fs_err := fun _ => 0%Z |}.

Definition demo_gc_fixed_state : gc_fixed_state :=
  {| gf_p := demo_lanes demo_gc; gf_err := fun _ => 0%Z |}.

(** A plasma group with two grid points and [nion] ions. *)
Definition demo_group (nion : Z) : Hdf5Plasma.plasma_group :=
  {| Hdf5Plasma.g_nion := Some nion;
     Hdf5Plasma.g_nrho := Some 2%Z;
     Hdf5Plasma.g_rhomin := Some 0;
     Hdf5Plasma.g_rhomax := Some 1;
     Hdf5Plasma.g_znum := Some (1 :: 2 :: nil)%Z%list;
     Hdf5Plasma.g_anum := Some (2 :: 4 :: nil)%Z%list;
     Hdf5Plasma.g_charge := Some (1 :: 2 :: nil)%Z%list;
     Hdf5Plasma.g_mass := Some (2 :: 4 :: nil)%Z%list;
     Hdf5Plasma.g_rho := Some (0 :: 1 :: nil)%list;
     Hdf5Plasma.g_etemperature := Some (1 :: 1 :: nil)%list;
     Hdf5Plasma.g_edensity := Some (1 :: 1 :: nil)%list;
     Hdf5Plasma.g_iontemperature := Some (1 :: 1 :: nil)%list;
     Hdf5Plasma.g_iondensity := Some (1 :: 1 :: 1 :: 1 :: nil)%list |}.

Definition demo_1D_offload : Hdf5Plasma.plasma_1D_offload_data :=
  {| Hdf5Plasma.d1_n_rho := 0; Hdf5Plasma.d1_n_species := 0;
     Hdf5Plasma.d1_mass := uninit; Hdf5Plasma.d1_charge := uninit;
     Hdf5Plasma.d1_znum := fun _ => 0%Z;
     Hdf5Plasma.d1_anum := fun _ => 0%Z;
     Hdf5Plasma.d1_offload_array_length := 0 |}.

Definition demo_1DS_offload : Hdf5Plasma.plasma_1DS_offload_data :=
  {| Hdf5Plasma.s_n_rho := 0; Hdf5Plasma.s_rho_min := 0;
     Hdf5Plasma.s_rho_max := 0; Hdf5Plasma.s_n_species := 0;
     Hdf5Plasma.s_mass := uninit; Hdf5Plasma.s_charge := uninit;
     Hdf5Plasma.s_znum := fun _ => 0%Z;
     Hdf5Plasma.s_anum := fun _ => 0%Z;
     Hdf5Plasma.s_offload_array_length := 0 |}.

Definition demo_gc_adaptive_state (C : Collaborators)
  (w : @mccc_wienarr C) : @gc_adaptive_state C :=
  {| ga_p := demo_lanes demo_gc; ga_hout := fun _ => 0;
     ga_w := fun _ => w; ga_err := fun _ => 0%Z |}.

(** ** More of simulate/mccc/mccc.c: the velocity of a full-orbit lane *)

Definition norm2 (v : vec3) : real := v0 v * v0 v + v1 v * v1 v + v2 v * v2 v.

Section FoVelocity.
Context `{Collaborators}.

(** [vin] of [mccc_step_fo_fixed]: the velocity in Cartesian
    components. *)
Definition fo_cartesian (m : fo_marker) : vec3 :=
  (fo_rdot m * cos (fo_phi m) - (fo_phidot m * fo_r m) * sin (fo_phi m),
   fo_rdot m * sin (fo_phi m) + (fo_phidot m * fo_r m) * cos (fo_phi m),
   fo_zdot m).

(** The call of [mccc_push_foEM] for a running lane: lines 250 to 291. *)
Definition fo_fixed_push (pdata : plasma_1d_data) (h : array real)
  (rnd : array real) (i : nat) (m : fo_marker) (err_i : Z) : vec3 * Z :=
  let dt := background_step (fo_rho m) pdata in
  let dens := fst dt in
  let temp := snd dt in
  let va := fo_speed m in
  let n := n_species pdata in
  let clogab :=
    mccc_coefs_clog (fo_mass m) (fo_charge m) va
      (pl_mass pdata) (pl_charge pdata) dens temp n in
  let o :=
    mccc_coefs_fo (fo_mass m) (fo_charge m) va
      (pl_mass pdata) (pl_charge pdata) dens temp clogab n in
  let F := sum_species n (cf_F o) in
  let Dpara := sum_species n (cf_Dpara o) in
  let Dperp := sum_species n (cf_Dperp o) in
  mccc_push_foEM F Dpara Dperp (h i) (view rnd (i * 3)) (fo_cartesian m)
    err_i.

(** [vout] after the blocks [#if A5_CCOL_NOENERGY] and
    [#if A5_CCOL_NOPITCH]: lines 294 to 305. *)
Definition fo_fixed_vout (va : real) (vin vout : vec3) : vec3 :=
  let vout :=
    if A5_CCOL_NOENERGY then
      let vnorm :=
        va / sqrt (v0 vout * v0 vout + v1 vout * v1 vout
                   + v2 vout * v2 vout) in
      (v0 vout * vnorm, v1 vout * vnorm, v2 vout * vnorm)
    else vout in
  if A5_CCOL_NOPITCH then
    let vnorm :=
      sqrt (v0 vout * v0 vout + v1 vout * v1 vout
            + v2 vout * v2 vout) / va in
    (v0 vin * vnorm, v1 vin * vnorm, v2 vin * vnorm)
  else vout.

(** The velocity stores of [mccc_step_fo_fixed]: lines 306 to 308. *)
Definition fo_fixed_commit (m : fo_marker) (vout : vec3) : fo_marker :=
  {| fo_r := fo_r m; fo_phi := fo_phi m; fo_z := fo_z m;
     fo_rdot := v0 vout * cos (fo_phi m) + v1 vout * sin (fo_phi m);
     fo_phidot :=
       (- v0 vout * sin (fo_phi m) + v1 vout * cos (fo_phi m)) / fo_r m;
     fo_zdot := v2 vout;
     fo_mass := fo_mass m; fo_charge := fo_charge m;
     fo_rho := fo_rho m;
     fo_running := fo_running m |}.

End FoVelocity.

(** The demo instance with the compile-time switches chosen: the push
    of the full-orbit step triples the velocity, the other collaborators
    are those of [demo 1 1 1] with all Wiener values 0. *)
Definition demo_switches (noenergy nopitch nogcdiff : bool)
  : Collaborators :=
  let D := demo 1 1 1 (fun _ => 0) in
  {| NSIMD := 2; MAX_SPECIES := 2;
     A5_CCOL_NOENERGY := noenergy; A5_CCOL_NOPITCH := nopitch;
     A5_CCOL_NOGCDIFF := nogcdiff;
     CONST_KB := 1; CONST_2PI := 2 * PI;
     CONST_E := 1; CONST_M_E := 1; CONST_U := 1;
     atan2 := @atan2 D;
     fmod := @fmod D;
     math_norm := @math_norm D;
     math_normc := @math_normc D;
     B_field_data := unit;
     B_field_eval_B := @B_field_eval_B D;
     B_field_eval_B_dB := @B_field_eval_B_dB D;
     B_field_eval_psi := @B_field_eval_psi D;
     B_field_eval_rho := @B_field_eval_rho D;
     B_field_get_axis_r := @B_field_get_axis_r D;
     B_field_get_axis_z := @B_field_get_axis_z D;
     plasma_1d_data := unit;
     n_species := @n_species D;
     pl_mass := @pl_mass D;
     pl_charge := @pl_charge D;
     plasma_1d_eval_temp := @plasma_1d_eval_temp D;
     plasma_1d_eval_dens := @plasma_1d_eval_dens D;
     plasma_1d_eval_densandtemp := @plasma_1d_eval_densandtemp D;
     mccc_coefs_clog := @mccc_coefs_clog D;
     mccc_coefs_fo := @mccc_coefs_fo D;
     mccc_coefs_gcfixed := @mccc_coefs_gcfixed D;
     mccc_coefs_gcadaptive := @mccc_coefs_gcadaptive D;
     mccc_push_foEM := fun _ _ _ _ _ vin e =>
       ((3 * v0 vin, 3 * v1 vin, 3 * v2 vin), e);
     mccc_push_gcEM := @mccc_push_gcEM D;
     mccc_push_gcMI := @mccc_push_gcMI D;
     mccc_wienarr := unit;
     wn_time := @wn_time D;
     wn_wiener := @wn_wiener D;
     mccc_wiener_generate := @mccc_wiener_generate D;
     legacy_wiener_generate := @legacy_wiener_generate D |}.

(** ** libm's [fmod] on the reals

    [fmod(x, y)] is [x - n*y] with [n] the quotient [x/y] truncated
    towards zero. *)
Definition c_trunc (x : real) : Z :=
  if Rle_dec 0 x then Int_part x else (- Int_part (- x))%Z.

Definition c_fmod (x y : real) : real := x - IZR (c_trunc (x / y)) * y.

(** The demo instance with this [fmod] and an [atan2] of the right
    range. *)
Definition demo_angles : Collaborators :=
  let D := demo 1 1 1 (fun _ => 0) in
  {| NSIMD := 2; MAX_SPECIES := 2;
     A5_CCOL_NOENERGY := false; A5_CCOL_NOPITCH := false;
     A5_CCOL_NOGCDIFF := false;
     CONST_KB := 1; CONST_2PI := 2 * PI;
     CONST_E := 1; CONST_M_E := 1; CONST_U := 1;
     atan2 := fun y x => atan (y / x);
     fmod := c_fmod;
     math_norm := @math_norm D;
     math_normc := @math_normc D;
     B_field_data := unit;
     B_field_eval_B := @B_field_eval_B D;
     B_field_eval_B_dB := @B_field_eval_B_dB D;
     B_field_eval_psi := @B_field_eval_psi D;
     B_field_eval_rho := @B_field_eval_rho D;
     B_field_get_axis_r := @B_field_get_axis_r D;
     B_field_get_axis_z := @B_field_get_axis_z D;
     plasma_1d_data := unit;
     n_species := @n_species D;
     pl_mass := @pl_mass D;
     pl_charge := @pl_charge D;
     plasma_1d_eval_temp := @plasma_1d_eval_temp D;
     plasma_1d_eval_dens := @plasma_1d_eval_dens D;
     plasma_1d_eval_densandtemp := @plasma_1d_eval_densandtemp D;
     mccc_coefs_clog := @mccc_coefs_clog D;
     mccc_coefs_fo := @mccc_coefs_fo D;
     mccc_coefs_gcfixed := @mccc_coefs_gcfixed D;
     mccc_coefs_gcadaptive := @mccc_coefs_gcadaptive D;
     mccc_push_foEM := @mccc_push_foEM D;
     mccc_push_gcEM := @mccc_push_gcEM D;
     mccc_push_gcMI := @mccc_push_gcMI D;
     mccc_wienarr := unit;
     wn_time := @wn_time D;
     wn_wiener := @wn_wiener D;
     mccc_wiener_generate := @mccc_wiener_generate D;
     legacy_wiener_generate := @legacy_wiener_generate D |}.

(** What a guiding-centre step of [mccc/mccc.c] leaves in a marker: the
    cached field with its derivatives, [rho], [pol], the mass, the
    charge and the running flag. *)
Definition same_cache (m m' : gc_marker) : Prop :=
  gc_B_r m' = gc_B_r m /\ gc_B_r_dr m' = gc_B_r_dr m /\
  gc_B_r_dphi m' = gc_B_r_dphi m /\ gc_B_r_dz m' = gc_B_r_dz m /\
  gc_B_phi m' = gc_B_phi m /\ gc_B_phi_dr m' = gc_B_phi_dr m /\
  gc_B_phi_dphi m' = gc_B_phi_dphi m /\ gc_B_phi_dz m' = gc_B_phi_dz m /\
  gc_B_z m' = gc_B_z m /\ gc_B_z_dr m' = gc_B_z_dr m /\
  gc_B_z_dphi m' = gc_B_z_dphi m /\ gc_B_z_dz m' = gc_B_z_dz m /\
  gc_rho m' = gc_rho m /\ gc_pol m' = gc_pol m /\
  gc_mass m' = gc_mass m /\ gc_charge m' = gc_charge m /\
  gc_running m' = gc_running m.

(** ** hdf5io/hdf5_plasma.c: hdf5_plasma_init_offload

    [plasma_offload_data] of [plasma.h] is seen through the three fields
    the function touches.  The file is seen through its two plasma
    groups under the QID, a group that [hdf5_find_group] does not find
    being [None].  [plasma_init_offload] of [plasma.c] is a parameter:
    it returns its result code and leaves the structure and the array
    as it returns them. *)

Inductive plasma_type := plasma_type_1D | plasma_type_1DS.

Record plasma_offload_data := {
  po_type : plasma_type;
  po_plasma_1D : Hdf5Plasma.plasma_1D_offload_data;
  po_plasma_1DS : Hdf5Plasma.plasma_1DS_offload_data
}.

Record plasma_file := {
  pf_1D : option Hdf5Plasma.plasma_group;
  pf_1DS : option Hdf5Plasma.plasma_group
}.

Section InitOffload.
Context `{Collaborators}.
Variable plasma_init_offload :
  plasma_offload_data -> array real -> Z * plasma_offload_data * array real.

(** Lines 49 to 54: the 1D group. *)
Definition init_offload_1D (f : plasma_file)
  (s : Z * plasma_offload_data * array real)
  : Z * plasma_offload_data * array real :=
  match pf_1D f with
  | Some g =>
      let od := snd (fst s) in
      let r :=
        Hdf5Plasma.hdf5_plasma_read_1D g (po_plasma_1D od) (snd s) in
      (fst (fst r),
       {| po_type := plasma_type_1D;
          po_plasma_1D := snd (fst r);
          po_plasma_1DS := po_plasma_1DS od |},
       snd r)
  | None => s
  end.

(** Lines 56 to 61: the 1DS group. *)
Definition init_offload_1DS (f : plasma_file)
  (s : Z * plasma_offload_data * array real)
  : Z * plasma_offload_data * array real :=
  match pf_1DS f with
  | Some g =>
      let od := snd (fst s) in
      let r :=
        Hdf5Plasma.hdf5_plasma_read_1DS g (po_plasma_1DS od) (snd s) in
      (fst (fst r),
       {| po_type := plasma_type_1DS;
          po_plasma_1D := po_plasma_1D od;
          po_plasma_1DS := snd (fst r) |},
       snd r)
  | None => s
  end.

Definition hdf5_plasma_init_offload (f : plasma_file)
  (od : plasma_offload_data) (oa : array real)
  : Z * plasma_offload_data * array real :=
  let s := (1%Z, od, oa) in
  let s := init_offload_1D f s in
  let s := init_offload_1DS f s in
  if Z.eqb (fst (fst s)) 0
  then plasma_init_offload (snd (fst s)) (snd s)
  else s.

End InitOffload.

(** Whether a dataset can be read, and whether all the datasets that a
    reader asks for can. *)
Definition has_dataset {A : Type} (d : option A) : bool :=
  match d with Some _ => true | None => false end.

Definition datasets_1D (f : Hdf5Plasma.plasma_group) : bool :=
  has_dataset (Hdf5Plasma.g_nion f) && has_dataset (Hdf5Plasma.g_nrho f)
  && has_dataset (Hdf5Plasma.g_znum f)
  && has_dataset (Hdf5Plasma.g_anum f)
  && has_dataset (Hdf5Plasma.g_charge f)
  && has_dataset (Hdf5Plasma.g_mass f)
  && has_dataset (Hdf5Plasma.g_rho f)
  && has_dataset (Hdf5Plasma.g_etemperature f)
  && has_dataset (Hdf5Plasma.g_edensity f)
  && has_dataset (Hdf5Plasma.g_iontemperature f)
  && has_dataset (Hdf5Plasma.g_iondensity f).

Definition datasets_1DS (f : Hdf5Plasma.plasma_group) : bool :=
  has_dataset (Hdf5Plasma.g_nion f) && has_dataset (Hdf5Plasma.g_nrho f)
  && has_dataset (Hdf5Plasma.g_rhomin f)
  && has_dataset (Hdf5Plasma.g_rhomax f)
  && has_dataset (Hdf5Plasma.g_znum f)
  && has_dataset (Hdf5Plasma.g_anum f)
  && has_dataset (Hdf5Plasma.g_charge f)
  && has_dataset (Hdf5Plasma.g_mass f)
  && has_dataset (Hdf5Plasma.g_etemperature f)
  && has_dataset (Hdf5Plasma.g_edensity f)
  && has_dataset (Hdf5Plasma.g_iontemperature f)
  && has_dataset (Hdf5Plasma.g_iondensity f).

(** A file whose 1D group lacks [iondensity] and whose 1DS group is
    whole, and a [plasma_init_offload] that accepts what it is given. *)
Definition demo_file : plasma_file :=
  {| pf_1D :=
       Some
         {| Hdf5Plasma.g_nion := Some 2%Z;
            Hdf5Plasma.g_nrho := Some 2%Z;
            Hdf5Plasma.g_rhomin := None;
            Hdf5Plasma.g_rhomax := None;
            Hdf5Plasma.g_znum := Some (1 :: 2 :: nil)%Z%list;
            Hdf5Plasma.g_anum := Some (2 :: 4 :: nil)%Z%list;
            Hdf5Plasma.g_charge := Some (1 :: 2 :: nil)%Z%list;
            Hdf5Plasma.g_mass := Some (2 :: 4 :: nil)%Z%list;
            Hdf5Plasma.g_rho := Some (0 :: 1 :: nil)%list;
            Hdf5Plasma.g_etemperature := Some (1 :: 1 :: nil)%list;
            Hdf5Plasma.g_edensity := Some (1 :: 1 :: nil)%list;
            Hdf5Plasma.g_iontemperature := Some (1 :: 1 :: nil)%list;
            Hdf5Plasma.g_iondensity := None |};
     pf_1DS := Some (demo_group 2) |}.

Definition demo_plasma_offload : plasma_offload_data :=
  {| po_type := plasma_type_1D;
     po_plasma_1D := demo_1D_offload;
     po_plasma_1DS := demo_1DS_offload |}.

Definition demo_init_offload (od : plasma_offload_data) (oa : array real)
  : Z * plasma_offload_data * array real := (0%Z, od, oa).

(** * Properties *)

(** ** Arrays and loops *)

Lemma upd_same {A : Type} (a : array A) (i : nat) (v : A) :
  upd a i v i = v.
Proof. unfold upd. now rewrite Nat.eqb_refl. Qed.

Lemma upd_other {A : Type} (a : array A) (i j : nat) (v : A) :
  j <> i -> upd a i v j = a j.
Proof.
  intros Hij. unfold upd.
  destruct (Nat.eqb_spec j i) as [E | _]; [contradiction | reflexivity].
Qed.

Lemma write_block_outside (a : array real) (off : nat) (n : Z)
  (vals : array real) (q : nat) :
  (q < off \/ off + Z.to_nat n <= q)%nat ->
  write_block a off n vals q = a q.
Proof.
  unfold write_block, for_int. rewrite Nat.sub_0_r.
  generalize (Z.to_nat n) as c. intros c.
  induction c as [| c IH]; intros Hq; simpl; [reflexivity |].
  rewrite upd_other by lia. apply IH. lia.
Qed.

(** A loop whose iteration [i] rewrites lane [i] from the content of
    lane [i] alone acts on each lane separately. *)
Section LaneLoop.
Context {S L : Type}.
Variable get : S -> nat -> L.
Variable body : nat -> S -> S.
Variable f : nat -> L -> L.
Hypothesis body_same : forall i s, get (body i s) i = f i (get s i).
Hypothesis body_other :
  forall i j s, j <> i -> get (body i s) j = get s j.

Lemma for_loop_lane_out (n j : nat) (s : S) :
  (n <= j)%nat -> get (for_loop n body s) j = get s j.
Proof.
  induction n as [| n IH]; intros Hj; simpl; [reflexivity |].
  rewrite body_other by lia. apply IH. lia.
Qed.

Lemma for_loop_lane_in (n j : nat) (s : S) :
  (j < n)%nat -> get (for_loop n body s) j = f j (get s j).
Proof.
  induction n as [| n IH]; intros Hj; simpl; [lia |].
  destruct (Nat.eq_dec j n) as [-> | Hne].
  - rewrite body_same. now rewrite for_loop_lane_out.
  - rewrite body_other by assumption. apply IH. lia.
Qed.
End LaneLoop.

(** ** The step loops act lane by lane *)

Section LaneByLane.
Context `{Collaborators}.

Lemma fo_fixed_lanes (pdata : plasma_1d_data) (h rnd : array real)
  (st : fo_state) (j : nat) :
  fo_lane (mccc_step_fo_fixed pdata h rnd st) j =
  if Nat.ltb j NSIMD
  then fo_fixed_on_lane pdata h rnd j (fo_lane st j)
  else fo_lane st j.
Proof.
  unfold mccc_step_fo_fixed.
  assert (Hsame : forall i s,
            fo_lane (mccc_step_fo_fixed_lane pdata h rnd i s) i =
            fo_fixed_on_lane pdata h rnd i (fo_lane s i)).
  { intros i s. unfold fo_fixed_on_lane, mccc_step_fo_fixed_lane, fo_lane.
    simpl. destruct (fo_running (fs_p s i)); simpl;
      [now rewrite !upd_same | reflexivity]. }
  assert (Hother : forall i k s, k <> i ->
            fo_lane (mccc_step_fo_fixed_lane pdata h rnd i s) k =
            fo_lane s k).
  { intros i k s Hk. unfold mccc_step_fo_fixed_lane, fo_lane.
    destruct (fo_running (fs_p s i)); simpl;
      [now rewrite !upd_other by assumption | reflexivity]. }
  destruct (Nat.ltb_spec j NSIMD) as [Hj | Hj].
  - now apply for_loop_lane_in.
  - now apply for_loop_lane_out.
Qed.

Lemma gc_fixed_lanes (Bdata : B_field_data) (pdata : plasma_1d_data)
  (h rnd : array real) (st : gc_fixed_state) (j : nat) :
  gc_fixed_lane (mccc_step_gc_fixed Bdata pdata h rnd st) j =
  if Nat.ltb j NSIMD
  then gc_fixed_on_lane Bdata pdata h rnd j (gc_fixed_lane st j)
  else gc_fixed_lane st j.
Proof.
  unfold mccc_step_gc_fixed.
  assert (Hsame : forall i s,
            gc_fixed_lane (mccc_step_gc_fixed_lane Bdata pdata h rnd i s) i =
            gc_fixed_on_lane Bdata pdata h rnd i (gc_fixed_lane s i)).
  { intros i s.
    unfold gc_fixed_on_lane, mccc_step_gc_fixed_lane, gc_fixed_lane.
    simpl. destruct (gc_running (gf_p s i)); simpl;
      [now rewrite !upd_same | reflexivity]. }
  assert (Hother : forall i k s, k <> i ->
            gc_fixed_lane (mccc_step_gc_fixed_lane Bdata pdata h rnd i s) k =
            gc_fixed_lane s k).
  { intros i k s Hk. unfold mccc_step_gc_fixed_lane, gc_fixed_lane.
    destruct (gc_running (gf_p s i)); simpl;
      [now rewrite !upd_other by assumption | reflexivity]. }
  destruct (Nat.ltb_spec j NSIMD) as [Hj | Hj].
  - now apply for_loop_lane_in.
  - now apply for_loop_lane_out.
Qed.

Lemma gc_adaptive_lanes (Bdata : B_field_data) (pdata : plasma_1d_data)
  (hin : array real) (tol : real) (rand5 : array real)
  (st : gc_adaptive_state) (j : nat) :
  gc_adaptive_lane (mccc_step_gc_adaptive Bdata pdata hin tol rand5 st) j =
  if Nat.ltb j NSIMD
  then gc_adaptive_on_lane Bdata pdata hin tol rand5 j
         (gc_adaptive_lane st j)
  else gc_adaptive_lane st j.
Proof.
  unfold mccc_step_gc_adaptive.
  assert (Hsame : forall i s,
            gc_adaptive_lane
              (mccc_step_gc_adaptive_lane Bdata pdata hin tol rand5 i s) i =
            gc_adaptive_on_lane Bdata pdata hin tol rand5 i
              (gc_adaptive_lane s i)).
  { intros i s.
    unfold gc_adaptive_on_lane, mccc_step_gc_adaptive_lane,
      gc_adaptive_lane.
    simpl. destruct (gc_running (ga_p s i)); simpl;
      [now rewrite !upd_same | reflexivity]. }
  assert (Hother : forall i k s, k <> i ->
            gc_adaptive_lane
              (mccc_step_gc_adaptive_lane Bdata pdata hin tol rand5 i s) k =
            gc_adaptive_lane s k).
  { intros i k s Hk. unfold mccc_step_gc_adaptive_lane, gc_adaptive_lane.
    destruct (gc_running (ga_p s i)); simpl;
      [now rewrite !upd_other by assumption | reflexivity]. }
  destruct (Nat.ltb_spec j NSIMD) as [Hj | Hj].
  - now apply for_loop_lane_in.
  - now apply for_loop_lane_out.
Qed.

End LaneByLane.

(** ** The coefficient arrays outside the blocks of the running lanes *)

Section UpdateFrame.
Context `{Collaborators}.



(** The block of a lane is disjoint from the block every other lane
    fills, as long as the species fit in [MAX_SPECIES]. *)
Lemma slot_outside_block (i k s : nat) (n : Z) :
  (n <= Z.of_nat MAX_SPECIES)%Z -> (s < MAX_SPECIES)%nat -> k <> i ->
  (i * MAX_SPECIES + s < k * MAX_SPECIES \/
   k * MAX_SPECIES + Z.to_nat n <= i * MAX_SPECIES + s)%nat.
Proof.
  intros Hn Hs Hki.
  assert (Hn' : (Z.to_nat n <= MAX_SPECIES)%nat) by lia.
  destruct (Nat.lt_ge_cases i k) as [Hlt | Hge].
  - left. nia.
  - right. assert (k < i)%nat by lia. nia.
Qed.

End UpdateFrame.

(** ** Lanes that are not running *)



(** ** Comparisons, [pow], and the accept/reject decision *)

Lemma Rgtb_true (x y : real) : Rgtb x y = true <-> x > y.
Proof.
  unfold Rgtb. destruct (Rgt_dec x y); split; intros; auto; discriminate.
Qed.

Lemma Rgeb_true (x y : real) : Rgeb x y = true <-> x >= y.
Proof.
  unfold Rgeb. destruct (Rge_dec x y); split; intros; auto; discriminate.
Qed.

Lemma Rgeb_false (x y : real) : Rgeb x y = false <-> x < y.
Proof.
  unfold Rgeb. destruct (Rge_dec x y); split; intros; try discriminate;
    try reflexivity; lra.
Qed.

Lemma step_rejected_true (kappa_k kappa_d0 kappa_d1 : real) :
  step_rejected kappa_k kappa_d0 kappa_d1 = true <->
  kappa_k > 1 \/ kappa_d0 > 1 \/ kappa_d1 > 1.
Proof.
  unfold step_rejected. rewrite !orb_true_iff, !Rgtb_true. tauto.
Qed.

Lemma pow_positive_base (x y : real) : 0 < x -> pow x y = Rpower x y.
Proof.
  intros Hx. unfold pow. destruct (Rlt_dec 0 x); [reflexivity | lra].
Qed.

Lemma Rpower_two (x : real) : 0 < x -> Rpower x 2 = x * x.
Proof.
  intros Hx. replace 2 with (1 + 1) by lra.
  rewrite Rpower_plus, Rpower_1 by assumption. reflexivity.
Qed.

(** [pow(x, 2.0)] is the square of a base that is not negative. *)
Lemma pow_two (x : real) : 0 <= x -> pow x 2 = x * x.
Proof.
  intros Hx. unfold pow. destruct (Rlt_dec 0 x) as [Hpos | Hnpos].
  - now apply Rpower_two.
  - assert (x = 0) by lra. subst x. lra.
Qed.

Lemma Rpower_third_squared (k : real) :
  Rpower k (- 1 / 3) * Rpower k (- 1 / 3) = Rpower k (- 2 / 3).
Proof.
  rewrite <- Rpower_plus.
  replace (- 1 / 3 + - 1 / 3) with (- 2 / 3) by lra. reflexivity.
Qed.

(** The cube root in [pow(kappa, -1.0/3)] at a cube. *)
Lemma Rpower_cube_third (x : real) :
  0 < x -> Rpower (x * x * x) (- 1 / 3) = / x.
Proof.
  intros Hx. unfold Rpower.
  rewrite !ln_mult by nra.
  replace (- 1 / 3 * (ln x + ln x + ln x)) with (- ln x) by lra.
  rewrite exp_Ropp, exp_ln by assumption. reflexivity.
Qed.

(** The diffusion branches of the proposal in closed form. *)
Lemma diffusion_proposal (dw kappa : real) :
  0 < kappa ->
  pow ((9 / 10) * fabs dw * pow kappa (- 1 / 3)) 2 =
  ((9 / 10) * fabs dw) * ((9 / 10) * fabs dw) * Rpower kappa (- 2 / 3).
Proof.
  intros Hk. rewrite (pow_positive_base kappa) by assumption.
  assert (Hp : 0 < Rpower kappa (- 1 / 3)) by apply exp_pos.
  assert (Ha : 0 <= fabs dw) by apply Rabs_pos.
  assert (Hb : 0 <= (9 / 10) * fabs dw * Rpower kappa (- 1 / 3)).
  { apply Rmult_le_pos; [| lra]. apply Rmult_le_pos; lra. }
  rewrite (pow_two _ Hb).
  rewrite <- Rpower_third_squared. ring.
Qed.

(** When neither of the first two tests of the proposal holds, the
    third ratio is the largest. *)
Lemma third_branch_dominant (kappa_k kappa_d0 kappa_d1 : real) :
  Rgeb kappa_k kappa_d0 && Rgeb kappa_k kappa_d1 = false ->
  Rgeb kappa_d0 kappa_k && Rgeb kappa_d0 kappa_d1 = false ->
  kappa_d1 >= kappa_k /\ kappa_d1 >= kappa_d0.
Proof.
  rewrite !andb_false_iff, !Rgeb_false. intros H1 H2. lra.
Qed.

Lemma step_proposal_positive (hin : real) (dW : array real)
  (kappa_k kappa_d0 kappa_d1 : real) :
  0 < hin -> 0 < kappa_k -> dW 3%nat <> 0 -> dW 4%nat <> 0 ->
  0 < step_proposal hin dW kappa_k kappa_d0 kappa_d1.
Proof.
  intros Hh Hk H3 H4. unfold step_proposal.
  destruct (Rgeb kappa_k kappa_d0 && Rgeb kappa_k kappa_d1) eqn:E1.
  - assert (0 < sqrt kappa_k) by now apply sqrt_lt_R0.
    apply Rdiv_lt_0_compat; lra.
  - destruct (Rgeb kappa_d0 kappa_k && Rgeb kappa_d0 kappa_d1) eqn:E2.
    + apply andb_true_iff in E2. destruct E2 as [E2 _].
      apply Rgeb_true in E2.
      rewrite diffusion_proposal by lra.
      assert (0 < fabs (dW 3%nat)) by now apply Rabs_pos_lt.
      assert (0 < Rpower kappa_d0 (- 2 / 3)) by apply exp_pos.
      apply Rmult_lt_0_compat; [nra | assumption].
    + destruct (third_branch_dominant _ _ _ E1 E2) as [Hd _].
      rewrite diffusion_proposal by lra.
      assert (0 < fabs (dW 4%nat)) by now apply Rabs_pos_lt.
      assert (0 < Rpower kappa_d1 (- 2 / 3)) by apply exp_pos.
      apply Rmult_lt_0_compat; [nra | assumption].
Qed.

(** ** A running lane of the adaptive step *)

Section AdaptiveLane.
Context `{Collaborators}.

Lemma adaptive_running_lane (Bdata : B_field_data)
  (pdata : plasma_1d_data) (hin : array real) (tol : real)
  (rand5 : array real) (st : gc_adaptive_state) (i : nat) :
  (i < NSIMD)%nat -> gc_running (ga_p st i) = true ->
  let a :=
    gc_adaptive_wiener_push pdata hin tol rand5 i (ga_p st i) (ga_w st i)
      (ga_err st i) in
  let o := ap_out a in
  gc_adaptive_lane (mccc_step_gc_adaptive Bdata pdata hin tol rand5 st) i =
  (gc_adaptive_commit Bdata (ga_p st i) (ap_Bnorm a) (mi_vout o)
     (mi_xiout o) (mi_Xout o),
   step_hout (hin i) (ap_dW a) (mi_kappa_k o) (mi_kappa_d0 o)
     (mi_kappa_d1 o),
   ap_w a, mi_err o).
Proof.
  intros Hi Hrun a o. rewrite gc_adaptive_lanes.
  apply Nat.ltb_lt in Hi. rewrite Hi.
  unfold gc_adaptive_on_lane, mccc_step_gc_adaptive_lane, gc_adaptive_lane.
  cbn [ga_p ga_hout ga_w ga_err fst snd]. rewrite Hrun.
  cbn [ga_p ga_hout ga_w ga_err]. rewrite !upd_same. reflexivity.
Qed.

Lemma fixed_running_lane (Bdata : B_field_data) (pdata : plasma_1d_data)
  (h rnd : array real) (st : gc_fixed_state) (i : nat) :
  (i < NSIMD)%nat -> gc_running (gf_p st i) = true ->
  let pe := gc_fixed_push pdata h rnd i (gf_p st i) (gf_err st i) in
  gc_fixed_lane (mccc_step_gc_fixed Bdata pdata h rnd st) i =
  (gc_fixed_commit Bdata (gf_p st i) (em_vout pe) (em_xiout pe)
     (em_Xout pe),
   em_err pe).
Proof.
  intros Hi Hrun pe. rewrite gc_fixed_lanes.
  apply Nat.ltb_lt in Hi. rewrite Hi.
  unfold gc_fixed_on_lane, mccc_step_gc_fixed_lane, gc_fixed_lane.
  cbn [gf_p gf_err fst snd]. rewrite Hrun.
  cbn [gf_p gf_err]. rewrite !upd_same. reflexivity.
Qed.

End AdaptiveLane.

Section AdaptiveOutputs.
Context `{Collaborators}.

Lemma adaptive_hout (Bdata : B_field_data) (pdata : plasma_1d_data)
  (hin : array real) (tol : real) (rand5 : array real)
  (st : gc_adaptive_state) (i : nat) :
  (i < NSIMD)%nat -> gc_running (ga_p st i) = true ->
  let a :=
    gc_adaptive_wiener_push pdata hin tol rand5 i (ga_p st i) (ga_w st i)
      (ga_err st i) in
  let o := ap_out a in
  ga_hout (mccc_step_gc_adaptive Bdata pdata hin tol rand5 st) i =
  step_hout (hin i) (ap_dW a) (mi_kappa_k o) (mi_kappa_d0 o)
    (mi_kappa_d1 o).
Proof.
  intros Hi Hrun a o.
  pose proof (adaptive_running_lane Bdata pdata hin tol rand5 st i Hi Hrun)
    as E.
  unfold gc_adaptive_lane in E. now inversion E.
Qed.

Lemma adaptive_marker (Bdata : B_field_data) (pdata : plasma_1d_data)
  (hin : array real) (tol : real) (rand5 : array real)
  (st : gc_adaptive_state) (i : nat) :
  (i < NSIMD)%nat -> gc_running (ga_p st i) = true ->
  let a :=
    gc_adaptive_wiener_push pdata hin tol rand5 i (ga_p st i) (ga_w st i)
      (ga_err st i) in
  let o := ap_out a in
  ga_p (mccc_step_gc_adaptive Bdata pdata hin tol rand5 st) i =
  gc_adaptive_commit Bdata (ga_p st i) (ap_Bnorm a) (mi_vout o)
    (mi_xiout o) (mi_Xout o).
Proof.
  intros Hi Hrun a o.
  pose proof (adaptive_running_lane Bdata pdata hin tol rand5 st i Hi Hrun)
    as E.
  unfold gc_adaptive_lane in E. now inversion E.
Qed.

End AdaptiveOutputs.

(** The demo push hands back the ratios it was built with, and the
    increments of channels 3 and 4 are those of [demo_wiener]. *)
Lemma demo_hout (kk kd0 kd1 d3 d4 h : real) :
  let C := demo kk kd0 kd1 (demo_wiener d3 d4) in
  exists dW : array real,
    dW 3%nat = d3 - 0 /\ dW 4%nat = d4 - 0 /\
    ga_hout
      (@mccc_step_gc_adaptive C tt tt (fun _ => h) 1 (fun _ => 0)
         (demo_gc_adaptive_state C tt)) 0%nat =
    step_hout h dW kk kd0 kd1.
Proof.
  intros C.
  eexists. split; [| split].
  3: { rewrite (@adaptive_hout C tt tt (fun _ => h) 1 (fun _ => 0)
                  (demo_gc_adaptive_state C tt) 0%nat);
         [| simpl; lia | reflexivity].
       cbn [ap_out mi_kappa_k mi_kappa_d0 mi_kappa_d1
            gc_adaptive_wiener_push mccc_push_gcMI demo C].
       reflexivity. }
  - reflexivity.
  - reflexivity.
Qed.

(** ** The sign of the returned step *)

(** C1, as the code has it.  For a running lane of
    [mccc_step_gc_adaptive] the step is rejected exactly when one of the
    three error ratios exceeds 1, and [hout[i]] is the proposal, negated
    when the step is rejected.  When the step taken is positive, the
    ratio [kappa_k] is positive and the Wiener increments of channels 3
    and 4 are not zero, the proposal is positive, so that [hout[i]] is
    negative exactly when the step is rejected and positive exactly when
    it is accepted. *)
Theorem adaptive_step_sign `{Collaborators}
  (Bdata : B_field_data) (pdata : plasma_1d_data) (hin : array real)
  (tol : real) (rand5 : array real) (st : gc_adaptive_state) (i : nat) :
  (i < NSIMD)%nat -> gc_running (ga_p st i) = true ->
  let a :=
    gc_adaptive_wiener_push pdata hin tol rand5 i (ga_p st i) (ga_w st i)
      (ga_err st i) in
  let kappa_k := mi_kappa_k (ap_out a) in
  let kappa_d0 := mi_kappa_d0 (ap_out a) in
  let kappa_d1 := mi_kappa_d1 (ap_out a) in
  let rejected := step_rejected kappa_k kappa_d0 kappa_d1 in
  let proposal :=
    step_proposal (hin i) (ap_dW a) kappa_k kappa_d0 kappa_d1 in
  let hout := ga_hout (mccc_step_gc_adaptive Bdata pdata hin tol rand5 st) in
  (rejected = true <-> kappa_k > 1 \/ kappa_d0 > 1 \/ kappa_d1 > 1) /\
  hout i = (if rejected then - proposal else proposal) /\
  (0 < hin i -> 0 < kappa_k ->
   ap_dW a 3%nat <> 0 -> ap_dW a 4%nat <> 0 ->
   (hout i < 0 <-> rejected = true) /\
   (0 < hout i <-> rejected = false)).
Proof.
  intros Hi Hrun a kappa_k kappa_d0 kappa_d1 rejected proposal hout.
  assert (Eh : hout i = (if rejected then - proposal else proposal)).
  { unfold hout. rewrite adaptive_hout by assumption. reflexivity. }
  split; [apply step_rejected_true | split; [exact Eh |]].
  intros Hh Hk H3 H4.
  assert (Hp : 0 < proposal) by now apply step_proposal_positive.
  rewrite Eh. destruct rejected; split; split; intros; try lra;
    try reflexivity; try discriminate.
Qed.

Lemma adaptive_step_sign_witness :
  let C := demo (1 / 2) 2 (1 / 2) (demo_wiener 1 1) in
  (0 < @NSIMD C)%nat /\
  gc_running (ga_p (demo_gc_adaptive_state C tt) 0%nat) = true /\
  ga_hout
    (@mccc_step_gc_adaptive C tt tt (fun _ => 1) 1 (fun _ => 0)
       (demo_gc_adaptive_state C tt)) 0%nat < 0.
Proof.
  intros C.
  assert (Hi : (0 < @NSIMD C)%nat) by (simpl; lia).
  assert (Hrun : gc_running (ga_p (demo_gc_adaptive_state C tt) 0%nat) = true)
    by reflexivity.
  split; [exact Hi | split; [exact Hrun |]].
  destruct (@adaptive_step_sign C tt tt (fun _ => 1) 1 (fun _ => 0)
              (demo_gc_adaptive_state C tt) 0%nat Hi Hrun)
    as (Hrej & _ & Hsign).
  destruct Hsign as [Hneg _].
  - lra.
  - simpl. lra.
  - simpl. unfold upd, demo_wiener. simpl. lra.
  - simpl. unfold upd, demo_wiener. simpl. lra.
  - apply Hneg. apply Hrej. right. left. simpl. lra.
Defined.

(** C1 fails as stated: with ratios 1/2, 2 and 1/2 the step is rejected,
    and with a zero Wiener increment in channel 3 the proposal of the
    second branch is 0, so [hout[0]] is 0 and not negative. *)
Lemma adaptive_step_sign_counterexample :
  let C := demo (1 / 2) 2 (1 / 2) (demo_wiener 0 0) in
  let st := demo_gc_adaptive_state C tt in
  let a :=
    @gc_adaptive_wiener_push C tt (fun _ => 1) 1 (fun _ => 0) 0%nat
      (ga_p st 0%nat) (ga_w st 0%nat) (ga_err st 0%nat) in
  let hout :=
    ga_hout (@mccc_step_gc_adaptive C tt tt (fun _ => 1) 1 (fun _ => 0) st) in
  gc_running (ga_p st 0%nat) = true /\
  mi_kappa_d0 (ap_out a) > 1 /\
  hout 0%nat = 0 /\
  ~ hout 0%nat < 0.
Proof.
  intros C st a hout.
  assert (E0 : hout 0%nat = 0).
  { destruct (demo_hout (1 / 2) 2 (1 / 2) 0 0 1) as (dW & E3 & _ & E).
    unfold hout. fold C in E. fold st in E. rewrite E.
    unfold step_hout, step_proposal, step_rejected, Rgtb, Rgeb, fabs.
    rewrite E3.
    destruct (Rge_dec (1 / 2) 2); [lra |].
    destruct (Rge_dec 2 (1 / 2)); [| lra].
    destruct (Rgt_dec 2 1); [| lra].
    destruct (Rgt_dec (1 / 2) 1); [lra |].
    simpl.
    replace (9 / 10 * Rabs (0 - 0) * pow 2 (- 1 / 3)) with 0.
    - rewrite pow_two by lra. lra.
    - replace (0 - 0) with 0 by lra. rewrite Rabs_R0. lra. }
  split; [reflexivity | split; [simpl; lra | split; [exact E0 |]]].
  rewrite E0. lra.
Qed.

(** ** The size of a rejected step *)

(** C3, as the code has it.  For a running lane of
    [mccc_step_gc_adaptive], when one of the error ratios exceeds 1 the
    returned [hout[i]] is the negated proposal; when moreover [kappa_k]
    is the largest ratio and the step taken is positive, [hout[i]] is
    negative and smaller in absolute value than [hin[i]]. *)
Theorem rejected_step_shrinks `{Collaborators}
  (Bdata : B_field_data) (pdata : plasma_1d_data) (hin : array real)
  (tol : real) (rand5 : array real) (st : gc_adaptive_state) (i : nat) :
  (i < NSIMD)%nat -> gc_running (ga_p st i) = true ->
  let a :=
    gc_adaptive_wiener_push pdata hin tol rand5 i (ga_p st i) (ga_w st i)
      (ga_err st i) in
  let kappa_k := mi_kappa_k (ap_out a) in
  let kappa_d0 := mi_kappa_d0 (ap_out a) in
  let kappa_d1 := mi_kappa_d1 (ap_out a) in
  let hout := ga_hout (mccc_step_gc_adaptive Bdata pdata hin tol rand5 st) in
  kappa_k > 1 \/ kappa_d0 > 1 \/ kappa_d1 > 1 ->
  hout i = - step_proposal (hin i) (ap_dW a) kappa_k kappa_d0 kappa_d1 /\
  (kappa_k >= kappa_d0 -> kappa_k >= kappa_d1 -> 0 < hin i ->
   hout i = - ((8 / 10) * hin i / sqrt kappa_k) /\
   hout i < 0 /\ Rabs (hout i) < hin i).
Proof.
  intros Hi Hrun a kappa_k kappa_d0 kappa_d1 hout Hany.
  assert (Eh : hout i =
               - step_proposal (hin i) (ap_dW a) kappa_k kappa_d0 kappa_d1).
  { unfold hout. rewrite adaptive_hout by assumption. unfold step_hout.
    apply step_rejected_true in Hany. fold a kappa_k kappa_d0 kappa_d1.
    now rewrite Hany. }
  split; [exact Eh |].
  intros Hd0 Hd1 Hh.
  assert (Hk : kappa_k > 1) by lra.
  assert (Ep : step_proposal (hin i) (ap_dW a) kappa_k kappa_d0 kappa_d1 =
               (8 / 10) * hin i / sqrt kappa_k).
  { unfold step_proposal.
    apply Rgeb_true in Hd0. apply Rgeb_true in Hd1.
    now rewrite Hd0, Hd1. }
  rewrite Eh, Ep.
  assert (Hs : 1 < sqrt kappa_k).
  { rewrite <- sqrt_1. apply sqrt_lt_1; lra. }
  assert (Hq : 0 < (8 / 10) * hin i / sqrt kappa_k)
    by (apply Rdiv_lt_0_compat; lra).
  assert (Hlt : (8 / 10) * hin i / sqrt kappa_k < hin i).
  { apply Rmult_lt_reg_r with (r := sqrt kappa_k); [lra |].
    unfold Rdiv. rewrite Rmult_assoc, Rinv_l by lra. nra. }
  repeat split; [lra |].
  rewrite Rabs_Ropp, Rabs_pos_eq by lra. exact Hlt.
Qed.

Lemma rejected_step_shrinks_witness :
  let C := demo 4 (1 / 2) (1 / 2) (demo_wiener 1 1) in
  let hout :=
    ga_hout
      (@mccc_step_gc_adaptive C tt tt (fun _ => 1) 1 (fun _ => 0)
         (demo_gc_adaptive_state C tt)) in
  (0 < @NSIMD C)%nat /\
  gc_running (ga_p (demo_gc_adaptive_state C tt) 0%nat) = true /\
  hout 0%nat < 0 /\ Rabs (hout 0%nat) < 1.
Proof.
  intros C hout.
  assert (Hi : (0 < @NSIMD C)%nat) by (simpl; lia).
  assert (Hrun : gc_running (ga_p (demo_gc_adaptive_state C tt) 0%nat) = true)
    by reflexivity.
  split; [exact Hi | split; [exact Hrun |]].
  destruct (@rejected_step_shrinks C tt tt (fun _ => 1) 1 (fun _ => 0)
              (demo_gc_adaptive_state C tt) 0%nat Hi Hrun)
    as (_ & Hk).
  - left. simpl. lra.
  - destruct Hk as (_ & Hneg & Habs).
    + simpl. lra.
    + simpl. lra.
    + lra.
    + split; assumption.
Defined.

(** C3 fails as stated: with ratios 1/2, 8 and 1/2 the second branch
    proposes [(0.9*|dW[3]|*8^(-1/3))^2], which for the increment 10 is
    81/4; the step taken was 1, and [hout[0]] is -81/4. *)
Lemma rejected_step_shrinks_counterexample :
  let C := demo (1 / 2) 8 (1 / 2) (demo_wiener 10 0) in
  let st := demo_gc_adaptive_state C tt in
  let hin : array real := fun _ => 1 in
  let a :=
    @gc_adaptive_wiener_push C tt hin 1 (fun _ => 0) 0%nat
      (ga_p st 0%nat) (ga_w st 0%nat) (ga_err st 0%nat) in
  let hout :=
    ga_hout (@mccc_step_gc_adaptive C tt tt hin 1 (fun _ => 0) st) in
  gc_running (ga_p st 0%nat) = true /\
  mi_kappa_d0 (ap_out a) > 1 /\
  hout 0%nat = - (81 / 4) /\
  ~ Rabs (hout 0%nat) < hin 0%nat.
Proof.
  intros C st hin a hout.
  assert (E : hout 0%nat = - (81 / 4)).
  { destruct (demo_hout (1 / 2) 8 (1 / 2) 10 0 1) as (dW & E3 & _ & E).
    unfold hout. fold C in E. fold st in E. fold hin in E. rewrite E.
    unfold step_hout, step_proposal, step_rejected, Rgtb, Rgeb, fabs.
    rewrite E3.
    destruct (Rge_dec (1 / 2) 8); [lra |].
    destruct (Rge_dec 8 (1 / 2)); [| lra].
    destruct (Rgt_dec 8 1); [| lra].
    destruct (Rgt_dec (1 / 2) 1); [lra |].
    simpl.
    rewrite (pow_positive_base 8) by lra.
    replace 8 with (2 * 2 * 2) by lra.
    rewrite Rpower_cube_third by lra.
    replace (10 - 0) with 10 by lra.
    rewrite Rabs_pos_eq by lra.
    rewrite pow_two by lra. lra. }
  split; [reflexivity | split; [simpl; lra | split; [exact E |]]].
  rewrite E. unfold hin. rewrite Rabs_Ropp, Rabs_pos_eq by lra. lra.
Qed.

(** ** The proposal, channel by channel *)

(** C4, as the code has it.  For a running lane of
    [mccc_step_gc_adaptive], [hout[i]] is the proposal up to the sign.
    When [kappa_k] is at least both other ratios the proposal is
    [0.8*hin/sqrt(kappa_k)].  Otherwise it comes from the larger of the
    two diffusion ratios, [kappa_d0] with the increment of channel 3 on
    a tie: [(0.9*|dW|)^2 * kappa^(-2/3)], the ratio entering as the
    square of its power -1/3. *)
Theorem proposal_by_dominant_channel `{Collaborators}
  (Bdata : B_field_data) (pdata : plasma_1d_data) (hin : array real)
  (tol : real) (rand5 : array real) (st : gc_adaptive_state) (i : nat) :
  (i < NSIMD)%nat -> gc_running (ga_p st i) = true ->
  let a :=
    gc_adaptive_wiener_push pdata hin tol rand5 i (ga_p st i) (ga_w st i)
      (ga_err st i) in
  let kappa_k := mi_kappa_k (ap_out a) in
  let kappa_d0 := mi_kappa_d0 (ap_out a) in
  let kappa_d1 := mi_kappa_d1 (ap_out a) in
  let dW := ap_dW a in
  let proposal := step_proposal (hin i) dW kappa_k kappa_d0 kappa_d1 in
  let hout := ga_hout (mccc_step_gc_adaptive Bdata pdata hin tol rand5 st) in
  (hout i = proposal \/ hout i = - proposal) /\
  (kappa_k >= kappa_d0 /\ kappa_k >= kappa_d1 ->
   proposal = (8 / 10) * hin i / sqrt kappa_k) /\
  (~ (kappa_k >= kappa_d0 /\ kappa_k >= kappa_d1) ->
   kappa_d0 >= kappa_d1 -> 0 < kappa_d0 ->
   kappa_d0 >= kappa_k /\
   proposal =
   ((9 / 10) * fabs (dW 3%nat)) * ((9 / 10) * fabs (dW 3%nat))
   * Rpower kappa_d0 (- 2 / 3)) /\
  (~ (kappa_k >= kappa_d0 /\ kappa_k >= kappa_d1) ->
   kappa_d0 < kappa_d1 -> 0 < kappa_d1 ->
   kappa_d1 >= kappa_k /\
   proposal =
   ((9 / 10) * fabs (dW 4%nat)) * ((9 / 10) * fabs (dW 4%nat))
   * Rpower kappa_d1 (- 2 / 3)).
Proof.
  intros Hi Hrun a kappa_k kappa_d0 kappa_d1 dW proposal hout.
  split; [| split; [| split]].
  - unfold hout. rewrite adaptive_hout by assumption. unfold step_hout.
    fold a kappa_k kappa_d0 kappa_d1 dW proposal.
    destruct (step_rejected kappa_k kappa_d0 kappa_d1); auto.
  - intros [Hd0 Hd1]. unfold proposal, step_proposal.
    apply Rgeb_true in Hd0. apply Rgeb_true in Hd1.
    now rewrite Hd0, Hd1.
  - intros Hnk Hd Hpos.
    assert (Hk : kappa_d0 >= kappa_k) by lra.
    split; [exact Hk |].
    unfold proposal, step_proposal.
    assert (E1 : Rgeb kappa_k kappa_d0 && Rgeb kappa_k kappa_d1 = false).
    { apply andb_false_iff. rewrite !Rgeb_false. lra. }
    rewrite E1.
    apply Rgeb_true in Hk. apply Rgeb_true in Hd. rewrite Hk, Hd.
    now apply diffusion_proposal.
  - intros Hnk Hd Hpos.
    assert (Hk : kappa_d1 >= kappa_k) by lra.
    split; [exact Hk |].
    unfold proposal, step_proposal.
    assert (E1 : Rgeb kappa_k kappa_d0 && Rgeb kappa_k kappa_d1 = false).
    { apply andb_false_iff. rewrite !Rgeb_false. lra. }
    assert (E2 : Rgeb kappa_d0 kappa_k && Rgeb kappa_d0 kappa_d1 = false).
    { apply andb_false_iff. rewrite !Rgeb_false. lra. }
    rewrite E1, E2.
    now apply diffusion_proposal.
Qed.

Lemma proposal_by_dominant_channel_witness :
  let C := demo (1 / 2) 8 (1 / 2) (demo_wiener 1 1) in
  let st := demo_gc_adaptive_state C tt in
  let hin : array real := fun _ => 1 in
  let a :=
    @gc_adaptive_wiener_push C tt hin 1 (fun _ => 0) 0%nat
      (ga_p st 0%nat) (ga_w st 0%nat) (ga_err st 0%nat) in
  (0 < @NSIMD C)%nat /\
  gc_running (ga_p st 0%nat) = true /\
  step_proposal (hin 0%nat) (ap_dW a) (1 / 2) 8 (1 / 2) =
  ((9 / 10) * fabs (ap_dW a 3%nat)) * ((9 / 10) * fabs (ap_dW a 3%nat))
  * Rpower 8 (- 2 / 3).
Proof.
  intros C st hin a.
  assert (Hi : (0 < @NSIMD C)%nat) by (simpl; lia).
  assert (Hrun : gc_running (ga_p st 0%nat) = true) by reflexivity.
  split; [exact Hi | split; [exact Hrun |]].
  destruct (@proposal_by_dominant_channel C tt tt hin 1 (fun _ => 0)
              st 0%nat Hi Hrun)
    as (_ & _ & Hd0 & _).
  destruct Hd0 as [_ E].
  - simpl. lra.
  - simpl. lra.
  - simpl. lra.
  - exact E.
Defined.

(** C4 fails as stated: were the ratio to enter with the power -2, the
    proposal times the square of the ratio would not change with the
    ratio.  With the increment 1 in channel 3 and the other ratios at
    1/2, the ratio 8 gives [hout[0] = -81/400] and the ratio 64 gives
    [hout[0] = -81/1600]: a quarter, where the power -2 asks for a
    sixty-fourth. *)
Lemma proposal_by_dominant_channel_counterexample :
  let run (kappa_d0 : real) :=
    let C := demo (1 / 2) kappa_d0 (1 / 2) (demo_wiener 1 0) in
    ga_hout
      (@mccc_step_gc_adaptive C tt tt (fun _ => 1) 1 (fun _ => 0)
         (demo_gc_adaptive_state C tt)) 0%nat in
  run 8 = - (81 / 400) /\ run 64 = - (81 / 1600) /\
  run 64 * (64 * 64) <> run 8 * (8 * 8).
Proof.
  intros run.
  assert (Hrun : forall x, 1 < x ->
            run (x * x * x) = - ((9 / 10 / x) * (9 / 10 / x))).
  { intros x Hx. unfold run.
    assert (Hc : 1 < x * x * x) by nra.
    destruct (demo_hout (1 / 2) (x * x * x) (1 / 2) 1 0 1)
      as (dW & E3 & _ & E).
    cbv zeta in E. rewrite E.
    unfold step_hout, step_proposal, step_rejected, Rgtb, Rgeb, fabs.
    rewrite E3.
    destruct (Rge_dec (1 / 2) (x * x * x)); [lra |].
    destruct (Rge_dec (x * x * x) (1 / 2)); [| lra].
    destruct (Rgt_dec (x * x * x) 1); [| lra].
    destruct (Rgt_dec (1 / 2) 1); [lra |].
    simpl.
    rewrite (pow_positive_base (x * x * x)) by lra.
    rewrite Rpower_cube_third by lra.
    replace (1 - 0) with 1 by lra.
    rewrite Rabs_pos_eq by lra.
    assert (0 < / x) by (apply Rinv_0_lt_compat; lra).
    rewrite pow_two by nra. unfold Rdiv. ring. }
  assert (E8 : run 8 = - (81 / 400)).
  { replace 8 with (2 * 2 * 2) by lra. rewrite Hrun by lra. lra. }
  assert (E64 : run 64 = - (81 / 1600)).
  { replace 64 with (4 * 4 * 4) at 1 by lra. rewrite Hrun by lra. lra. }
  split; [exact E8 | split; [exact E64 |]].
  rewrite E8, E64. lra.
Qed.

(** ** The state after an adaptive step *)


Lemma demo_speed :
  gc_speed_step 1 0 1 (sqrt (0 * 0 + 0 * 0 + 1 * 1)) = 1.
Proof.
  unfold gc_speed_step.
  replace (0 * 0 + 0 * 0 + 1 * 1) with 1 by lra.
  rewrite sqrt_1.
  replace (1 * 1 + 2 * 0 * 1 / 1) with 1 by lra.
  apply sqrt_1.
Qed.


(** ** The field cache after a guiding-centre step *)



(** ** Lanes do not interfere *)



(** ** The speed of a guiding centre in the two families of functions *)

(** C9, evaluated.  For [vpar = 0], [mu = 1], [mass = 2] and a field of
    norm 1, [mccc_update_gc] and [mccc_collfreq_gc] evaluate the
    coefficients at the speed 4, [mccc_step_gc_fixed] and
    [mccc_step_gc_adaptive] at the speed 1, the value of
    [sqrt(vpar^2 + 2*mu*|B|/mass)]. *)
Theorem gc_speeds_differ :
  gc_speed_update 0 1 2 1 = 4 /\
  gc_speed_step 0 1 2 1 = 1 /\
  sqrt (0 * 0 + 2 * 1 * 1 / 2) = 1.
Proof.
  unfold gc_speed_update, gc_speed_step. cbv zeta.
  replace (0 * 0 + 2 * 1 * 1 * 2 * (2 * 1 * 1 * 2)) with (4 * 4) by lra.
  replace (0 * 0 + 2 * 1 * 1 / 2) with 1 by lra.
  rewrite sqrt_square by lra. rewrite sqrt_1. repeat split.
Qed.

(** The two speeds agree when the magnetic moment vanishes. *)
Lemma gc_speeds_agree_without_mu (vpar mass Bnorm : real) :
  gc_speed_update vpar 0 mass Bnorm = gc_speed_step vpar 0 mass Bnorm.
Proof.
  unfold gc_speed_update, gc_speed_step. cbv zeta. f_equal.
  unfold Rdiv. ring.
Qed.

(** ** The cutoff handed to the push *)

(** C7, evaluated.  [mccc_step_gc_fixed] and [mccc_step_gc_adaptive] of
    [mccc/mccc.c] call [mccc_push_gcEM] and [mccc_push_gcMI] with the
    cutoff 0, for every lane and every collaborator; 0 is not a positive
    floor.  In both files the pitch [xiin = vpar/vin] is computed before
    the push is called, and for a lane with [vpar = 0] and [mu = 0] (here
    with unit mass in a unit field) its divisor [vin] is 0. *)
Theorem legacy_push_cutoff_zero `{Collaborators}
  (Bdata : B_field_data) (pdata : plasma_1d_data) (h u : array real)
  (tol : real) (i : nat) (m : gc_marker) (w_i : mccc_wienarr) (err_i : Z) :
  legacy_cutoff = 0 /\ ~ 0 < legacy_cutoff /\
  (exists (K nu Dpara DX : real) (B : vec3) (rnd : array real)
          (vin xiin : real) (Xin : vec3),
     snd (Legacy.gc_fixed_push Bdata pdata h u i m err_i) =
     mccc_push_gcEM K nu Dpara DX B (h i) rnd vin xiin Xin 0 err_i) /\
  (exists (K nu Dpara DX : real) (B : vec3) (dW : array real)
          (dQ dDpara vin xiin : real) (Xin : vec3) (err1 : Z),
     ap_out (Legacy.gc_adaptive_wiener_push Bdata pdata h tol i m w_i err_i) =
     mccc_push_gcMI K nu Dpara DX B (h i) dW dQ dDpara vin xiin Xin 0 tol
       err1) /\
  gc_speed_step 0 0 1 1 = 0.
Proof.
  unfold legacy_cutoff.
  split; [reflexivity | split; [lra | split; [| split]]].
  - unfold Legacy.gc_fixed_push. cbv zeta. unfold legacy_cutoff.
    do 9 eexists. reflexivity.
  - unfold Legacy.gc_adaptive_wiener_push. cbv zeta. unfold legacy_cutoff.
    do 12 eexists. reflexivity.
  - unfold gc_speed_step. cbv zeta.
    replace (0 * 0 + 2 * 0 * 1 / 1) with 0 by lra.
    apply sqrt_0.
Qed.

(** The cutoff of [simulate/mccc/mccc.c] is positive for a positive
    electron temperature and a positive mass. *)
Lemma gc_cutoff_positive (temp0 mass : real) :
  0 < temp0 -> 0 < mass -> 0 < gc_cutoff temp0 mass.
Proof.
  intros Ht Hm. unfold gc_cutoff.
  assert (0 < temp0 / mass) by now apply Rdiv_lt_0_compat.
  assert (0 < sqrt (temp0 / mass)) by now apply sqrt_lt_R0.
  lra.
Qed.

(** ** The older file *)

Section LegacyFacts.
Context `{Collaborators}.

(** When [kappa_k] exceeds neither diffusion ratio, the older
    [mccc_step_gc_adaptive] runs its second loop three times and
    proposes [3*(hin/3)], whatever the ratios are. *)
Lemma legacy_diffusion_proposal (hin t : real) (dW : array real)
  (tindex0 : Z) (kappa_k kappa_d0 kappa_d1 : real) (w : mccc_wienarr)
  (err : Z) :
  Rgtb kappa_k kappa_d0 || Rgtb kappa_k kappa_d1 = false ->
  fst (fst (Legacy.legacy_decision hin t dW tindex0 kappa_k kappa_d0
              kappa_d1 w err)) =
  if step_rejected kappa_k kappa_d0 kappa_d1
  then - (3 * (hin / 3)) else 3 * (hin / 3).
Proof.
  intros Hb. unfold Legacy.legacy_decision. cbv zeta. rewrite Hb.
  unfold Legacy.sweep_pass. simpl.
  destruct (step_rejected kappa_k kappa_d0 kappa_d1); reflexivity.
Qed.

(** The older [mccc_step_fo_fixed] writes no element of [err] but
    element 0. *)
Lemma legacy_fo_errors_in_slot_zero (Bdata : B_field_data)
  (pdata : plasma_1d_data) (h u : array real) (st : fo_state) (j : nat) :
  j <> 0%nat ->
  fs_err (Legacy.mccc_step_fo_fixed Bdata pdata h u st) j = fs_err st j.
Proof.
  intros Hj. unfold Legacy.mccc_step_fo_fixed.
  induction NSIMD as [| n IH]; simpl; [reflexivity |].
  unfold Legacy.mccc_step_fo_fixed_lane at 1.
  destruct (fo_running _); [| exact IH].
  simpl. rewrite upd_other by assumption. exact IH.
Qed.

End LegacyFacts.

(** ** The species read from the HDF5 file *)



Section ReaderFacts.
Context `{Collaborators}.



Lemma wrap_int_in_range (z : Z) :
  (- 2 ^ 31 <= z < 2 ^ 31)%Z -> wrap_int z = z.
Proof.
  intros Hz. unfold wrap_int. rewrite Z.mod_small; lia.
Qed.


End ReaderFacts.





(** * Further properties *)

(** ** The coefficient blocks of the running lanes *)

Lemma write_block_inside (a : array real) (off : nat) (n : Z)
  (vals : array real) (j : nat) :
  (Z.of_nat j < n)%Z -> write_block a off n vals (off + j)%nat = vals j.
Proof.
  intros Hj. assert (Hc : (j < Z.to_nat n)%nat) by lia. clear Hj.
  unfold write_block, for_int. rewrite Nat.sub_0_r.
  induction (Z.to_nat n) as [| c IH]; simpl; [lia |].
  destruct (Nat.eq_dec j c) as [-> | Hne].
  - now rewrite upd_same.
  - rewrite upd_other by lia. apply IH. lia.
Qed.

Section UpdateBlocks.
Context `{Collaborators}.

(** The iterations after lane [i] leave the block of lane [i] alone. *)
Lemma update_fo_after (p : array fo_marker) (pdata : plasma_1d_data)
  (c : fo_coefs) (i s d : nat) :
  (n_species pdata <= Z.of_nat MAX_SPECIES)%Z -> (s < MAX_SPECIES)%nat ->
  fo_coefs_slot
    (for_loop (S i + d) (mccc_update_fo_lane p pdata) c) i s =
  fo_coefs_slot (for_loop (S i) (mccc_update_fo_lane p pdata) c) i s.
Proof.
  intros Hfit Hs. induction d as [| d IH].
  - now rewrite Nat.add_0_r.
  - rewrite Nat.add_succ_r. rewrite <- IH.
    change (for_loop (S (S i + d)) (mccc_update_fo_lane p pdata) c)
      with (mccc_update_fo_lane p pdata (S i + d)
              (for_loop (S i + d) (mccc_update_fo_lane p pdata) c)).
    generalize (for_loop (S i + d) (mccc_update_fo_lane p pdata) c).
    intros c0. unfold mccc_update_fo_lane, fo_coefs_slot.
    destruct (fo_running (p (S i + d)%nat)); [| reflexivity].
    cbn [fc_clogab fc_F fc_Dpara fc_Dperp fc_K fc_nu].
    rewrite !write_block_outside
      by (apply slot_outside_block; [assumption | assumption | lia]).
    reflexivity.
Qed.

Lemma update_gc_after (p : array gc_marker) (pdata : plasma_1d_data)
  (c : gc_coefs) (i s d : nat) :
  (n_species pdata <= Z.of_nat MAX_SPECIES)%Z -> (s < MAX_SPECIES)%nat ->
  gc_coefs_slot
    (for_loop (S i + d) (mccc_update_gc_lane p pdata) c) i s =
  gc_coefs_slot (for_loop (S i) (mccc_update_gc_lane p pdata) c) i s.
Proof.
  intros Hfit Hs. induction d as [| d IH].
  - now rewrite Nat.add_0_r.
  - rewrite Nat.add_succ_r. rewrite <- IH.
    change (for_loop (S (S i + d)) (mccc_update_gc_lane p pdata) c)
      with (mccc_update_gc_lane p pdata (S i + d)
              (for_loop (S i + d) (mccc_update_gc_lane p pdata) c)).
    generalize (for_loop (S i + d) (mccc_update_gc_lane p pdata) c).
    intros c0. unfold mccc_update_gc_lane, gc_coefs_slot.
    destruct (gc_running (p (S i + d)%nat)); [| reflexivity].
    cbn [gk_clogab gk_Dpara gk_DX gk_K gk_nu gk_dQ gk_dDpara].
    rewrite !write_block_outside
      by (apply slot_outside_block; [assumption | assumption | lia]).
    reflexivity.
Qed.

End UpdateBlocks.

(** X1.  [mccc_update_fo] leaves, for a running lane [i] and a species
    [j] of the plasma, the coefficients of that lane and species at
    index [i*MAX_SPECIES + j] of every output array: the Coulomb
    logarithm that [mccc_coefs_clog] computed for the lane, and the
    coefficients that [mccc_coefs_fo] computed from these same
    logarithms.  No later lane overwrites them. *)
Theorem update_fo_fills_block `{Collaborators}
  (p : array fo_marker) (pdata : plasma_1d_data) (c : fo_coefs)
  (i j : nat) :
  (i < NSIMD)%nat -> fo_running (p i) = true ->
  (n_species pdata <= Z.of_nat MAX_SPECIES)%Z ->
  (Z.of_nat j < n_species pdata)%Z ->
  let m := p i in
  let n := n_species pdata in
  let dt := background_update (fo_rho m) pdata in
  let clog :=
    mccc_coefs_clog (fo_mass m) (fo_charge m) (fo_speed m)
      (pl_mass pdata) (pl_charge pdata) (fst dt) (snd dt) n in
  let c' := mccc_update_fo p pdata c in
  let q := (i * MAX_SPECIES + j)%nat in
  fc_clogab c' q = clog j /\
  exists clogab : array real,
    (forall s : nat, (Z.of_nat s < n)%Z -> clogab s = clog s) /\
    let o :=
      mccc_coefs_fo (fo_mass m) (fo_charge m) (fo_speed m)
        (pl_mass pdata) (pl_charge pdata) (fst dt) (snd dt) clogab n in
    fc_F c' q = cf_F o j /\ fc_Dpara c' q = cf_Dpara o j /\
    fc_Dperp c' q = cf_Dperp o j /\ fc_K c' q = cf_K o j /\
    fc_nu c' q = cf_nu o j.
Proof.
  intros Hi Hrun Hfit Hj m n dt clog c' q.
  assert (Hs : (j < MAX_SPECIES)%nat) by lia.
  assert (E : fo_coefs_slot c' i j =
              fo_coefs_slot
                (for_loop (S i) (mccc_update_fo_lane p pdata) c) i j).
  { unfold c', mccc_update_fo.
    replace NSIMD with (S i + (NSIMD - S i))%nat by lia.
    now apply update_fo_after. }
  simpl for_loop in E.
  set (c0 := for_loop i (mccc_update_fo_lane p pdata) c) in E.
  unfold mccc_update_fo_lane in E. rewrite Hrun in E.
  unfold fo_coefs_slot in E.
  cbn [fc_clogab fc_F fc_Dpara fc_Dperp fc_K fc_nu] in E.
  fold m dt n clog in E. cbv zeta in E. fold q in E.
  unfold q in E. rewrite !write_block_inside in E by assumption.
  fold q in E.
  injection E as E1 E2 E3 E4 E5 E6.
  split; [exact E1 |].
  exists (view (write_block (fc_clogab c0) (i * MAX_SPECIES) n clog)
            (i * MAX_SPECIES)).
  split.
  - intros s Hsn. unfold view. now apply write_block_inside.
  - cbv zeta. repeat split; assumption.
Qed.

(** X2.  [mccc_update_gc] leaves, for a running lane [i] and a species
    [j] of the plasma, the coefficients of that lane and species at
    index [i*MAX_SPECIES + j] of every output array: the Coulomb
    logarithm of [mccc_coefs_clog], evaluated at the speed and the
    field norm of the lane, and the coefficients that
    [mccc_coefs_gcadaptive] computed from these same logarithms. *)
Theorem update_gc_fills_block `{Collaborators}
  (p : array gc_marker) (pdata : plasma_1d_data) (c : gc_coefs)
  (i j : nat) :
  (i < NSIMD)%nat -> gc_running (p i) = true ->
  (n_species pdata <= Z.of_nat MAX_SPECIES)%Z ->
  (Z.of_nat j < n_species pdata)%Z ->
  let m := p i in
  let n := n_species pdata in
  let dt := background_update (gc_rho m) pdata in
  let Bnorm := math_norm (gc_B_r m, gc_B_phi m, gc_B_z m) in
  let va := gc_speed_update (gc_vpar m) (gc_mu m) (gc_mass m) Bnorm in
  let xi := gc_vpar m / va in
  let clog :=
    mccc_coefs_clog (gc_mass m) (gc_charge m) va
      (pl_mass pdata) (pl_charge pdata) (fst dt) (snd dt) n in
  let c' := mccc_update_gc p pdata c in
  let q := (i * MAX_SPECIES + j)%nat in
  gk_clogab c' q = clog j /\
  exists clogab : array real,
    (forall s : nat, (Z.of_nat s < n)%Z -> clogab s = clog s) /\
    let o :=
      mccc_coefs_gcadaptive (gc_mass m) (gc_charge m) va xi
        (pl_mass pdata) (pl_charge pdata) (fst dt) (snd dt) Bnorm
        clogab n in
    gk_Dpara c' q = ca_Dpara o j /\ gk_DX c' q = ca_DX o j /\
    gk_K c' q = ca_K o j /\ gk_nu c' q = ca_nu o j /\
    gk_dQ c' q = ca_dQ o j /\ gk_dDpara c' q = ca_dDpara o j.
Proof.
  intros Hi Hrun Hfit Hj m n dt Bnorm va xi clog c' q.
  assert (Hs : (j < MAX_SPECIES)%nat) by lia.
  assert (E : gc_coefs_slot c' i j =
              gc_coefs_slot
                (for_loop (S i) (mccc_update_gc_lane p pdata) c) i j).
  { unfold c', mccc_update_gc.
    replace NSIMD with (S i + (NSIMD - S i))%nat by lia.
    now apply update_gc_after. }
  simpl for_loop in E.
  set (c0 := for_loop i (mccc_update_gc_lane p pdata) c) in E.
  unfold mccc_update_gc_lane in E. rewrite Hrun in E.
  unfold gc_coefs_slot in E.
  cbn [gk_clogab gk_Dpara gk_DX gk_K gk_nu gk_dQ gk_dDpara] in E.
  fold m dt n Bnorm va xi clog in E. cbv zeta in E. fold q in E.
  unfold q in E. rewrite !write_block_inside in E by assumption.
  fold q in E.
  injection E as E1 E2 E3 E4 E5 E6 E7.
  split; [exact E1 |].
  exists (view (write_block (gk_clogab c0) (i * MAX_SPECIES) n clog)
            (i * MAX_SPECIES)).
  split.
  - intros s Hsn. unfold view. now apply write_block_inside.
  - cbv zeta. repeat split; assumption.
Qed.

Lemma update_fo_fills_block_witness :
  let C := demo 1 1 1 (fun _ => 0) in
  let c :=
    {| fc_clogab := uninit; fc_F := uninit; fc_Dpara := uninit;
       fc_Dperp := uninit; fc_K := uninit; fc_nu := uninit |} in
  (0 < @NSIMD C)%nat /\
  fo_running (demo_lanes demo_fo 0%nat) = true /\
  (@n_species C tt <= Z.of_nat (@MAX_SPECIES C))%Z /\
  (Z.of_nat 1 < @n_species C tt)%Z /\
  fc_clogab (@mccc_update_fo C (demo_lanes demo_fo) tt c) 1%nat = 1.
Proof.
  intros C c.
  assert (Hi : (0 < @NSIMD C)%nat) by (simpl; lia).
  assert (Hrun : fo_running (demo_lanes demo_fo 0%nat) = true) by reflexivity.
  assert (Hfit : (@n_species C tt <= Z.of_nat (@MAX_SPECIES C))%Z)
    by (simpl; lia).
  assert (Hj : (Z.of_nat 1 < @n_species C tt)%Z) by (simpl; lia).
  split; [exact Hi | split; [exact Hrun | split; [exact Hfit |
    split; [exact Hj |]]]].
  destruct (@update_fo_fills_block C (demo_lanes demo_fo) tt c 0%nat 1%nat
              Hi Hrun Hfit Hj) as [E _].
  exact E.
Defined.

Lemma update_gc_fills_block_witness :
  let C := demo 1 1 1 (fun _ => 0) in
  let c :=
    {| gk_clogab := uninit; gk_Dpara := uninit; gk_DX := uninit;
       gk_K := uninit; gk_nu := uninit; gk_dQ := uninit;
       gk_dDpara := uninit |} in
  (0 < @NSIMD C)%nat /\
  gc_running (demo_lanes demo_gc 0%nat) = true /\
  (@n_species C tt <= Z.of_nat (@MAX_SPECIES C))%Z /\
  (Z.of_nat 1 < @n_species C tt)%Z /\
  gk_clogab (@mccc_update_gc C (demo_lanes demo_gc) tt c) 1%nat = 1.
Proof.
  intros C c.
  assert (Hi : (0 < @NSIMD C)%nat) by (simpl; lia).
  assert (Hrun : gc_running (demo_lanes demo_gc 0%nat) = true) by reflexivity.
  assert (Hfit : (@n_species C tt <= Z.of_nat (@MAX_SPECIES C))%Z)
    by (simpl; lia).
  assert (Hj : (Z.of_nat 1 < @n_species C tt)%Z) by (simpl; lia).
  split; [exact Hi | split; [exact Hrun | split; [exact Hfit |
    split; [exact Hj |]]]].
  destruct (@update_gc_fills_block C (demo_lanes demo_gc) tt c 0%nat 1%nat
              Hi Hrun Hfit Hj) as [E _].
  exact E.
Defined.

(** ** What the steps never change *)

(** X3.  The three step functions of [simulate/mccc/mccc.c] change
    neither the mass, the charge nor the running flag of any lane, and
    [mccc_step_fo_fixed] changes neither its position [(r, phi, z)] nor
    its [rho]: a collision step stops no marker, and the full-orbit step
    moves none. *)
Theorem steps_keep_identity `{Collaborators}
  (Bdata : B_field_data) (pdata : plasma_1d_data) (j : nat) :
  (forall (h rnd : array real) (st : fo_state),
     let m := fs_p st j in
     let m' := fs_p (mccc_step_fo_fixed pdata h rnd st) j in
     fo_r m' = fo_r m /\ fo_phi m' = fo_phi m /\ fo_z m' = fo_z m /\
     fo_rho m' = fo_rho m /\ fo_mass m' = fo_mass m /\
     fo_charge m' = fo_charge m /\ fo_running m' = fo_running m) /\
  (forall (h rnd : array real) (st : gc_fixed_state),
     let m := gf_p st j in
     let m' := gf_p (mccc_step_gc_fixed Bdata pdata h rnd st) j in
     gc_mass m' = gc_mass m /\ gc_charge m' = gc_charge m /\
     gc_running m' = gc_running m) /\
  (forall (hin : array real) (tol : real) (rand5 : array real)
          (st : gc_adaptive_state),
     let m := ga_p st j in
     let m' := ga_p (mccc_step_gc_adaptive Bdata pdata hin tol rand5 st) j in
     gc_mass m' = gc_mass m /\ gc_charge m' = gc_charge m /\
     gc_running m' = gc_running m).
Proof.
  split; [| split].
  - intros h rnd st m m'.
    assert (E : m' = fst (fo_lane (mccc_step_fo_fixed pdata h rnd st) j))
      by reflexivity.
    rewrite fo_fixed_lanes in E.
    destruct (Nat.ltb j NSIMD); [| now rewrite E].
    unfold fo_fixed_on_lane, mccc_step_fo_fixed_lane, fo_lane in E.
    cbn [fs_p fs_err fst snd] in E. fold m in E.
    destruct (fo_running m) eqn:Hrun; cbn [fs_p fst] in E.
    + rewrite upd_same in E. rewrite E. cbn.
      repeat split; try reflexivity; exact Hrun.
    + rewrite E. repeat split; try reflexivity; exact Hrun.
  - intros h rnd st m m'.
    assert (E : m' =
                fst (gc_fixed_lane (mccc_step_gc_fixed Bdata pdata h rnd st) j))
      by reflexivity.
    rewrite gc_fixed_lanes in E.
    destruct (Nat.ltb j NSIMD); [| now rewrite E].
    unfold gc_fixed_on_lane, mccc_step_gc_fixed_lane, gc_fixed_lane in E.
    cbn [gf_p gf_err fst snd] in E. fold m in E.
    destruct (gc_running m) eqn:Hrun; cbn [gf_p fst] in E.
    + rewrite upd_same in E. rewrite E.
      unfold gc_fixed_commit, gc_store. cbn.
      repeat split; try reflexivity; exact Hrun.
    + rewrite E. repeat split; try reflexivity; exact Hrun.
  - intros hin tol rand5 st m m'.
    assert (E : m' =
                fst (fst (fst (gc_adaptive_lane
                  (mccc_step_gc_adaptive Bdata pdata hin tol rand5 st) j))))
      by reflexivity.
    rewrite gc_adaptive_lanes in E.
    destruct (Nat.ltb j NSIMD); [| now rewrite E].
    unfold gc_adaptive_on_lane, mccc_step_gc_adaptive_lane,
      gc_adaptive_lane in E.
    cbn [ga_p ga_hout ga_w ga_err fst snd] in E. fold m in E.
    destruct (gc_running m) eqn:Hrun; cbn [ga_p fst] in E.
    + rewrite upd_same in E. rewrite E.
      unfold gc_adaptive_commit, gc_store. cbn.
      repeat split; try reflexivity; exact Hrun.
    + rewrite E. repeat split; try reflexivity; exact Hrun.
Qed.

(** ** The velocity of a full-orbit lane *)

Section FoSpeed.
Context `{Collaborators}.

(** A running lane of [mccc_step_fo_fixed], in terms of the push. *)
Lemma fo_running_lane (pdata : plasma_1d_data) (h rnd : array real)
  (st : fo_state) (i : nat) :
  (i < NSIMD)%nat -> fo_running (fs_p st i) = true ->
  let m := fs_p st i in
  let pe := fo_fixed_push pdata h rnd i m (fs_err st i) in
  fo_lane (mccc_step_fo_fixed pdata h rnd st) i =
  (fo_fixed_commit m
     (fo_fixed_vout (fo_speed m) (fo_cartesian m) (fst pe)),
   snd pe).
Proof.
  intros Hi Hrun m pe. rewrite fo_fixed_lanes.
  apply Nat.ltb_lt in Hi. rewrite Hi.
  unfold fo_fixed_on_lane, mccc_step_fo_fixed_lane, fo_lane.
  cbn [fs_p fs_err fst snd]. rewrite Hrun.
  cbn [fs_p fs_err]. rewrite !upd_same.
  subst pe m. unfold fo_fixed_commit. rewrite Hrun. reflexivity.
Qed.

(** Going to Cartesian components keeps the speed. *)
Lemma fo_cartesian_speed (m : fo_marker) :
  norm2 (fo_cartesian m) =
  fo_rdot m * fo_rdot m
  + (fo_r m * fo_phidot m) * (fo_r m * fo_phidot m)
  + fo_zdot m * fo_zdot m.
Proof.
  unfold norm2, fo_cartesian, v0, v1, v2. cbn [fst snd].
  pose proof (sin2_cos2 (fo_phi m)) as Hsc. unfold Rsqr in Hsc.
  set (s := sin (fo_phi m)) in *. set (c := cos (fo_phi m)) in *.
  replace (fo_rdot m * fo_rdot m
           + fo_r m * fo_phidot m * (fo_r m * fo_phidot m)
           + fo_zdot m * fo_zdot m)
    with ((fo_rdot m * fo_rdot m
           + fo_r m * fo_phidot m * (fo_r m * fo_phidot m))
          * (s * s + c * c) + fo_zdot m * fo_zdot m)
    by (rewrite Hsc; ring).
  ring.
Qed.

(** Going back to cylindrical components keeps the speed, away from
    the axis [r = 0]. *)
Lemma fo_commit_speed (m : fo_marker) (vout : vec3) :
  fo_r m <> 0 -> fo_speed (fo_fixed_commit m vout) = sqrt (norm2 vout).
Proof.
  intros Hr. unfold fo_speed, fo_fixed_commit, norm2.
  cbn [fo_rdot fo_r fo_phidot fo_zdot fo_phi]. f_equal.
  pose proof (sin2_cos2 (fo_phi m)) as Hsc. unfold Rsqr in Hsc.
  set (s := sin (fo_phi m)) in *. set (c := cos (fo_phi m)) in *.
  replace (fo_r m * ((- v0 vout * s + v1 vout * c) / fo_r m))
    with (- v0 vout * s + v1 vout * c) by (field; assumption).
  replace (v0 vout * v0 vout + v1 vout * v1 vout + v2 vout * v2 vout)
    with ((v0 vout * v0 vout + v1 vout * v1 vout) * (s * s + c * c)
          + v2 vout * v2 vout)
    by (rewrite Hsc; ring).
  ring.
Qed.

End FoSpeed.

(** X4.  For a running lane of [mccc_step_fo_fixed] away from the axis
    [r = 0], the push is handed a Cartesian velocity of the speed of
    the lane, and the speed of the lane after the call is the norm of
    the velocity left by the push and the two [#if] blocks.  Compiled
    with A5_CCOL_NOENERGY (and without A5_CCOL_NOPITCH), the step keeps
    the speed whenever the push returns a nonzero velocity. *)
Theorem fo_step_speed `{Collaborators}
  (pdata : plasma_1d_data) (h rnd : array real) (st : fo_state)
  (i : nat) :
  (i < NSIMD)%nat -> fo_running (fs_p st i) = true ->
  fo_r (fs_p st i) <> 0 ->
  let m := fs_p st i in
  let pushed := fst (fo_fixed_push pdata h rnd i m (fs_err st i)) in
  let m' := fs_p (mccc_step_fo_fixed pdata h rnd st) i in
  sqrt (norm2 (fo_cartesian m)) = fo_speed m /\
  fo_speed m' =
  sqrt (norm2 (fo_fixed_vout (fo_speed m) (fo_cartesian m) pushed)) /\
  (A5_CCOL_NOENERGY = false -> A5_CCOL_NOPITCH = false ->
   fo_speed m' = sqrt (norm2 pushed)) /\
  (A5_CCOL_NOENERGY = true -> A5_CCOL_NOPITCH = false ->
   norm2 pushed <> 0 -> fo_speed m' = fo_speed m).
Proof.
  intros Hi Hrun Hr m pushed m'.
  assert (Em : m' = fo_fixed_commit m
                      (fo_fixed_vout (fo_speed m) (fo_cartesian m) pushed)).
  { pose proof (fo_running_lane pdata h rnd st i Hi Hrun) as E.
    apply (f_equal fst) in E. exact E. }
  assert (Es : fo_speed m' =
               sqrt (norm2 (fo_fixed_vout (fo_speed m) (fo_cartesian m)
                              pushed))).
  { rewrite Em. now apply fo_commit_speed. }
  split; [| split; [exact Es | split]].
  - rewrite fo_cartesian_speed. reflexivity.
  - intros He Hp. rewrite Es. unfold fo_fixed_vout. now rewrite He, Hp.
  - intros He Hp Hn. rewrite Es. unfold fo_fixed_vout. rewrite He, Hp.
    cbv zeta.
    assert (Hva : 0 <= fo_speed m) by apply sqrt_pos.
    generalize dependent (fo_speed m). intros va _ Hva.
    clearbody pushed. destruct pushed as [[a b] c].
    unfold norm2, v0, v1, v2 in *. cbn [fst snd] in *.
    assert (Hpos : 0 < a * a + b * b + c * c) by nra.
    assert (Hsq : sqrt (a * a + b * b + c * c)
                  * sqrt (a * a + b * b + c * c) = a * a + b * b + c * c)
      by (apply sqrt_sqrt; lra).
    assert (Hs : 0 < sqrt (a * a + b * b + c * c))
      by (apply sqrt_lt_R0; lra).
    set (s := sqrt (a * a + b * b + c * c)) in *.
    transitivity (sqrt (va * va)); [| now apply sqrt_square].
    f_equal.
    replace (a * (va / s) * (a * (va / s)) + b * (va / s) * (b * (va / s))
             + c * (va / s) * (c * (va / s)))
      with ((a * a + b * b + c * c) * (va * va) / (s * s))
      by (field; lra).
    rewrite <- Hsq. field. lra.
Qed.

Lemma fo_step_speed_witness :
  let C := demo_switches true false false in
  let st' :=
    @mccc_step_fo_fixed C tt (fun _ => 1) (fun _ => 0) demo_fo_state in
  (0 < @NSIMD C)%nat /\
  fo_running (fs_p demo_fo_state 0%nat) = true /\
  fo_r (fs_p demo_fo_state 0%nat) <> 0 /\
  @A5_CCOL_NOENERGY C = true /\ @A5_CCOL_NOPITCH C = false /\
  fo_speed (fs_p st' 0%nat) = fo_speed (fs_p demo_fo_state 0%nat).
Proof.
  intros C st'.
  assert (Hi : (0 < @NSIMD C)%nat) by (simpl; lia).
  assert (Hrun : fo_running (fs_p demo_fo_state 0%nat) = true)
    by reflexivity.
  assert (Hr : fo_r (fs_p demo_fo_state 0%nat) <> 0) by (simpl; lra).
  split; [exact Hi | split; [exact Hrun | split; [exact Hr |
    split; [reflexivity | split; [reflexivity |]]]]].
  destruct (@fo_step_speed C tt (fun _ => 1) (fun _ => 0) demo_fo_state
              0%nat Hi Hrun Hr) as (_ & _ & _ & Hkeep).
  apply Hkeep; [reflexivity | reflexivity |].
  unfold fo_fixed_push, norm2, fo_cartesian. simpl.
  unfold v0, v1, v2. simpl. rewrite cos_0, sin_0. lra.
Defined.



(** ** Speed and pitch of a guiding centre across a step *)

Lemma sqrt_of_square (x : real) : sqrt (x * x) = Rabs x.
Proof. exact (sqrt_Rsqr_abs x). Qed.

Lemma demo_field_norm : sqrt (0 * 0 + 0 * 0 + 1 * 1) = 1.
Proof.
  replace (0 * 0 + 0 * 0 + 1 * 1) with 1 by lra. apply sqrt_1.
Qed.

(** X6.  After [mccc_step_gc_fixed] a running lane holds [vpar] and
    [mu] that give back the speed and the pitch the push returned:
    [vpar = vout*xiout], and the speed that the next call computes from
    [vpar], [mu], the mass and the norm of the cached field is [|vout|].
    The two norm functions of [math.h] are taken to agree, the mass and
    the norm of the new field to be nonzero.  Compiled with
    A5_CCOL_NOENERGY, the step keeps the speed. *)
Theorem gc_fixed_speed_round_trip `{Collaborators}
  (Bdata : B_field_data) (pdata : plasma_1d_data) (h rnd : array real)
  (st : gc_fixed_state) (i : nat) :
  (i < NSIMD)%nat -> gc_running (gf_p st i) = true ->
  (forall a b c : real, math_norm (a, b, c) = math_normc a b c) ->
  let m := gf_p st i in
  let pe := gc_fixed_push pdata h rnd i m (gf_err st i) in
  let m' := gf_p (mccc_step_gc_fixed Bdata pdata h rnd st) i in
  let speed (k : gc_marker) :=
    gc_speed_step (gc_vpar k) (gc_mu k) (gc_mass k)
      (math_norm (gc_B_r k, gc_B_phi k, gc_B_z k)) in
  gc_mass m <> 0 ->
  math_norm (gc_B_r m', gc_B_phi m', gc_B_z m') <> 0 ->
  gc_vpar m' = em_vout pe * em_xiout pe /\
  speed m' = Rabs (em_vout pe) /\
  (A5_CCOL_NOENERGY = true -> speed m' = speed m).
Proof.
  intros Hi Hrun Hnorm m pe m' speed Hmass HB.
  assert (Em : m' = gc_fixed_commit Bdata m (em_vout pe) (em_xiout pe)
                      (em_Xout pe)).
  { pose proof (fixed_running_lane Bdata pdata h rnd st i Hi Hrun) as E.
    apply (f_equal fst) in E. exact E. }
  assert (Es : speed m' = Rabs (em_vout pe)).
  { unfold speed. revert HB. rewrite Em.
    unfold gc_fixed_commit, gc_store.
    cbn [gc_vpar gc_mu gc_mass gc_B_r gc_B_phi gc_B_z].
    rewrite Hnorm.
    set (Bn := math_normc _ _ _). intros HB.
    unfold gc_speed_step. cbv zeta.
    rewrite <- sqrt_of_square. f_equal. field. split; assumption. }
  split; [| split; [exact Es |]].
  - rewrite Em. reflexivity.
  - intros He. rewrite Es. unfold pe, gc_fixed_push. cbv zeta.
    cbn [em_vout]. rewrite He. unfold speed.
    apply Rabs_pos_eq. unfold gc_speed_step. apply sqrt_pos.
Qed.

Lemma gc_fixed_speed_round_trip_witness :
  let C := demo 1 1 1 (fun _ => 0) in
  let st := demo_gc_fixed_state in
  let st' := @mccc_step_gc_fixed C tt tt (fun _ => 1) (fun _ => 0) st in
  let m' := gf_p st' 0%nat in
  (0 < @NSIMD C)%nat /\
  gc_running (gf_p st 0%nat) = true /\
  (forall a b c : real, @math_norm C (a, b, c) = @math_normc C a b c) /\
  gc_mass (gf_p st 0%nat) <> 0 /\
  @math_norm C (gc_B_r m', gc_B_phi m', gc_B_z m') <> 0 /\
  gc_speed_step (gc_vpar m') (gc_mu m') (gc_mass m')
    (@math_norm C (gc_B_r m', gc_B_phi m', gc_B_z m')) = 2.
Proof.
  intros C st st' m'.
  assert (Hi : (0 < @NSIMD C)%nat) by (simpl; lia).
  assert (Hrun : gc_running (gf_p st 0%nat) = true) by reflexivity.
  assert (Hnorm : forall a b c : real,
            @math_norm C (a, b, c) = @math_normc C a b c)
    by (intros; reflexivity).
  assert (Hmass : gc_mass (gf_p st 0%nat) <> 0) by (simpl; lra).
  assert (HB : @math_norm C (gc_B_r m', gc_B_phi m', gc_B_z m') <> 0).
  { unfold m', st'.
    pose proof (@fixed_running_lane C tt tt (fun _ => 1) (fun _ => 0) st
                  0%nat Hi Hrun) as E.
    apply (f_equal fst) in E. cbn [fst gc_fixed_lane] in E. rewrite E.
    unfold gc_fixed_commit, gc_store. cbn. unfold v0, v1, v2. cbn.
    rewrite demo_field_norm. lra. }
  split; [exact Hi | split; [exact Hrun | split; [exact Hnorm |
    split; [exact Hmass | split; [exact HB |]]]]].
  destruct (@gc_fixed_speed_round_trip C tt tt (fun _ => 1) (fun _ => 0)
              st 0%nat Hi Hrun Hnorm Hmass HB) as (_ & Es & _).
  fold st' m' in Es. rewrite Es.
  unfold gc_fixed_push. cbn. unfold v0, v1, v2. cbn.
  rewrite demo_speed. rewrite Rabs_pos_eq; lra.
Defined.

(** X7.  [mccc_step_gc_adaptive] computes [mu] with the norm of the
    field before the step and then caches the field at the new
    position.  With the norm [Bold] before the step the stored [vpar]
    and [mu] give the speed [|vout|] back; the speed that the next call
    computes, with the norm [Bnew] of the cached field, is
    [sqrt(vout^2 * (xiout^2 + (1 - xiout^2) * Bnew/Bold))], which is
    [|vout|] when the two norms agree. *)
Theorem gc_adaptive_speed_after_step `{Collaborators}
  (Bdata : B_field_data) (pdata : plasma_1d_data) (hin : array real)
  (tol : real) (rand5 : array real) (st : gc_adaptive_state) (i : nat) :
  (i < NSIMD)%nat -> gc_running (ga_p st i) = true ->
  let m := ga_p st i in
  let a :=
    gc_adaptive_wiener_push pdata hin tol rand5 i m (ga_w st i)
      (ga_err st i) in
  let vout := mi_vout (ap_out a) in
  let xiout := mi_xiout (ap_out a) in
  let Bold := ap_Bnorm a in
  let m' := ga_p (mccc_step_gc_adaptive Bdata pdata hin tol rand5 st) i in
  let Bnew := math_norm (gc_B_r m', gc_B_phi m', gc_B_z m') in
  gc_mass m <> 0 -> Bold <> 0 ->
  Bold = math_norm (gc_B_r m, gc_B_phi m, gc_B_z m) /\
  gc_speed_step (gc_vpar m') (gc_mu m') (gc_mass m') Bold = Rabs vout /\
  gc_speed_step (gc_vpar m') (gc_mu m') (gc_mass m') Bnew =
  sqrt (vout * vout
        * (xiout * xiout + (1 - xiout * xiout) * (Bnew / Bold))) /\
  (Bnew = Bold ->
   gc_speed_step (gc_vpar m') (gc_mu m') (gc_mass m') Bnew = Rabs vout).
Proof.
  intros Hi Hrun m a vout xiout Bold m' Bnew Hmass HB.
  assert (Em : m' = gc_adaptive_commit Bdata m Bold vout xiout
                      (mi_Xout (ap_out a))).
  { unfold m'. now rewrite adaptive_marker by assumption. }
  assert (Eold : gc_speed_step (gc_vpar m') (gc_mu m') (gc_mass m') Bold
                 = Rabs vout).
  { rewrite Em. unfold gc_adaptive_commit, gc_store.
    cbn [gc_vpar gc_mu gc_mass].
    unfold gc_speed_step. cbv zeta.
    rewrite <- sqrt_of_square. f_equal. field. split; assumption. }
  split; [reflexivity | split; [exact Eold | split]].
  - generalize Bnew. intros Bn. rewrite Em.
    unfold gc_adaptive_commit, gc_store.
    cbn [gc_vpar gc_mu gc_mass].
    unfold gc_speed_step. cbv zeta. f_equal. field. split; assumption.
  - intros E. rewrite E. exact Eold.
Qed.

Lemma gc_adaptive_speed_after_step_witness :
  let C := demo 1 1 1 (fun _ => 0) in
  let st := demo_gc_adaptive_state C tt in
  let m := ga_p st 0%nat in
  let a :=
    @gc_adaptive_wiener_push C tt (fun _ => 1) 1 (fun _ => 0) 0%nat m
      (ga_w st 0%nat) (ga_err st 0%nat) in
  let m' :=
    ga_p (@mccc_step_gc_adaptive C tt tt (fun _ => 1) 1 (fun _ => 0) st)
      0%nat in
  (0 < @NSIMD C)%nat /\
  gc_running m = true /\
  gc_mass m <> 0 /\
  ap_Bnorm a <> 0 /\
  gc_speed_step (gc_vpar m') (gc_mu m') (gc_mass m') (ap_Bnorm a) = 2.
Proof.
  intros C st m a m'.
  assert (Hi : (0 < @NSIMD C)%nat) by (simpl; lia).
  assert (Hrun : gc_running m = true) by reflexivity.
  assert (Hmass : gc_mass m <> 0) by (simpl; lra).
  assert (HB : ap_Bnorm a <> 0).
  { unfold a, gc_adaptive_wiener_push. cbn. unfold v0, v1, v2. cbn.
    rewrite demo_field_norm. lra. }
  split; [exact Hi | split; [exact Hrun | split; [exact Hmass |
    split; [exact HB |]]]].
  destruct (@gc_adaptive_speed_after_step C tt tt (fun _ => 1) 1
              (fun _ => 0) st 0%nat Hi Hrun Hmass HB) as (_ & Es & _).
  refine (eq_trans Es _).
  unfold gc_adaptive_wiener_push. cbn. unfold v0, v1, v2. cbn.
  rewrite demo_speed. rewrite Rabs_pos_eq; lra.
Defined.

(** ** The toroidal angle stays cumulative *)

Lemma c_fmod_spec (x y : real) :
  0 < y ->
  exists k : Z,
    c_fmod x y = x - IZR k * y /\
    (0 <= x -> 0 <= c_fmod x y < y) /\
    (x <= 0 -> - y < c_fmod x y <= 0).
Proof.
  intros Hy. exists (c_trunc (x / y)). split; [reflexivity |].
  assert (Hxy : x = (x / y) * y) by (field; lra).
  unfold c_fmod, c_trunc.
  set (r := x / y) in *.
  destruct (Rle_dec 0 r) as [Hq | Hq].
  - destruct (base_Int_part r) as [Hlo Hhi].
    set (q := IZR (Int_part r)) in *.
    assert (E : x - q * y = (r - q) * y) by (rewrite Hxy at 1; ring).
    rewrite E.
    assert (H0 : 0 <= (r - q) * y) by (apply Rmult_le_pos; lra).
    assert (H1 : (r - q) * y < 1 * y)
      by (apply Rmult_lt_compat_r; lra).
    split; intros Hx.
    + lra.
    + assert (Hry : 0 <= r * y) by (apply Rmult_le_pos; lra).
      assert (Hx0 : x = 0) by lra.
      assert (Hr0 : r = 0).
      { destruct (Rmult_integral r y) as [Hr | Hr]; [lra | exact Hr | lra]. }
      assert (Hq0 : q = 0).
      { assert (Hz : Int_part r = 0%Z).
        { assert (Ha : (Int_part r <= 0)%Z) by (apply le_IZR; fold q; lra).
          assert (Hb : (-1 < Int_part r)%Z) by (apply lt_IZR; fold q; lra).
          lia. }
        unfold q. rewrite Hz. reflexivity. }
      rewrite Hr0, Hq0. lra.
  - destruct (base_Int_part (- r)) as [Hlo Hhi].
    rewrite opp_IZR.
    set (q := IZR (Int_part (- r))) in *.
    assert (Hneg : r < 0) by lra.
    assert (E : x - - q * y = - ((- r - q) * y)) by (rewrite Hxy at 1; ring).
    rewrite E.
    assert (H0 : 0 <= (- r - q) * y) by (apply Rmult_le_pos; lra).
    assert (H1 : (- r - q) * y < 1 * y)
      by (apply Rmult_lt_compat_r; lra).
    split; intros Hx.
    + assert (Hry : r * y < 0 * y) by (apply Rmult_lt_compat_r; lra).
      lra.
    + lra.
Qed.

Section CumulativePhi.
Context `{Collaborators}.

(** The angle stored by both guiding-centre steps, under the contract
    of [fmod] and [atan2]. *)
Lemma gc_new_phi_cumulative (phi0 : real) (Xout : vec3) :
  0 < CONST_2PI ->
  (forall x : real,
     exists k : Z,
       fmod x CONST_2PI = x - IZR k * CONST_2PI /\
       (0 <= x -> 0 <= fmod x CONST_2PI < CONST_2PI) /\
       (x <= 0 -> - CONST_2PI < fmod x CONST_2PI <= 0)) ->
  (forall y x : real,
     - (CONST_2PI / 2) <= atan2 y x <= CONST_2PI / 2) ->
  (exists k : Z,
     gc_new_phi phi0 Xout =
     atan2 (v1 Xout) (v0 Xout) + IZR k * CONST_2PI) /\
  Rabs (gc_new_phi phi0 Xout - phi0) < CONST_2PI.
Proof.
  intros Hpi Hfmod Hatan. unfold gc_new_phi. cbv zeta.
  destruct (Hfmod phi0) as (k0 & E0 & Hp0 & Hn0).
  pose proof (Hatan (v1 Xout) (v0 Xout)) as Ha.
  set (A := atan2 (v1 Xout) (v0 Xout)) in *.
  destruct (Hfmod (A + CONST_2PI)) as (kA & EA & HpA & _).
  assert (HA : 0 <= fmod (A + CONST_2PI) CONST_2PI < CONST_2PI)
    by (apply HpA; lra).
  set (f0 := fmod phi0 CONST_2PI) in *.
  set (fA := fmod (A + CONST_2PI) CONST_2PI) in *.
  assert (Hf0 : - CONST_2PI < f0 < CONST_2PI).
  { destruct (Rle_dec 0 phi0); [specialize (Hp0 r) | ]; [lra |].
    assert (Hle : phi0 <= 0) by lra. specialize (Hn0 Hle). lra. }
  unfold Rltb. destruct (Rlt_dec f0 0) as [Hlt | Hge].
  - split.
    + exists (1 - kA + (k0 - 1))%Z.
      rewrite plus_IZR, !minus_IZR. simpl (IZR 1). lra.
    + apply Rabs_def1; lra.
  - split.
    + exists (1 - kA + k0)%Z.
      rewrite plus_IZR, minus_IZR. simpl (IZR 1). lra.
    + apply Rabs_def1; lra.
Qed.

End CumulativePhi.

Section MarkerAfterStep.
Context `{Collaborators}.

Lemma gc_fixed_marker_after (Bdata : B_field_data)
  (pdata : plasma_1d_data) (h rnd : array real) (st : gc_fixed_state)
  (i : nat) :
  let m := gf_p st i in
  let pe := gc_fixed_push pdata h rnd i m (gf_err st i) in
  gf_p (mccc_step_gc_fixed Bdata pdata h rnd st) i =
  if (Nat.ltb i NSIMD && gc_running m)%bool
  then gc_fixed_commit Bdata m (em_vout pe) (em_xiout pe) (em_Xout pe)
  else m.
Proof.
  intros m pe.
  pose proof (gc_fixed_lanes Bdata pdata h rnd st i) as E.
  apply (f_equal fst) in E. cbn [fst gc_fixed_lane] in E. rewrite E.
  destruct (Nat.ltb i NSIMD); [| reflexivity].
  unfold gc_fixed_on_lane, mccc_step_gc_fixed_lane, gc_fixed_lane.
  cbn [gf_p gf_err fst snd andb]. fold m.
  destruct (gc_running m); cbn [gf_p fst]; [| reflexivity].
  rewrite upd_same. reflexivity.
Qed.

Lemma gc_adaptive_marker_after (Bdata : B_field_data)
  (pdata : plasma_1d_data) (hin : array real) (tol : real)
  (rand5 : array real) (st : gc_adaptive_state) (i : nat) :
  let m := ga_p st i in
  let a :=
    gc_adaptive_wiener_push pdata hin tol rand5 i m (ga_w st i)
      (ga_err st i) in
  let o := ap_out a in
  ga_p (mccc_step_gc_adaptive Bdata pdata hin tol rand5 st) i =
  if (Nat.ltb i NSIMD && gc_running m)%bool
  then gc_adaptive_commit Bdata m (ap_Bnorm a) (mi_vout o) (mi_xiout o)
         (mi_Xout o)
  else m.
Proof.
  intros m a o.
  pose proof (gc_adaptive_lanes Bdata pdata hin tol rand5 st i) as E.
  apply (f_equal (fun l => fst (fst (fst l)))) in E.
  cbn [fst gc_adaptive_lane] in E. rewrite E.
  destruct (Nat.ltb i NSIMD); [| reflexivity].
  unfold gc_adaptive_on_lane, mccc_step_gc_adaptive_lane, gc_adaptive_lane.
  cbn [ga_p ga_hout ga_w ga_err fst snd andb]. fold m.
  destruct (gc_running m); cbn [ga_p fst]; [| reflexivity].
  rewrite upd_same. reflexivity.
Qed.

End MarkerAfterStep.

(** X8.  The toroidal angle of a guiding centre is cumulative.  Given
    that [2 pi] is positive, that [fmod(x, 2 pi)] is [x] less a whole
    number of turns, with the sign of [x] and less than a turn in size,
    and that [atan2] lies within half a turn of zero: one call of
    [mccc_step_gc_fixed] or of [mccc_step_gc_adaptive] moves the angle
    of any lane by less than one full turn, and the angle a running lane
    holds afterwards differs from [atan2(Xout[1], Xout[0])] of the
    pushed position by a whole number of turns. *)
Theorem gc_steps_keep_phi_cumulative `{Collaborators}
  (Bdata : B_field_data) (pdata : plasma_1d_data)
  (h rnd hin : array real) (tol : real) (rand5 : array real)
  (sf : gc_fixed_state) (sa : gc_adaptive_state) (i : nat) :
  0 < CONST_2PI ->
  (forall x : real,
     exists k : Z,
       fmod x CONST_2PI = x - IZR k * CONST_2PI /\
       (0 <= x -> 0 <= fmod x CONST_2PI < CONST_2PI) /\
       (x <= 0 -> - CONST_2PI < fmod x CONST_2PI <= 0)) ->
  (forall y x : real,
     - (CONST_2PI / 2) <= atan2 y x <= CONST_2PI / 2) ->
  let mf := gf_p sf i in
  let mf' := gf_p (mccc_step_gc_fixed Bdata pdata h rnd sf) i in
  let Xf := em_Xout (gc_fixed_push pdata h rnd i mf (gf_err sf i)) in
  let ma := ga_p sa i in
  let ma' := ga_p (mccc_step_gc_adaptive Bdata pdata hin tol rand5 sa) i in
  let Xa :=
    mi_Xout
      (ap_out
         (gc_adaptive_wiener_push pdata hin tol rand5 i ma (ga_w sa i)
            (ga_err sa i))) in
  Rabs (gc_phi mf' - gc_phi mf) < CONST_2PI /\
  Rabs (gc_phi ma' - gc_phi ma) < CONST_2PI /\
  ((i < NSIMD)%nat -> gc_running mf = true ->
   exists k : Z,
     gc_phi mf' = atan2 (v1 Xf) (v0 Xf) + IZR k * CONST_2PI) /\
  ((i < NSIMD)%nat -> gc_running ma = true ->
   exists k : Z,
     gc_phi ma' = atan2 (v1 Xa) (v0 Xa) + IZR k * CONST_2PI).
Proof.
  intros Hpi Hfmod Hatan mf mf' Xf ma ma' Xa.
  assert (Ef := gc_fixed_marker_after Bdata pdata h rnd sf i).
  assert (Ea := gc_adaptive_marker_after Bdata pdata hin tol rand5 sa i).
  cbv zeta in Ef, Ea. fold mf mf' in Ef. fold ma ma' in Ea.
  assert (Hstill : Rabs 0 < CONST_2PI) by (rewrite Rabs_R0; exact Hpi).
  split; [| split; [| split]].
  - rewrite Ef.
    destruct (Nat.ltb i NSIMD && gc_running mf)%bool.
    + unfold gc_fixed_commit, gc_store. cbn [gc_phi].
      apply gc_new_phi_cumulative; assumption.
    + replace (gc_phi mf - gc_phi mf) with 0 by ring. exact Hstill.
  - rewrite Ea.
    destruct (Nat.ltb i NSIMD && gc_running ma)%bool.
    + unfold gc_adaptive_commit, gc_store. cbn [gc_phi].
      apply gc_new_phi_cumulative; assumption.
    + replace (gc_phi ma - gc_phi ma) with 0 by ring. exact Hstill.
  - intros Hi Hrun. rewrite Ef.
    apply Nat.ltb_lt in Hi. rewrite Hi, Hrun. cbn [andb].
    unfold gc_fixed_commit, gc_store. cbn [gc_phi].
    apply gc_new_phi_cumulative; assumption.
  - intros Hi Hrun. rewrite Ea.
    apply Nat.ltb_lt in Hi. rewrite Hi, Hrun. cbn [andb].
    unfold gc_adaptive_commit, gc_store. cbn [gc_phi].
    apply gc_new_phi_cumulative; assumption.
Qed.

Lemma gc_steps_keep_phi_cumulative_witness :
  let C := demo_angles in
  let sf := demo_gc_fixed_state in
  let sa := demo_gc_adaptive_state C tt in
  0 < @CONST_2PI C /\
  (forall x : real,
     exists k : Z,
       @fmod C x (@CONST_2PI C) = x - IZR k * @CONST_2PI C /\
       (0 <= x -> 0 <= @fmod C x (@CONST_2PI C) < @CONST_2PI C) /\
       (x <= 0 -> - @CONST_2PI C < @fmod C x (@CONST_2PI C) <= 0)) /\
  (forall y x : real,
     - (@CONST_2PI C / 2) <= @atan2 C y x <= @CONST_2PI C / 2) /\
  Rabs
    (gc_phi
       (gf_p (@mccc_step_gc_fixed C tt tt (fun _ => 1) (fun _ => 0) sf)
          0%nat) - gc_phi (gf_p sf 0%nat)) < 2 * PI /\
  Rabs
    (gc_phi
       (ga_p
          (@mccc_step_gc_adaptive C tt tt (fun _ => 1) 1 (fun _ => 0) sa)
          0%nat) - gc_phi (ga_p sa 0%nat)) < 2 * PI.
Proof.
  intros C sf sa.
  assert (Hpi : 0 < @CONST_2PI C) by (simpl; pose proof PI_RGT_0; lra).
  assert (Hfmod : forall x : real,
            exists k : Z,
              @fmod C x (@CONST_2PI C) = x - IZR k * @CONST_2PI C /\
              (0 <= x -> 0 <= @fmod C x (@CONST_2PI C) < @CONST_2PI C) /\
              (x <= 0 -> - @CONST_2PI C < @fmod C x (@CONST_2PI C) <= 0))
    by (intros x; apply c_fmod_spec; exact Hpi).
  assert (Hatan : forall y x : real,
            - (@CONST_2PI C / 2) <= @atan2 C y x <= @CONST_2PI C / 2).
  { intros y x. simpl. pose proof (atan_bound (y / x)) as Hb.
    pose proof PI_RGT_0. lra. }
  split; [exact Hpi | split; [exact Hfmod | split; [exact Hatan |]]].
  destruct (@gc_steps_keep_phi_cumulative C tt tt (fun _ => 1) (fun _ => 0)
              (fun _ => 1) 1 (fun _ => 0) sf sa 0%nat Hpi Hfmod Hatan)
    as (Hf & Ha & _).
  split; [exact Hf | exact Ha].
Defined.

(** ** The older file: its adaptive step size *)

Section LegacyLanes.
Context `{Collaborators}.

(** The loop of the older [mccc_step_gc_adaptive] acts lane by lane. *)
Lemma legacy_gc_adaptive_lanes (Bdata : B_field_data)
  (pdata : plasma_1d_data) (hin : array real) (tol : real)
  (st : gc_adaptive_state) (j : nat) :
  gc_adaptive_lane (Legacy.mccc_step_gc_adaptive Bdata pdata hin tol st) j =
  if Nat.ltb j NSIMD
  then gc_adaptive_lane
         (Legacy.mccc_step_gc_adaptive_lane Bdata pdata hin tol j
            {| ga_p := fun _ => ga_p st j;
               ga_hout := fun _ => ga_hout st j;
               ga_w := fun _ => ga_w st j;
               ga_err := fun _ => ga_err st j |}) j
  else gc_adaptive_lane st j.
Proof.
  unfold Legacy.mccc_step_gc_adaptive.
  set (f := fun (i : nat) (l : gc_marker * real * mccc_wienarr * Z) =>
              gc_adaptive_lane
                (Legacy.mccc_step_gc_adaptive_lane Bdata pdata hin tol i
                   {| ga_p := fun _ => fst (fst (fst l));
                      ga_hout := fun _ => snd (fst (fst l));
                      ga_w := fun _ => snd (fst l);
                      ga_err := fun _ => snd l |}) i).
  assert (Hsame : forall i s,
            gc_adaptive_lane
              (Legacy.mccc_step_gc_adaptive_lane Bdata pdata hin tol i s) i =
            f i (gc_adaptive_lane s i)).
  { intros i s.
    unfold f, Legacy.mccc_step_gc_adaptive_lane, gc_adaptive_lane.
    simpl. destruct (gc_running (ga_p s i)); simpl;
      [now rewrite !upd_same | reflexivity]. }
  assert (Hother : forall i k s, k <> i ->
            gc_adaptive_lane
              (Legacy.mccc_step_gc_adaptive_lane Bdata pdata hin tol i s) k =
            gc_adaptive_lane s k).
  { intros i k s Hk.
    unfold Legacy.mccc_step_gc_adaptive_lane, gc_adaptive_lane.
    destruct (gc_running (ga_p s i)); simpl;
      [now rewrite !upd_other by assumption | reflexivity]. }
  destruct (Nat.ltb_spec j NSIMD) as [Hj | Hj].
  - rewrite (for_loop_lane_in gc_adaptive_lane _ f Hsame Hother) by exact Hj.
    reflexivity.
  - now apply for_loop_lane_out.
Qed.

(** The loop of the older [mccc_step_gc_fixed] acts lane by lane. *)
Lemma legacy_gc_fixed_lanes (Bdata : B_field_data)
  (pdata : plasma_1d_data) (h u : array real) (st : gc_fixed_state)
  (j : nat) :
  gc_fixed_lane (Legacy.mccc_step_gc_fixed Bdata pdata h u st) j =
  if Nat.ltb j NSIMD
  then gc_fixed_lane
         (Legacy.mccc_step_gc_fixed_lane Bdata pdata h u j
            {| gf_p := fun _ => gf_p st j;
               gf_err := fun _ => gf_err st j |}) j
  else gc_fixed_lane st j.
Proof.
  unfold Legacy.mccc_step_gc_fixed.
  set (f := fun (i : nat) (l : gc_marker * Z) =>
              gc_fixed_lane
                (Legacy.mccc_step_gc_fixed_lane Bdata pdata h u i
                   {| gf_p := fun _ => fst l;
                      gf_err := fun _ => snd l |}) i).
  assert (Hsame : forall i s,
            gc_fixed_lane
              (Legacy.mccc_step_gc_fixed_lane Bdata pdata h u i s) i =
            f i (gc_fixed_lane s i)).
  { intros i s.
    unfold f, Legacy.mccc_step_gc_fixed_lane, gc_fixed_lane.
    simpl. destruct (gc_running (gf_p s i)); simpl;
      [now rewrite !upd_same | reflexivity]. }
  assert (Hother : forall i k s, k <> i ->
            gc_fixed_lane
              (Legacy.mccc_step_gc_fixed_lane Bdata pdata h u i s) k =
            gc_fixed_lane s k).
  { intros i k s Hk.
    unfold Legacy.mccc_step_gc_fixed_lane, gc_fixed_lane.
    destruct (gc_running (gf_p s i)); simpl;
      [now rewrite !upd_other by assumption | reflexivity]. }
  destruct (Nat.ltb_spec j NSIMD) as [Hj | Hj].
  - rewrite (for_loop_lane_in gc_fixed_lane _ f Hsame Hother) by exact Hj.
    reflexivity.
  - now apply for_loop_lane_out.
Qed.

(** The step size that a running lane of the older
    [mccc_step_gc_adaptive] returns. *)
Lemma legacy_adaptive_hout (Bdata : B_field_data)
  (pdata : plasma_1d_data) (hin : array real) (tol : real)
  (st : gc_adaptive_state) (i : nat) :
  (i < NSIMD)%nat -> gc_running (ga_p st i) = true ->
  let a :=
    Legacy.gc_adaptive_wiener_push Bdata pdata hin tol i (ga_p st i)
      (ga_w st i) (ga_err st i) in
  let o := ap_out a in
  ga_hout (Legacy.mccc_step_gc_adaptive Bdata pdata hin tol st) i =
  fst (fst (Legacy.legacy_decision (hin i) (wn_time (ga_w st i) 0%Z)
              (ap_dW a) (ap_tindex a) (mi_kappa_k o) (mi_kappa_d0 o)
              (mi_kappa_d1 o) (ap_w a) (mi_err o))).
Proof.
  intros Hi Hrun a o.
  pose proof (legacy_gc_adaptive_lanes Bdata pdata hin tol st i) as E.
  apply Nat.ltb_lt in Hi. rewrite Hi in E.
  apply (f_equal (fun l => snd (fst (fst l)))) in E.
  cbn [fst snd gc_adaptive_lane] in E. rewrite E.
  unfold Legacy.mccc_step_gc_adaptive_lane.
  cbn [ga_p ga_hout ga_w ga_err]. rewrite Hrun.
  cbn [ga_hout]. rewrite upd_same. reflexivity.
Qed.

(** The counter of the first loop stays between 1 and 4. *)
Lemma probe_pass_counter (t dti : real) (tindex : Z)
  (dWopt0 dWopt1 : real) (s : Legacy.probe_state) :
  (1 <= Legacy.pr_ki s <= 4)%Z ->
  (1 <= Legacy.pr_ki
          (Legacy.probe_pass t dti tindex dWopt0 dWopt1 s) <= 4)%Z.
Proof.
  intros Hk. unfold Legacy.probe_pass.
  destruct (Legacy.pr_break s); [exact Hk |].
  destruct (Z.ltb_spec (Legacy.pr_ki s) 4) as [Hlt | Hge]; [| exact Hk].
  destruct (Rgtb _ _ || Rgtb _ _)%bool; cbn [Legacy.pr_ki]; lia.
Qed.

Lemma probe_loop_counter (t dti : real) (tindex : Z)
  (dWopt0 dWopt1 : real) (n : nat) (s : Legacy.probe_state) :
  (1 <= Legacy.pr_ki s <= 4)%Z ->
  (1 <= Legacy.pr_ki
          (for_loop n
             (fun _ => Legacy.probe_pass t dti tindex dWopt0 dWopt1) s)
   <= 4)%Z.
Proof.
  intros Hk. induction n as [| n IH]; simpl; [exact Hk |].
  apply probe_pass_counter. exact IH.
Qed.

(** The size of the proposal of the older file, before its sign is
    set. *)
Lemma legacy_decision_size (hin t : real) (dW : array real)
  (tindex0 : Z) (kappa_k kappa_d0 kappa_d1 : real) (w : mccc_wienarr)
  (err : Z) :
  0 < hin -> 0 < kappa_k ->
  exists s : real,
    fst (fst (Legacy.legacy_decision hin t dW tindex0 kappa_k kappa_d0
                kappa_d1 w err)) =
    (if step_rejected kappa_k kappa_d0 kappa_d1 then - s else s) /\
    0 < s <= (15 / 10) * hin /\
    (kappa_k <= kappa_d0 -> kappa_k <= kappa_d1 -> s = hin).
Proof.
  intros Hh Hk. unfold Legacy.legacy_decision. cbv zeta.
  destruct (Rgtb kappa_k kappa_d0 || Rgtb kappa_k kappa_d1)%bool eqn:Hb.
  - set (dti0 := 8 / 10 * hin / sqrt kappa_k).
    set (dti := if Rltb (15 / 10 * hin) dti0 then 15 / 10 * hin else dti0).
    assert (Hs : 0 < sqrt kappa_k) by now apply sqrt_lt_R0.
    assert (Hd0 : 0 < dti0).
    { unfold dti0. apply Rdiv_lt_0_compat; lra. }
    assert (Hd : 0 < dti <= 15 / 10 * hin).
    { unfold dti, Rltb. destruct (Rlt_dec (15 / 10 * hin) dti0); lra. }
    match goal with
    | |- context [for_loop 3 ?b ?s0] =>
        pose proof (probe_loop_counter t dti
                      (if step_rejected kappa_k kappa_d0 kappa_d1
                       then 0%Z else tindex0)
                      (9 / 10 * fabs (dW 3%nat) * pow kappa_d0 (- 1 / 3))
                      (9 / 10 * fabs (dW 4%nat) * pow kappa_d1 (- 1 / 3))
                      3 s0) as Hc;
        set (r := for_loop 3 b s0) in *
    end.
    specialize (Hc ltac:(cbn [Legacy.pr_ki]; lia)).
    exists (if Z.eqb (Legacy.pr_ki r) 1 then dti / 3
            else IZR (Legacy.pr_ki r - 1) * (dti / 3)).
    split; [| split].
    + cbn [fst]. reflexivity.
    + destruct (Z.eqb_spec (Legacy.pr_ki r) 1) as [E1 | N1]; [lra |].
      assert (Hz : (Legacy.pr_ki r = 2 \/ Legacy.pr_ki r = 3
                    \/ Legacy.pr_ki r = 4)%Z) by lia.
      destruct Hz as [E | [E | E]]; rewrite E; simpl (IZR _); lra.
    + intros H0 H1. exfalso.
      apply orb_true_iff in Hb.
      destruct Hb as [Hb | Hb]; apply Rgtb_true in Hb; lra.
  - exists (3 * (hin / 3)).
    split; [| split].
    + unfold Legacy.sweep_pass. simpl.
      destruct (step_rejected kappa_k kappa_d0 kappa_d1); reflexivity.
    + lra.
    + intros _ _. field.
Qed.

End LegacyLanes.

(** X9.  The step size that [mccc_step_gc_adaptive] of [mccc/mccc.c]
    returns is bounded by the step it was given.  For a running lane
    with a positive [hin] and a positive error ratio [kappa_k] from the
    push, [hout] is negative when one of the three ratios exceeds 1 and
    positive otherwise, its size is at most [1.5*hin], and when
    [kappa_k] exceeds neither diffusion ratio its size is [hin]
    itself. *)
Theorem legacy_adaptive_step_bounded `{Collaborators}
  (Bdata : B_field_data) (pdata : plasma_1d_data) (hin : array real)
  (tol : real) (st : gc_adaptive_state) (i : nat) :
  (i < NSIMD)%nat -> gc_running (ga_p st i) = true ->
  let o :=
    ap_out
      (Legacy.gc_adaptive_wiener_push Bdata pdata hin tol i (ga_p st i)
         (ga_w st i) (ga_err st i)) in
  let hout :=
    ga_hout (Legacy.mccc_step_gc_adaptive Bdata pdata hin tol st) i in
  0 < hin i -> 0 < mi_kappa_k o ->
  (hout < 0 <->
   (mi_kappa_k o > 1 \/ mi_kappa_d0 o > 1 \/ mi_kappa_d1 o > 1)) /\
  0 < Rabs hout <= (15 / 10) * hin i /\
  (mi_kappa_k o <= mi_kappa_d0 o -> mi_kappa_k o <= mi_kappa_d1 o ->
   Rabs hout = hin i).
Proof.
  intros Hi Hrun o hout Hh Hk.
  pose proof (legacy_adaptive_hout Bdata pdata hin tol st i Hi Hrun) as E.
  cbv zeta in E. fold o hout in E.
  destruct (legacy_decision_size (hin i) (wn_time (ga_w st i) 0%Z)
              (ap_dW (Legacy.gc_adaptive_wiener_push Bdata pdata hin tol i
                        (ga_p st i) (ga_w st i) (ga_err st i)))
              (ap_tindex (Legacy.gc_adaptive_wiener_push Bdata pdata hin
                            tol i (ga_p st i) (ga_w st i) (ga_err st i)))
              (mi_kappa_k o) (mi_kappa_d0 o) (mi_kappa_d1 o)
              (ap_w (Legacy.gc_adaptive_wiener_push Bdata pdata hin tol i
                       (ga_p st i) (ga_w st i) (ga_err st i)))
              (mi_err o) Hh Hk) as (s & Es & Hs & Hd).
  rewrite <- E in Es. clear E.
  pose proof (step_rejected_true (mi_kappa_k o) (mi_kappa_d0 o)
                (mi_kappa_d1 o)) as Hrej.
  destruct (step_rejected (mi_kappa_k o) (mi_kappa_d0 o) (mi_kappa_d1 o)).
  - assert (Hr : mi_kappa_k o > 1 \/ mi_kappa_d0 o > 1 \/ mi_kappa_d1 o > 1)
      by (apply Hrej; reflexivity).
    rewrite Es. rewrite Rabs_Ropp, Rabs_pos_eq by lra.
    split; [split; [intros _; exact Hr | intros _; lra] | split].
    + exact Hs.
    + exact Hd.
  - assert (Hr : ~ (mi_kappa_k o > 1 \/ mi_kappa_d0 o > 1
                    \/ mi_kappa_d1 o > 1)).
    { intros Hc. apply Hrej in Hc. discriminate. }
    rewrite Es. rewrite Rabs_pos_eq by lra.
    split; [split; [intros Hn; lra | intros Hc; contradiction] | split].
    + exact Hs.
    + exact Hd.
Qed.

Lemma legacy_adaptive_step_bounded_witness :
  let C := demo 4 1 1 (demo_wiener 0 0) in
  let st := demo_gc_adaptive_state C tt in
  let o :=
    ap_out
      (@Legacy.gc_adaptive_wiener_push C tt tt (fun _ => 1) 1 0%nat
         (ga_p st 0%nat) (ga_w st 0%nat) (ga_err st 0%nat)) in
  let hout :=
    ga_hout (@Legacy.mccc_step_gc_adaptive C tt tt (fun _ => 1) 1 st)
      0%nat in
  (0 < @NSIMD C)%nat /\
  gc_running (ga_p st 0%nat) = true /\
  0 < 1 /\ 0 < mi_kappa_k o /\
  hout < 0 /\ Rabs hout <= 15 / 10 * 1.
Proof.
  intros C st o hout.
  assert (Hi : (0 < @NSIMD C)%nat) by (simpl; lia).
  assert (Hrun : gc_running (ga_p st 0%nat) = true) by reflexivity.
  assert (Hh : 0 < 1) by lra.
  assert (Hk : 0 < mi_kappa_k o) by (simpl; lra).
  split; [exact Hi | split; [exact Hrun | split; [exact Hh |
    split; [exact Hk |]]]].
  destruct (@legacy_adaptive_step_bounded C tt tt (fun _ => 1) 1 st 0%nat
              Hi Hrun Hh Hk) as (Hsign & Hsize & _).
  split.
  - apply Hsign. left. simpl. lra.
  - apply Hsize.
Defined.

(** ** The older file: what its steps leave alone *)

Section LegacyMarkers.
Context `{Collaborators}.

Lemma legacy_gc_fixed_marker_after (Bdata : B_field_data)
  (pdata : plasma_1d_data) (h u : array real) (st : gc_fixed_state)
  (j : nat) :
  gf_p (Legacy.mccc_step_gc_fixed Bdata pdata h u st) j =
  if (Nat.ltb j NSIMD && gc_running (gf_p st j))%bool
  then gf_p
         (Legacy.mccc_step_gc_fixed_lane Bdata pdata h u j
            {| gf_p := fun _ => gf_p st j;
               gf_err := fun _ => gf_err st j |}) j
  else gf_p st j.
Proof.
  pose proof (legacy_gc_fixed_lanes Bdata pdata h u st j) as E.
  apply (f_equal fst) in E. cbn [fst gc_fixed_lane] in E. rewrite E.
  destruct (Nat.ltb j NSIMD); [| reflexivity]. cbn [andb].
  destruct (gc_running (gf_p st j)) eqn:Hrun; [reflexivity |].
  unfold Legacy.mccc_step_gc_fixed_lane. cbn [gf_p]. rewrite Hrun.
  reflexivity.
Qed.

Lemma legacy_gc_adaptive_marker_after (Bdata : B_field_data)
  (pdata : plasma_1d_data) (hin : array real) (tol : real)
  (st : gc_adaptive_state) (j : nat) :
  ga_p (Legacy.mccc_step_gc_adaptive Bdata pdata hin tol st) j =
  if (Nat.ltb j NSIMD && gc_running (ga_p st j))%bool
  then ga_p
         (Legacy.mccc_step_gc_adaptive_lane Bdata pdata hin tol j
            {| ga_p := fun _ => ga_p st j;
               ga_hout := fun _ => ga_hout st j;
               ga_w := fun _ => ga_w st j;
               ga_err := fun _ => ga_err st j |}) j
  else ga_p st j.
Proof.
  pose proof (legacy_gc_adaptive_lanes Bdata pdata hin tol st j) as E.
  apply (f_equal (fun l => fst (fst (fst l)))) in E.
  cbn [fst gc_adaptive_lane] in E. rewrite E.
  destruct (Nat.ltb j NSIMD); [| reflexivity]. cbn [andb].
  destruct (gc_running (ga_p st j)) eqn:Hrun; [reflexivity |].
  unfold Legacy.mccc_step_gc_adaptive_lane. cbn [ga_p]. rewrite Hrun.
  reflexivity.
Qed.

End LegacyMarkers.

(** X10.  The guiding-centre steps of [mccc/mccc.c] never refresh what a
    marker caches.  For every lane, [mccc_step_gc_fixed] and
    [mccc_step_gc_adaptive] of that file leave the cached field and its
    derivatives, [rho], [pol], the mass, the charge and the running flag
    as they were, while a running lane is moved to the pushed position
    with [phi = atan2(Xout[1], Xout[0])]. *)
Theorem legacy_gc_steps_keep_cache `{Collaborators}
  (Bdata : B_field_data) (pdata : plasma_1d_data) (h u hin : array real)
  (tol : real) (sf : gc_fixed_state) (sa : gc_adaptive_state) (j : nat) :
  let mf := gf_p sf j in
  let mf' := gf_p (Legacy.mccc_step_gc_fixed Bdata pdata h u sf) j in
  let Xf :=
    em_Xout (snd (Legacy.gc_fixed_push Bdata pdata h u j mf (gf_err sf j))) in
  let ma := ga_p sa j in
  let ma' := ga_p (Legacy.mccc_step_gc_adaptive Bdata pdata hin tol sa) j in
  let Xa :=
    mi_Xout
      (ap_out
         (Legacy.gc_adaptive_wiener_push Bdata pdata hin tol j ma
            (ga_w sa j) (ga_err sa j))) in
  same_cache mf mf' /\ same_cache ma ma' /\
  ((j < NSIMD)%nat -> gc_running mf = true ->
   gc_r mf' = sqrt (v0 Xf * v0 Xf + v1 Xf * v1 Xf) /\
   gc_phi mf' = atan2 (v1 Xf) (v0 Xf) /\ gc_z mf' = v2 Xf) /\
  ((j < NSIMD)%nat -> gc_running ma = true ->
   gc_r ma' = sqrt (v0 Xa * v0 Xa + v1 Xa * v1 Xa) /\
   gc_phi ma' = atan2 (v1 Xa) (v0 Xa) /\ gc_z ma' = v2 Xa).
Proof.
  intros mf mf' Xf ma ma' Xa.
  pose proof (legacy_gc_fixed_marker_after Bdata pdata h u sf j) as Ef.
  pose proof (legacy_gc_adaptive_marker_after Bdata pdata hin tol sa j)
    as Ea.
  fold mf mf' in Ef. fold ma ma' in Ea.
  assert (Hsame : forall m : gc_marker, same_cache m m).
  { intros m. unfold same_cache. repeat split. }
  split; [| split; [| split]].
  - rewrite Ef.
    destruct (Nat.ltb j NSIMD && gc_running mf)%bool eqn:Hb;
      [| apply Hsame].
    apply andb_true_iff in Hb. destruct Hb as [_ Hrun].
    unfold Legacy.mccc_step_gc_fixed_lane. cbn [gf_p gf_err].
    fold mf. rewrite Hrun. cbn [gf_p]. rewrite upd_same.
    unfold same_cache. cbn. repeat split; congruence.
  - rewrite Ea.
    destruct (Nat.ltb j NSIMD && gc_running ma)%bool eqn:Hb;
      [| apply Hsame].
    apply andb_true_iff in Hb. destruct Hb as [_ Hrun].
    unfold Legacy.mccc_step_gc_adaptive_lane.
    cbn [ga_p ga_hout ga_w ga_err].
    fold ma. rewrite Hrun. cbn [ga_p]. rewrite upd_same.
    unfold same_cache. cbn. repeat split; congruence.
  - intros Hj Hrun. rewrite Ef.
    apply Nat.ltb_lt in Hj. rewrite Hj, Hrun. cbn [andb].
    unfold Legacy.mccc_step_gc_fixed_lane. cbn [gf_p gf_err].
    fold mf. rewrite Hrun. cbn [gf_p]. rewrite upd_same.
    cbn [gc_r gc_phi gc_z]. repeat split; congruence.
  - intros Hj Hrun. rewrite Ea.
    apply Nat.ltb_lt in Hj. rewrite Hj, Hrun. cbn [andb].
    unfold Legacy.mccc_step_gc_adaptive_lane.
    cbn [ga_p ga_hout ga_w ga_err].
    fold ma. rewrite Hrun. cbn [ga_p]. rewrite upd_same.
    cbn [gc_r gc_phi gc_z]. repeat split; congruence.
Qed.

(** X11.  [mccc_step_fo_fixed] of [mccc/mccc.c] hands [err], the
    address of element 0, to the push of every lane: no element of
    [err] other than element 0 is written, whichever lanes run and
    whatever their pushes report, and the markers keep their position,
    [rho], mass, charge and running flag. *)
Theorem legacy_fo_errors_only_in_slot_zero `{Collaborators}
  (Bdata : B_field_data) (pdata : plasma_1d_data) (h u : array real)
  (st : fo_state) (j : nat) :
  j <> 0%nat ->
  let st' := Legacy.mccc_step_fo_fixed Bdata pdata h u st in
  fs_err st' j = fs_err st j /\
  forall k : nat,
    fo_r (fs_p st' k) = fo_r (fs_p st k) /\
    fo_phi (fs_p st' k) = fo_phi (fs_p st k) /\
    fo_z (fs_p st' k) = fo_z (fs_p st k) /\
    fo_rho (fs_p st' k) = fo_rho (fs_p st k) /\
    fo_mass (fs_p st' k) = fo_mass (fs_p st k) /\
    fo_charge (fs_p st' k) = fo_charge (fs_p st k) /\
    fo_running (fs_p st' k) = fo_running (fs_p st k).
Proof.
  intros Hj st'. split.
  - apply legacy_fo_errors_in_slot_zero. exact Hj.
  - intros k. unfold st', Legacy.mccc_step_fo_fixed.
    assert (Hlane : forall (n : nat) (s : fo_state),
              let m := fs_p s k in
              let m' :=
                fs_p (Legacy.mccc_step_fo_fixed_lane Bdata pdata h u n s) k in
              fo_r m' = fo_r m /\ fo_phi m' = fo_phi m /\
              fo_z m' = fo_z m /\ fo_rho m' = fo_rho m /\
              fo_mass m' = fo_mass m /\ fo_charge m' = fo_charge m /\
              fo_running m' = fo_running m).
    { intros n s. unfold Legacy.mccc_step_fo_fixed_lane.
      destruct (fo_running (fs_p s n)) eqn:Hrun; cbn [fs_p];
        [| repeat split].
      unfold upd. destruct (Nat.eqb_spec k n) as [-> | Hne];
        cbn; repeat split; congruence. }
    induction NSIMD as [| n IH]; simpl; [repeat split |].
    specialize (Hlane n
                  (for_loop n (Legacy.mccc_step_fo_fixed_lane Bdata pdata h u)
                     st)).
    cbv zeta in Hlane.
    destruct Hlane as (L1 & L2 & L3 & L4 & L5 & L6 & L7).
    destruct IH as (I1 & I2 & I3 & I4 & I5 & I6 & I7).
    rewrite L1, L2, L3, L4, L5, L6, L7.
    repeat split; assumption.
Qed.

Lemma legacy_fo_errors_only_in_slot_zero_witness :
  let C := demo 1 1 1 (fun _ => 0) in
  let st' :=
    @Legacy.mccc_step_fo_fixed C tt tt (fun _ => 1) (fun _ => 0)
      demo_fo_state in
  1%nat <> 0%nat /\ fs_err st' 1%nat = fs_err demo_fo_state 1%nat.
Proof.
  intros C st'.
  assert (Hj : 1%nat <> 0%nat) by discriminate.
  split; [exact Hj |].
  exact (proj1 (@legacy_fo_errors_only_in_slot_zero C tt tt (fun _ => 1)
                  (fun _ => 0) demo_fo_state 1%nat Hj)).
Defined.

(** ** The plasma readers: result codes *)

Section ReaderCodes.
Context `{Collaborators}.

Lemma read_1D_code (f : Hdf5Plasma.plasma_group)
  (od : Hdf5Plasma.plasma_1D_offload_data) (oa : array real) :
  fst (fst (Hdf5Plasma.hdf5_plasma_read_1D f od oa)) =
  if datasets_1D f then 0%Z else 1%Z.
Proof.
  destruct f as [nion nrho rhomin rhomax znum anum charge mass rho te ne
                   ti ni].
  unfold Hdf5Plasma.hdf5_plasma_read_1D, datasets_1D.
  cbn [Hdf5Plasma.g_nion Hdf5Plasma.g_nrho Hdf5Plasma.g_znum
       Hdf5Plasma.g_anum Hdf5Plasma.g_charge Hdf5Plasma.g_mass
       Hdf5Plasma.g_rho Hdf5Plasma.g_etemperature Hdf5Plasma.g_edensity
       Hdf5Plasma.g_iontemperature Hdf5Plasma.g_iondensity].
  destruct nion; [| reflexivity].
  destruct nrho; [| reflexivity].
  destruct znum; [| reflexivity].
  destruct anum; [| reflexivity].
  destruct charge; [| reflexivity].
  destruct mass; [| reflexivity].
  destruct rho; [| reflexivity].
  destruct te; [| reflexivity].
  destruct ne; [| reflexivity].
  destruct ti; [| reflexivity].
  destruct ni; reflexivity.
Qed.

Lemma read_1DS_code (f : Hdf5Plasma.plasma_group)
  (od : Hdf5Plasma.plasma_1DS_offload_data) (oa : array real) :
  fst (fst (Hdf5Plasma.hdf5_plasma_read_1DS f od oa)) =
  if datasets_1DS f then 0%Z else 1%Z.
Proof.
  destruct f as [nion nrho rhomin rhomax znum anum charge mass rho te ne
                   ti ni].
  unfold Hdf5Plasma.hdf5_plasma_read_1DS, datasets_1DS.
  cbn [Hdf5Plasma.g_nion Hdf5Plasma.g_nrho Hdf5Plasma.g_rhomin
       Hdf5Plasma.g_rhomax Hdf5Plasma.g_znum
       Hdf5Plasma.g_anum Hdf5Plasma.g_charge Hdf5Plasma.g_mass
       Hdf5Plasma.g_etemperature Hdf5Plasma.g_edensity
       Hdf5Plasma.g_iontemperature Hdf5Plasma.g_iondensity].
  destruct nion; [| reflexivity].
  destruct nrho; [| reflexivity].
  destruct rhomin; [| reflexivity].
  destruct rhomax; [| reflexivity].
  destruct znum; [| reflexivity].
  destruct anum; [| reflexivity].
  destruct charge; [| reflexivity].
  destruct mass; [| reflexivity].
  destruct te; [| reflexivity].
  destruct ne; [| reflexivity].
  destruct ti; [| reflexivity].
  destruct ni; reflexivity.
Qed.

End ReaderCodes.

(** X12.  The result code of the plasma readers tells whether the data
    was complete.  [hdf5_plasma_read_1D] returns 0 when the eleven
    datasets it asks for ([nion], [nrho], [znum], [anum], [charge],
    [mass], [rho], [etemperature], [edensity], [iontemperature],
    [iondensity]) can all be read and 1 otherwise;
    [hdf5_plasma_read_1DS] does the same with [rhomin] and [rhomax] in
    place of [rho].  When [nion] cannot be read the offload structure
    and the array pointer are returned as they were given. *)
Theorem reader_code_tells_completeness `{Collaborators}
  (f : Hdf5Plasma.plasma_group)
  (od1 : Hdf5Plasma.plasma_1D_offload_data)
  (ods : Hdf5Plasma.plasma_1DS_offload_data) (oa : array real) :
  fst (fst (Hdf5Plasma.hdf5_plasma_read_1D f od1 oa)) =
    (if datasets_1D f then 0%Z else 1%Z) /\
  fst (fst (Hdf5Plasma.hdf5_plasma_read_1DS f ods oa)) =
    (if datasets_1DS f then 0%Z else 1%Z) /\
  (Hdf5Plasma.g_nion f = None ->
   Hdf5Plasma.hdf5_plasma_read_1D f od1 oa = (1%Z, od1, oa) /\
   Hdf5Plasma.hdf5_plasma_read_1DS f ods oa = (1%Z, ods, oa)).
Proof.
  split; [apply read_1D_code | split; [apply read_1DS_code |]].
  intros Hn.
  unfold Hdf5Plasma.hdf5_plasma_read_1D, Hdf5Plasma.hdf5_plasma_read_1DS.
  rewrite Hn. split; reflexivity.
Qed.

(** X13.  [hdf5_plasma_init_offload] looks for the 1D group and then
    for the 1DS group, and the later one decides.  Without either group
    it returns 1 and leaves the offload data and the array as given.
    When the 1DS group exists the type is set to [plasma_type_1DS] and
    the result is that of the 1DS branch alone: 1 if one of its
    datasets is missing, also when a complete 1D group was read just
    before, and otherwise what [plasma_init_offload] returns.  In every
    case a result of 0 comes from [plasma_init_offload]. *)
Theorem init_offload_later_group_decides `{Collaborators}
  (plasma_init_offload :
     plasma_offload_data -> array real ->
     Z * plasma_offload_data * array real)
  (f : plasma_file) (od : plasma_offload_data) (oa : array real) :
  let r := hdf5_plasma_init_offload plasma_init_offload f od oa in
  (pf_1D f = None -> pf_1DS f = None -> r = (1%Z, od, oa)) /\
  (forall g : Hdf5Plasma.plasma_group,
     pf_1DS f = Some g -> datasets_1DS g = false ->
     fst (fst r) = 1%Z /\ po_type (snd (fst r)) = plasma_type_1DS) /\
  (forall g : Hdf5Plasma.plasma_group,
     pf_1DS f = Some g -> datasets_1DS g = true ->
     exists od' oa',
       po_type od' = plasma_type_1DS /\ r = plasma_init_offload od' oa') /\
  (fst (fst r) = 0%Z ->
   exists od' oa', r = plasma_init_offload od' oa').
Proof.
  intros r. unfold r, hdf5_plasma_init_offload. cbv zeta.
  split; [| split; [| split]].
  - intros H1 H2. unfold init_offload_1D, init_offload_1DS.
    rewrite H1, H2. reflexivity.
  - intros g Hg Hd.
    set (s := init_offload_1D f (1%Z, od, oa)).
    assert (E : init_offload_1DS f s =
                (1%Z,
                 {| po_type := plasma_type_1DS;
                    po_plasma_1D := po_plasma_1D (snd (fst s));
                    po_plasma_1DS :=
                      snd (fst (Hdf5Plasma.hdf5_plasma_read_1DS g
                                  (po_plasma_1DS (snd (fst s))) (snd s))) |},
                 snd (Hdf5Plasma.hdf5_plasma_read_1DS g
                        (po_plasma_1DS (snd (fst s))) (snd s)))).
    { unfold init_offload_1DS. rewrite Hg. cbv zeta.
      rewrite read_1DS_code, Hd. reflexivity. }
    rewrite E. cbn [Z.eqb fst snd po_type].
    split; reflexivity.
  - intros g Hg Hd. unfold init_offload_1DS.
    rewrite Hg. cbv zeta. cbn [fst snd].
    rewrite read_1DS_code, Hd. cbn [Z.eqb].
    eexists. eexists. split; [| reflexivity]. reflexivity.
  - destruct (Z.eqb_spec
                (fst (fst (init_offload_1DS f
                             (init_offload_1D f (1%Z, od, oa))))) 0)
      as [E | N].
    + intros _. eexists. eexists. reflexivity.
    + intros E. contradiction.
Qed.

Lemma init_offload_later_group_decides_witness :
  let C := demo 1 1 1 (fun _ => 0) in
  let r :=
    @hdf5_plasma_init_offload C demo_init_offload demo_file
      demo_plasma_offload uninit in
  pf_1DS demo_file = Some (demo_group 2) /\
  datasets_1DS (demo_group 2) = true /\
  fst (fst r) = 0%Z /\ po_type (snd (fst r)) = plasma_type_1DS.
Proof.
  intros C r.
  assert (Hg : pf_1DS demo_file = Some (demo_group 2)) by reflexivity.
  assert (Hd : datasets_1DS (demo_group 2) = true) by reflexivity.
  split; [exact Hg | split; [exact Hd |]].
  destruct (@init_offload_later_group_decides C demo_init_offload demo_file
              demo_plasma_offload uninit) as (_ & _ & Hok & _).
  destruct (Hok (demo_group 2) Hg Hd) as (od' & oa' & Ht & Er).
  fold r in Er. rewrite Er. unfold demo_init_offload. cbn [fst snd].
  split; [reflexivity | exact Ht].
Defined.

(** ** The plasma readers: the offload array *)

Lemma write_list_at {A : Type} (a : array A) (off : nat) (l : list A)
  (d : A) (i : nat) :
  (i < length l)%nat -> write_list a off l (off + i)%nat = List.nth i l d.
Proof.
  intros Hi. unfold write_list.
  assert (H1 : Nat.leb off (off + i) = true) by (apply Nat.leb_le; lia).
  assert (H2 : Nat.ltb (off + i) (off + length l) = true)
    by (apply Nat.ltb_lt; lia).
  rewrite H1, H2. cbn [andb].
  replace (off + i - off)%nat with i by lia.
  now apply List.nth_indep.
Qed.

Lemma write_list_away {A : Type} (a : array A) (off : nat) (l : list A)
  (j : nat) :
  (j < off \/ off + length l <= j)%nat -> write_list a off l j = a j.
Proof.
  intros Hj. unfold write_list.
  destruct (Nat.leb_spec off j) as [H1 | H1]; cbn [andb]; [| reflexivity].
  destruct (Nat.ltb_spec j (off + length l)) as [H2 | H2]; [lia |].
  reflexivity.
Qed.

Section ScaleTemperatures.
Context `{Collaborators}.

(** The loop that turns the temperatures from eV into J multiplies each
    entry of the two blocks once, when the blocks do not overlap. *)
Lemma scale_temperatures_spec (n_rho : Z) (off_e off_i : nat)
  (oa : array real) (k : nat) :
  (off_e + Z.to_nat n_rho <= off_i)%nat ->
  Hdf5Plasma.scale_temperatures n_rho off_e off_i oa k =
  if (Nat.leb off_e k && Nat.ltb k (off_e + Z.to_nat n_rho))
     || (Nat.leb off_i k && Nat.ltb k (off_i + Z.to_nat n_rho))
  then oa k * CONST_E else oa k.
Proof.
  unfold Hdf5Plasma.scale_temperatures, for_int. rewrite Nat.sub_0_r.
  generalize (Z.to_nat n_rho) as n. intros n Hd.
  assert (Hgen : forall c : nat, (c <= n)%nat ->
            for_loop c
              (fun (k0 : nat) (oa0 : array real) =>
                 upd (upd oa0 (off_e + (0 + k0))
                        (oa0 (off_e + (0 + k0))%nat * CONST_E))
                   (off_i + (0 + k0))
                   (upd oa0 (off_e + (0 + k0))
                      (oa0 (off_e + (0 + k0))%nat * CONST_E)
                      (off_i + (0 + k0))%nat * CONST_E)) oa k =
            if (Nat.leb off_e k && Nat.ltb k (off_e + c))
               || (Nat.leb off_i k && Nat.ltb k (off_i + c))
            then oa k * CONST_E else oa k).
  { induction c as [| c IH]; intros Hc.
    - simpl.
      destruct (Nat.leb_spec off_e k), (Nat.ltb_spec k (off_e + 0)),
        (Nat.leb_spec off_i k), (Nat.ltb_spec k (off_i + 0));
        cbn [andb orb]; try reflexivity; lia.
    - cbn [for_loop]. cbn [Nat.add].
      set (prev := for_loop c _ oa) in *.
      assert (IHc := IH ltac:(lia)). clear IH.
      unfold upd at 1.
      destruct (Nat.eqb_spec k (off_i + c)) as [Ei | Ni].
      + unfold upd at 1.
        destruct (Nat.eqb_spec (off_i + c) (off_e + c)) as [Ee | Ne];
          [lia |].
        assert (Hp : prev (off_i + c)%nat = oa (off_i + c)%nat).
        { subst k. rewrite IHc.
          destruct (Nat.leb_spec off_e (off_i + c)),
            (Nat.ltb_spec (off_i + c) (off_e + c)),
            (Nat.leb_spec off_i (off_i + c)),
            (Nat.ltb_spec (off_i + c) (off_i + c));
            cbn [andb orb]; try reflexivity; lia. }
        rewrite Hp. subst k.
        destruct (Nat.leb_spec off_e (off_i + c)),
          (Nat.ltb_spec (off_i + c) (off_e + S c)),
          (Nat.leb_spec off_i (off_i + c)),
          (Nat.ltb_spec (off_i + c) (off_i + S c));
          cbn [andb orb]; try reflexivity; lia.
      + unfold upd at 1.
        destruct (Nat.eqb_spec k (off_e + c)) as [Ee | Ne].
        * assert (Hp : prev (off_e + c)%nat = oa (off_e + c)%nat).
          { subst k. rewrite IHc.
            destruct (Nat.leb_spec off_e (off_e + c)),
              (Nat.ltb_spec (off_e + c) (off_e + c)),
              (Nat.leb_spec off_i (off_e + c)),
              (Nat.ltb_spec (off_e + c) (off_i + c));
              cbn [andb orb]; try reflexivity; lia. }
          rewrite Hp. subst k.
          destruct (Nat.leb_spec off_e (off_e + c)),
            (Nat.ltb_spec (off_e + c) (off_e + S c)),
            (Nat.leb_spec off_i (off_e + c)),
            (Nat.ltb_spec (off_e + c) (off_i + S c));
            cbn [andb orb]; try reflexivity; lia.
        * rewrite IHc.
          destruct (Nat.leb_spec off_e k), (Nat.ltb_spec k (off_e + c)),
            (Nat.ltb_spec k (off_e + S c)),
            (Nat.leb_spec off_i k), (Nat.ltb_spec k (off_i + c)),
            (Nat.ltb_spec k (off_i + S c));
            cbn [andb orb]; try reflexivity; lia. }
  apply Hgen. lia.
Qed.

End ScaleTemperatures.

Lemma write_list_hit {A : Type} (a : array A) (off : nat) (l : list A)
  (d : A) (j i : nat) :
  (i < length l)%nat -> j = (off + i)%nat ->
  write_list a off l j = List.nth i l d.
Proof.
  intros Hi ->. now apply write_list_at.
Qed.

Ltac block_cases :=
  repeat match goal with
         | |- context [Nat.leb ?a ?b] => destruct (Nat.leb_spec a b)
         | |- context [Nat.ltb ?a ?b] => destruct (Nat.ltb_spec a b)
         end;
  cbn [andb orb]; try lia.

(** X14.  The offload array that [hdf5_plasma_read_1D] fills.  For a
    group with [nion >= 0] ions and [nrho >= 0] grid points whose
    datasets have the lengths these numbers ask for and with
    [(nion + 4)*nrho] within [int], the reader returns 0, sets
    [offload_array_length] to [(nion + 4)*nrho], and leaves five blocks
    in this order: the [rho] grid, the electron temperature, the ion
    temperature, the electron density, the ion densities.  Densities and
    grid are stored as read; each temperature is stored multiplied by
    [CONST_E], once. *)
Theorem read_1D_offload_array `{Collaborators}
  (f : Hdf5Plasma.plasma_group) (od : Hdf5Plasma.plasma_1D_offload_data)
  (oa : array real) (n_ions n_rho : Z) (znum anum qs ms : list Z)
  (rho te ne ti ni : list real) :
  Hdf5Plasma.g_nion f = Some n_ions ->
  Hdf5Plasma.g_nrho f = Some n_rho ->
  Hdf5Plasma.g_znum f = Some znum ->
  Hdf5Plasma.g_anum f = Some anum ->
  Hdf5Plasma.g_charge f = Some qs ->
  Hdf5Plasma.g_mass f = Some ms ->
  Hdf5Plasma.g_rho f = Some rho ->
  Hdf5Plasma.g_etemperature f = Some te ->
  Hdf5Plasma.g_edensity f = Some ne ->
  Hdf5Plasma.g_iontemperature f = Some ti ->
  Hdf5Plasma.g_iondensity f = Some ni ->
  (0 <= n_ions)%Z -> (0 <= n_rho)%Z ->
  ((n_ions + 4) * n_rho < 2 ^ 31)%Z -> (n_ions + 1 < 2 ^ 31)%Z ->
  length rho = Z.to_nat n_rho -> length te = Z.to_nat n_rho ->
  length ne = Z.to_nat n_rho -> length ti = Z.to_nat n_rho ->
  length ni = Z.to_nat (n_ions * n_rho) ->
  let r := Hdf5Plasma.hdf5_plasma_read_1D f od oa in
  let N := Z.to_nat n_rho in
  fst (fst r) = 0%Z /\
  Hdf5Plasma.d1_n_rho (snd (fst r)) = n_rho /\
  Hdf5Plasma.d1_offload_array_length (snd (fst r)) =
    ((n_ions + 4) * n_rho)%Z /\
  (forall i : nat, (i < N)%nat ->
     snd r i = List.nth i rho 0 /\
     snd r (N + i)%nat = List.nth i te 0 * CONST_E /\
     snd r (2 * N + i)%nat = List.nth i ti 0 * CONST_E /\
     snd r (3 * N + i)%nat = List.nth i ne 0) /\
  (forall j : nat, (j < Z.to_nat (n_ions * n_rho))%nat ->
     snd r (4 * N + j)%nat = List.nth j ni 0).
Proof.
  intros Hnion Hnrho Hznum Hanum Hq Hm Hrho Hte Hne Hti Hni
    Hi0 Hr0 Hbig Hsp Lrho Lte Lne Lti Lni r N.
  assert (B1 : (n_ions * n_rho <= (n_ions + 4) * n_rho)%Z) by nia.
  assert (B2 : (4 * n_rho <= (n_ions + 4) * n_rho)%Z) by nia.
  assert (B3 : (0 <= n_ions * n_rho)%Z) by nia.
  assert (W1 : wrap_int (n_ions + 1) = (n_ions + 1)%Z)
    by (apply wrap_int_in_range; lia).
  assert (W2 : wrap_int (3 * n_rho) = (3 * n_rho)%Z)
    by (apply wrap_int_in_range; lia).
  assert (W3 : wrap_int ((n_ions + 1) * n_rho) = ((n_ions + 1) * n_rho)%Z)
    by (apply wrap_int_in_range; nia).
  assert (W4 : wrap_int (3 * n_rho + (n_ions + 1) * n_rho) =
               ((n_ions + 4) * n_rho)%Z).
  { rewrite wrap_int_in_range by nia. ring. }
  assert (W5 : Z.to_nat (wrap_int (n_rho * 2)) = (2 * N)%nat)
    by (rewrite wrap_int_in_range by lia; unfold N; lia).
  assert (W6 : Z.to_nat (wrap_int (n_rho * 3)) = (3 * N)%nat)
    by (rewrite wrap_int_in_range by lia; unfold N; lia).
  assert (W7 : Z.to_nat (wrap_int (n_rho * 4)) = (4 * N)%nat)
    by (rewrite wrap_int_in_range by lia; unfold N; lia).
  assert (Er : r =
    (0%Z,
     {| Hdf5Plasma.d1_n_rho := n_rho;
        Hdf5Plasma.d1_n_species := (n_ions + 1)%Z;
        Hdf5Plasma.d1_mass := Hdf5Plasma.d1_mass (snd (fst r));
        Hdf5Plasma.d1_charge := Hdf5Plasma.d1_charge (snd (fst r));
        Hdf5Plasma.d1_znum := Hdf5Plasma.d1_znum (snd (fst r));
        Hdf5Plasma.d1_anum := Hdf5Plasma.d1_anum (snd (fst r));
        Hdf5Plasma.d1_offload_array_length := ((n_ions + 4) * n_rho)%Z |},
     Hdf5Plasma.scale_temperatures n_rho N (2 * N)
       (write_list
          (write_list
             (write_list
                (write_list (write_list uninit 0 rho) N te) (3 * N) ne)
             (2 * N) ti) (4 * N) ni))).
  { unfold r, Hdf5Plasma.hdf5_plasma_read_1D.
    rewrite Hnion, Hnrho, Hznum, Hanum, Hq, Hm, Hrho, Hte, Hne, Hti, Hni.
    cbv zeta.
    cbn [fst snd Hdf5Plasma.d1_n_rho Hdf5Plasma.d1_n_species
         Hdf5Plasma.d1_mass Hdf5Plasma.d1_charge Hdf5Plasma.d1_znum
         Hdf5Plasma.d1_anum Hdf5Plasma.d1_offload_array_length].
    rewrite W1, W2, W3, W4, W5, W6, W7. fold N. reflexivity. }
  rewrite Er. cbn [fst snd Hdf5Plasma.d1_n_rho
                     Hdf5Plasma.d1_offload_array_length].
  split; [reflexivity | split; [reflexivity | split; [reflexivity |]]].
  fold N in Lrho, Lte, Lne, Lti.
  split.
  - intros i Hi.
    rewrite !scale_temperatures_spec by (fold N; lia). fold N.
    split; [| split; [| split]].
    + replace ((Nat.leb N i && Nat.ltb i (N + N))
               || (Nat.leb (2 * N) i && Nat.ltb i (2 * N + N)))%bool
        with false by (symmetry; block_cases; reflexivity).
      rewrite !write_list_away by lia.
      apply write_list_hit; lia.
    + replace ((Nat.leb N (N + i) && Nat.ltb (N + i) (N + N))
               || (Nat.leb (2 * N) (N + i)
                   && Nat.ltb (N + i) (2 * N + N)))%bool
        with true by (symmetry; block_cases; reflexivity).
      f_equal. rewrite !write_list_away by lia.
      apply write_list_hit; lia.
    + replace ((Nat.leb N (2 * N + i) && Nat.ltb (2 * N + i) (N + N))
               || (Nat.leb (2 * N) (2 * N + i)
                   && Nat.ltb (2 * N + i) (2 * N + N)))%bool
        with true by (symmetry; block_cases; reflexivity).
      f_equal. rewrite write_list_away by lia.
      apply write_list_hit; lia.
    + replace ((Nat.leb N (3 * N + i) && Nat.ltb (3 * N + i) (N + N))
               || (Nat.leb (2 * N) (3 * N + i)
                   && Nat.ltb (3 * N + i) (2 * N + N)))%bool
        with false by (symmetry; block_cases; reflexivity).
      rewrite !write_list_away by lia.
      apply write_list_hit; lia.
  - intros j Hj.
    rewrite scale_temperatures_spec by (fold N; lia). fold N.
    replace ((Nat.leb N (4 * N + j) && Nat.ltb (4 * N + j) (N + N))
             || (Nat.leb (2 * N) (4 * N + j)
                 && Nat.ltb (4 * N + j) (2 * N + N)))%bool
      with false by (symmetry; block_cases; reflexivity).
    apply write_list_hit; lia.
Qed.

Lemma read_1D_offload_array_witness :
  let C := demo 1 1 1 (fun _ => 0) in
  let f := demo_group 2 in
  let r := @Hdf5Plasma.hdf5_plasma_read_1D C f demo_1D_offload uninit in
  (Hdf5Plasma.g_nion f = Some 2%Z /\
   Hdf5Plasma.g_nrho f = Some 2%Z /\
   Hdf5Plasma.g_znum f = Some (1 :: 2 :: nil)%Z%list /\
   Hdf5Plasma.g_anum f = Some (2 :: 4 :: nil)%Z%list /\
   Hdf5Plasma.g_charge f = Some (1 :: 2 :: nil)%Z%list /\
   Hdf5Plasma.g_mass f = Some (2 :: 4 :: nil)%Z%list) /\
  (Hdf5Plasma.g_rho f = Some (0 :: 1 :: nil)%list /\
   Hdf5Plasma.g_etemperature f = Some (1 :: 1 :: nil)%list /\
   Hdf5Plasma.g_edensity f = Some (1 :: 1 :: nil)%list /\
   Hdf5Plasma.g_iontemperature f = Some (1 :: 1 :: nil)%list /\
   Hdf5Plasma.g_iondensity f = Some (1 :: 1 :: 1 :: 1 :: nil)%list) /\
  ((0 <= 2)%Z /\ ((2 + 4) * 2 < 2 ^ 31)%Z /\ (2 + 1 < 2 ^ 31)%Z /\
   length (0 :: 1 :: nil)%list = Z.to_nat 2 /\
   length (1 :: 1 :: nil)%list = Z.to_nat 2 /\
   length (1 :: 1 :: 1 :: 1 :: nil)%list = Z.to_nat (2 * 2)) /\
  fst (fst r) = 0%Z /\
  Hdf5Plasma.d1_offload_array_length (snd (fst r)) = 12%Z /\
  snd r 1%nat = 1 /\ snd r 2%nat = 1 * @CONST_E C.
Proof.
  intros C f r.
  assert (H0 : (0 <= 2)%Z) by lia.
  assert (Hbig : ((2 + 4) * 2 < 2 ^ 31)%Z) by lia.
  assert (Hsp : (2 + 1 < 2 ^ 31)%Z) by lia.
  assert (L2a : length (0 :: 1 :: nil)%list = Z.to_nat 2) by reflexivity.
  assert (L2b : length (1 :: 1 :: nil)%list = Z.to_nat 2) by reflexivity.
  assert (L4 : length (1 :: 1 :: 1 :: 1 :: nil)%list = Z.to_nat (2 * 2))
    by reflexivity.
  split; [repeat split |].
  split; [repeat split |].
  split; [split; [exact H0 | split; [exact Hbig | split; [exact Hsp |
    split; [exact L2a | split; [exact L2b | exact L4]]]]] |].
  destruct (@read_1D_offload_array C f demo_1D_offload uninit 2%Z 2%Z
              (1 :: 2 :: nil)%Z%list (2 :: 4 :: nil)%Z%list
              (1 :: 2 :: nil)%Z%list (2 :: 4 :: nil)%Z%list
              (0 :: 1 :: nil)%list (1 :: 1 :: nil)%list
              (1 :: 1 :: nil)%list (1 :: 1 :: nil)%list
              (1 :: 1 :: 1 :: 1 :: nil)%list
              eq_refl eq_refl eq_refl eq_refl eq_refl eq_refl eq_refl
              eq_refl eq_refl eq_refl eq_refl H0 H0 Hbig Hsp L2a L2b L2b
              L2b L4) as (Hc & _ & Hlen & Hgrid & _).
  fold r in Hc, Hlen, Hgrid.
  split; [exact Hc | split; [exact Hlen |]].
  destruct (Hgrid 1%nat ltac:(simpl; lia)) as (Hrho1 & _).
  destruct (Hgrid 0%nat ltac:(simpl; lia)) as (_ & Hte0 & _).
  split; [exact Hrho1 | exact Hte0].
Defined.

(** X15.  The offload array that [hdf5_plasma_read_1DS] fills.  Under
    the same conditions on the group, the reader returns 0, stores
    [rhomin] and [rhomax], sets [offload_array_length] to
    [(nion + 3)*nrho], and leaves four blocks in this order: the
    electron temperature, the ion temperature, the electron density,
    the ion densities; there is no [rho] block.  Each temperature is
    stored multiplied by [CONST_E], once. *)
Theorem read_1DS_offload_array `{Collaborators}
  (f : Hdf5Plasma.plasma_group) (od : Hdf5Plasma.plasma_1DS_offload_data)
  (oa : array real) (n_ions n_rho : Z) (rho_min rho_max : real)
  (znum anum qs ms : list Z) (te ne ti ni : list real) :
  Hdf5Plasma.g_nion f = Some n_ions ->
  Hdf5Plasma.g_nrho f = Some n_rho ->
  Hdf5Plasma.g_rhomin f = Some rho_min ->
  Hdf5Plasma.g_rhomax f = Some rho_max ->
  Hdf5Plasma.g_znum f = Some znum ->
  Hdf5Plasma.g_anum f = Some anum ->
  Hdf5Plasma.g_charge f = Some qs ->
  Hdf5Plasma.g_mass f = Some ms ->
  Hdf5Plasma.g_etemperature f = Some te ->
  Hdf5Plasma.g_edensity f = Some ne ->
  Hdf5Plasma.g_iontemperature f = Some ti ->
  Hdf5Plasma.g_iondensity f = Some ni ->
  (0 <= n_ions)%Z -> (0 <= n_rho)%Z ->
  ((n_ions + 3) * n_rho < 2 ^ 31)%Z -> (n_ions + 1 < 2 ^ 31)%Z ->
  length te = Z.to_nat n_rho ->
  length ne = Z.to_nat n_rho -> length ti = Z.to_nat n_rho ->
  length ni = Z.to_nat (n_ions * n_rho) ->
  let r := Hdf5Plasma.hdf5_plasma_read_1DS f od oa in
  let N := Z.to_nat n_rho in
  fst (fst r) = 0%Z /\
  Hdf5Plasma.s_n_rho (snd (fst r)) = n_rho /\
  Hdf5Plasma.s_rho_min (snd (fst r)) = rho_min /\
  Hdf5Plasma.s_rho_max (snd (fst r)) = rho_max /\
  Hdf5Plasma.s_offload_array_length (snd (fst r)) =
    ((n_ions + 3) * n_rho)%Z /\
  (forall i : nat, (i < N)%nat ->
     snd r i = List.nth i te 0 * CONST_E /\
     snd r (N + i)%nat = List.nth i ti 0 * CONST_E /\
     snd r (2 * N + i)%nat = List.nth i ne 0) /\
  (forall j : nat, (j < Z.to_nat (n_ions * n_rho))%nat ->
     snd r (3 * N + j)%nat = List.nth j ni 0).
Proof.
  intros Hnion Hnrho Hmin Hmax Hznum Hanum Hq Hm Hte Hne Hti Hni
    Hi0 Hr0 Hbig Hsp Lte Lne Lti Lni r N.
  assert (B1 : (n_ions * n_rho <= (n_ions + 3) * n_rho)%Z) by nia.
  assert (B2 : (3 * n_rho <= (n_ions + 3) * n_rho)%Z) by nia.
  assert (B3 : (0 <= n_ions * n_rho)%Z) by nia.
  assert (W1 : wrap_int (n_ions + 1) = (n_ions + 1)%Z)
    by (apply wrap_int_in_range; lia).
  assert (W2 : wrap_int (2 * n_rho) = (2 * n_rho)%Z)
    by (apply wrap_int_in_range; lia).
  assert (W3 : wrap_int ((n_ions + 1) * n_rho) = ((n_ions + 1) * n_rho)%Z)
    by (apply wrap_int_in_range; nia).
  assert (W4 : wrap_int (2 * n_rho + (n_ions + 1) * n_rho) =
               ((n_ions + 3) * n_rho)%Z).
  { rewrite wrap_int_in_range by nia. ring. }
  assert (W5 : Z.to_nat (wrap_int (n_rho * 1)) = N)
    by (rewrite wrap_int_in_range by lia; unfold N; lia).
  assert (W6 : Z.to_nat (wrap_int (n_rho * 2)) = (2 * N)%nat)
    by (rewrite wrap_int_in_range by lia; unfold N; lia).
  assert (W7 : Z.to_nat (wrap_int (n_rho * 3)) = (3 * N)%nat)
    by (rewrite wrap_int_in_range by lia; unfold N; lia).
  assert (Er : r =
    (0%Z,
     {| Hdf5Plasma.s_n_rho := n_rho;
        Hdf5Plasma.s_rho_min := rho_min;
        Hdf5Plasma.s_rho_max := rho_max;
        Hdf5Plasma.s_n_species := (n_ions + 1)%Z;
        Hdf5Plasma.s_mass := Hdf5Plasma.s_mass (snd (fst r));
        Hdf5Plasma.s_charge := Hdf5Plasma.s_charge (snd (fst r));
        Hdf5Plasma.s_znum := Hdf5Plasma.s_znum (snd (fst r));
        Hdf5Plasma.s_anum := Hdf5Plasma.s_anum (snd (fst r));
        Hdf5Plasma.s_offload_array_length := ((n_ions + 3) * n_rho)%Z |},
     Hdf5Plasma.scale_temperatures n_rho 0 N
       (write_list
          (write_list
             (write_list (write_list uninit 0 te) (2 * N) ne) N ti)
          (3 * N) ni))).
  { unfold r, Hdf5Plasma.hdf5_plasma_read_1DS.
    rewrite Hnion, Hnrho, Hmin, Hmax, Hznum, Hanum, Hq, Hm, Hte, Hne, Hti,
      Hni.
    cbv zeta.
    cbn [fst snd Hdf5Plasma.s_n_rho Hdf5Plasma.s_rho_min
         Hdf5Plasma.s_rho_max Hdf5Plasma.s_n_species
         Hdf5Plasma.s_mass Hdf5Plasma.s_charge Hdf5Plasma.s_znum
         Hdf5Plasma.s_anum Hdf5Plasma.s_offload_array_length].
    rewrite W1, W2, W3, W4, W5, W6, W7. reflexivity. }
  rewrite Er. cbn [fst snd Hdf5Plasma.s_n_rho Hdf5Plasma.s_rho_min
                     Hdf5Plasma.s_rho_max
                     Hdf5Plasma.s_offload_array_length].
  split; [reflexivity | split; [reflexivity | split; [reflexivity |
    split; [reflexivity | split; [reflexivity |]]]]].
  fold N in Lte, Lne, Lti.
  split.
  - intros i Hi.
    rewrite !scale_temperatures_spec by (fold N; lia). fold N.
    split; [| split].
    + replace ((Nat.leb 0 i && Nat.ltb i (0 + N))
               || (Nat.leb N i && Nat.ltb i (N + N)))%bool
        with true by (symmetry; block_cases; reflexivity).
      f_equal. rewrite !write_list_away by lia.
      apply write_list_hit; lia.
    + replace ((Nat.leb 0 (N + i) && Nat.ltb (N + i) (0 + N))
               || (Nat.leb N (N + i) && Nat.ltb (N + i) (N + N)))%bool
        with true by (symmetry; block_cases; reflexivity).
      f_equal. rewrite write_list_away by lia.
      apply write_list_hit; lia.
    + replace ((Nat.leb 0 (2 * N + i) && Nat.ltb (2 * N + i) (0 + N))
               || (Nat.leb N (2 * N + i)
                   && Nat.ltb (2 * N + i) (N + N)))%bool
        with false by (symmetry; block_cases; reflexivity).
      rewrite !write_list_away by lia.
      apply write_list_hit; lia.
  - intros j Hj.
    rewrite scale_temperatures_spec by (fold N; lia). fold N.
    replace ((Nat.leb 0 (3 * N + j) && Nat.ltb (3 * N + j) (0 + N))
             || (Nat.leb N (3 * N + j) && Nat.ltb (3 * N + j) (N + N)))%bool
      with false by (symmetry; block_cases; reflexivity).
    apply write_list_hit; lia.
Qed.

Lemma read_1DS_offload_array_witness :
  let C := demo 1 1 1 (fun _ => 0) in
  let f := demo_group 2 in
  let r := @Hdf5Plasma.hdf5_plasma_read_1DS C f demo_1DS_offload uninit in
  (Hdf5Plasma.g_nion f = Some 2%Z /\
   Hdf5Plasma.g_nrho f = Some 2%Z /\
   Hdf5Plasma.g_rhomin f = Some 0 /\
   Hdf5Plasma.g_rhomax f = Some 1 /\
   Hdf5Plasma.g_znum f = Some (1 :: 2 :: nil)%Z%list /\
   Hdf5Plasma.g_anum f = Some (2 :: 4 :: nil)%Z%list /\
   Hdf5Plasma.g_charge f = Some (1 :: 2 :: nil)%Z%list /\
   Hdf5Plasma.g_mass f = Some (2 :: 4 :: nil)%Z%list) /\
  (Hdf5Plasma.g_etemperature f = Some (1 :: 1 :: nil)%list /\
   Hdf5Plasma.g_edensity f = Some (1 :: 1 :: nil)%list /\
   Hdf5Plasma.g_iontemperature f = Some (1 :: 1 :: nil)%list /\
   Hdf5Plasma.g_iondensity f = Some (1 :: 1 :: 1 :: 1 :: nil)%list) /\
  ((0 <= 2)%Z /\ ((2 + 3) * 2 < 2 ^ 31)%Z /\ (2 + 1 < 2 ^ 31)%Z /\
   length (1 :: 1 :: nil)%list = Z.to_nat 2 /\
   length (1 :: 1 :: 1 :: 1 :: nil)%list = Z.to_nat (2 * 2)) /\
  fst (fst r) = 0%Z /\
  Hdf5Plasma.s_offload_array_length (snd (fst r)) = 10%Z /\
  snd r 0%nat = 1 * @CONST_E C /\ snd r 4%nat = 1.
Proof.
  intros C f r.
  assert (H0 : (0 <= 2)%Z) by lia.
  assert (Hbig : ((2 + 3) * 2 < 2 ^ 31)%Z) by lia.
  assert (Hsp : (2 + 1 < 2 ^ 31)%Z) by lia.
  assert (L2 : length (1 :: 1 :: nil)%list = Z.to_nat 2) by reflexivity.
  assert (L4 : length (1 :: 1 :: 1 :: 1 :: nil)%list = Z.to_nat (2 * 2))
    by reflexivity.
  split; [repeat split |].
  split; [repeat split |].
  split; [split; [exact H0 | split; [exact Hbig | split; [exact Hsp |
    split; [exact L2 | exact L4]]]] |].
  destruct (@read_1DS_offload_array C f demo_1DS_offload uninit 2%Z 2%Z
              0 1
              (1 :: 2 :: nil)%Z%list (2 :: 4 :: nil)%Z%list
              (1 :: 2 :: nil)%Z%list (2 :: 4 :: nil)%Z%list
              (1 :: 1 :: nil)%list
              (1 :: 1 :: nil)%list (1 :: 1 :: nil)%list
              (1 :: 1 :: 1 :: 1 :: nil)%list
              eq_refl eq_refl eq_refl eq_refl eq_refl eq_refl eq_refl
              eq_refl eq_refl eq_refl eq_refl eq_refl H0 H0 Hbig Hsp L2 L2
              L2 L4) as (Hc & _ & _ & _ & Hlen & Hgrid & _).
  fold r in Hc, Hlen, Hgrid.
  split; [exact Hc | split; [exact Hlen |]].
  destruct (Hgrid 0%nat ltac:(simpl; lia)) as (Hte0 & _ & Hne0).
  split; [exact Hte0 | exact Hne0].
Defined.
